(** * Visitor classification server and in-browser detector

    A shallow embedding of [server.js] (the Express application: request
    classifier, rate limiter, fingerprint ledger, score aggregator, verdict
    ladder, redirect construction, proof-of-work exchange) and of
    [au0cki7gbr.js] (the [AdvancedBotDetector] class that runs in the
    visitor's browser), followed by the properties established about them.

    Conventions.
    - A JavaScript number that can carry client-supplied data is a binary64
      float ([PrimFloat.float]); [Date.now()] readings, which are integral
      and far below 2^53, are [Z].
    - A JavaScript string is a [string] whose characters are its code units;
      the model covers code units below 256.
    - A parsed JSON body is a [json] value; an absent property ([undefined])
      is [None].
    - [Map] objects are [gmap]s: the code never depends on iteration order.
    - Clock readings, [Math.random()] draws and [crypto.randomBytes] output
      are inputs of each request, gathered in a [Readings] record. *)

From Stdlib Require Import ZArith List String Ascii Floats Lia Bool Sorted
  DecimalString.
From stdpp Require Import gmap strings list fin_maps.

#[local] Set Warnings "-inexact-float".

Open Scope Z_scope.

(* ===================================================================== *)
(** ** JavaScript values *)
(* ===================================================================== *)

Module Js.

(** *** Numbers *)

Definition number := float.

(** [x >= y], [x > y], [x < y], [x <= y] on numbers. *)
Definition ge (x y : number) : bool := PrimFloat.leb y x.
Definition gt (x y : number) : bool := PrimFloat.ltb y x.
Definition lt (x y : number) : bool := PrimFloat.ltb x y.
Definition le (x y : number) : bool := PrimFloat.leb x y.

(** The number that represents an integer (exact below 2^53). *)
Definition of_Z (z : Z) : number :=
  match z with
  | Z0 => 0%float
  | Zpos _ => PrimFloat.of_uint63 (Uint63.of_Z z)
  | Zneg _ => PrimFloat.opp (PrimFloat.of_uint63 (Uint63.of_Z (- z)))
  end.

(** Truthiness of a number: everything but [0], [-0] and [NaN]. *)
Definition number_truthy (x : number) : bool :=
  negb (PrimFloat.eqb x 0%float) && negb (PrimFloat.is_nan x).

(** *** Strings *)

Definition is_empty (s : string) : bool :=
  match s with EmptyString => true | String _ _ => false end.

(** Every character of a string satisfies a test. *)
Fixpoint every (f : ascii -> bool) (s : string) : bool :=
  match s with
  | EmptyString => true
  | String c rest => f c && every f rest
  end.

(** [s.startsWith(p)]. *)
Definition startsWith (s p : string) : bool := String.prefix p s.

(** [s.endsWith(p)]. *)
Definition endsWith (s p : string) : bool :=
  let n := String.length s in
  let m := String.length p in
  (m <=? n)%nat && String.eqb (substring (n - m) m s) p.

(** [l.join(sep)] on strings that are already converted. *)
Fixpoint join (sep : string) (l : list string) : string :=
  match l with
  | [] => EmptyString
  | [s] => s
  | s :: rest => (s ++ sep ++ join sep rest)%string
  end.

(** *** JSON values, as [express.json()] hands them to the handlers *)

#[local] Unset Elimination Schemes.
Inductive json : Type :=
| JNull
| JBool (b : bool)
| JNum (x : number)
| JStr (s : string)
| JArr (items : list json)
| JObj (fields : list (string * json)).
#[local] Set Elimination Schemes.

(** A possibly [undefined] value. *)
Definition value := option json.

(** [!!v]. *)
Definition truthy (v : value) : bool :=
  match v with
  | None => false
  | Some JNull => false
  | Some (JBool b) => b
  | Some (JNum x) => number_truthy x
  | Some (JStr s) => negb (is_empty s)
  | Some (JArr _) => true
  | Some (JObj _) => true
  end.

(** Own property of a parsed object; with a repeated key [JSON.parse] keeps
    the last occurrence. *)
Fixpoint field (k : string) (fs : list (string * json)) : value :=
  match fs with
  | [] => None
  | (k', v) :: rest =>
      match field k rest with
      | Some w => Some w
      | None => if String.eqb k k' then Some v else None
      end
  end.

(** [v.k] for the property names the handlers read ([fingerprint],
    [behaviors], [clientScore], [checks], [urlParams], [cdp], [webdriver],
    [automationArtifacts], [headlessSignals], [path], [query], [challenge],
    [nonce], [timestamp]): none of them is an array index, [length], or a
    name found on a prototype, so only parsed objects have them. *)
Definition prop (v : value) (k : string) : value :=
  match v with
  | Some (JObj fs) => field k fs
  | _ => None
  end.

(** *** Conversions that can throw *)

(** The outcome of an operation of the language: a value, or a
    [TypeError]. *)
Inductive completion (A : Type) :=
| Normal (a : A)
| TypeError.
Arguments Normal {A} a.
Arguments TypeError {A}.

Definition and_then {A B : Type} (c : completion A) (k : A -> completion B)
    : completion B :=
  match c with
  | Normal a => k a
  | TypeError => TypeError
  end.

Notation "'let!' x ':=' c 'in' k" := (and_then c (fun x => k))
  (at level 10, x name, c at level 100, k at level 200).

(** A parsed object converts to a primitive through the inherited
    [toString], unless it has an own property of that name: that one is
    never a function, and then the conversion throws. An own [valueOf] is
    passed over for the same reason. *)
Definition shadows_toString (fs : list (string * json)) : bool :=
  match field "toString" fs with
  | Some _ => true
  | None => false
  end.

Section Conversions.

(** The two conversions of the language between numbers and strings. *)
Variable StringToNumber : string -> number.
Variable NumberToString : number -> string.

(** [String(v)]; inside [Array.prototype.join] a [null] element prints as
    the empty string. *)
Fixpoint ToString (v : json) : completion string :=
  match v with
  | JNull => Normal "null"%string
  | JBool true => Normal "true"%string
  | JBool false => Normal "false"%string
  | JNum x => Normal (NumberToString x)
  | JStr s => Normal s
  | JArr items =>
      let! parts :=
        (fix each (l : list json) : completion (list string) :=
           match l with
           | [] => Normal []
           | e :: rest =>
               let! part := match e with
                            | JNull => Normal EmptyString
                            | _ => ToString e
                            end in
               let! parts := each rest in
               Normal (part :: parts)
           end) items in
      Normal (join "," parts)
  | JObj fs =>
      if shadows_toString fs then TypeError else Normal "[object Object]"%string
  end.

(** [Number(v)]; a plain object converts through ["[object Object]"] to
    [NaN], and so does [undefined]. *)
Definition ToNumber (v : value) : completion number :=
  match v with
  | None => Normal nan
  | Some JNull => Normal 0%float
  | Some (JBool b) => Normal (if b then 1%float else 0%float)
  | Some (JNum x) => Normal x
  | Some (JStr s) => Normal (StringToNumber s)
  | Some (JArr items) =>
      let! text := ToString (JArr items) in Normal (StringToNumber text)
  | Some (JObj fs) => if shadows_toString fs then TypeError else Normal nan
  end.

(** [v || 0] followed by a numeric use. *)
Definition or_zero (v : value) : completion number :=
  if truthy v then ToNumber v else Normal 0%float.

(** The result of the binary [+]: concatenation as soon as one operand is
    a string after conversion to a primitive, numeric addition otherwise. *)
Inductive plus_result := SumStr (s : string) | SumNum (x : number).

Definition stringish (v : json) : bool :=
  match v with
  | JStr _ | JArr _ | JObj _ => true
  | _ => false
  end.

Definition plus (a b : json) : completion plus_result :=
  if stringish a || stringish b
  then let! left := ToString a in
       let! right := ToString b in
       Normal (SumStr (left ++ right))
  else let! x := ToNumber (Some a) in
       let! y := ToNumber (Some b) in
       Normal (SumNum (PrimFloat.add x y)).

(** [v.length > k] and [v.length >= k] for a truthy [v]: the length of an
    array or a string is its number of elements or code units; an object
    has a length only as an own property; other values have none, and
    [undefined] compares false. *)
Definition length_gt (v : json) (k : nat) : completion bool :=
  match v with
  | JArr items => Normal (k <? List.length items)%nat
  | JStr s => Normal (k <? String.length s)%nat
  | JObj fs =>
      let! n := ToNumber (field "length" fs) in Normal (gt n (of_Z (Z.of_nat k)))
  | _ => Normal false
  end.

Definition length_ge (v : json) (k : nat) : completion bool :=
  match v with
  | JArr items => Normal (k <=? List.length items)%nat
  | JStr s => Normal (k <=? String.length s)%nat
  | JObj fs =>
      let! n := ToNumber (field "length" fs) in Normal (ge n (of_Z (Z.of_nat k)))
  | _ => Normal false
  end.

End Conversions.

End Js.

(* ===================================================================== *)
(** ** Byte strings, hexadecimal text and SHA-256 *)
(* ===================================================================== *)

Module Hex.

(** One lower-case hexadecimal digit, as [Buffer.toString('hex')] and
    [digest('hex')] print it. *)
Definition digit (n : Z) : ascii :=
  ascii_of_nat (Z.to_nat (if n <? 10 then 48 + n else 87 + n)).

Definition is_digit (c : ascii) : bool :=
  let n := Z.of_nat (nat_of_ascii c) in
  ((48 <=? n) && (n <=? 57)) || ((97 <=? n) && (n <=? 102)).

(** Two digits for a byte, high nibble first. *)
Definition of_byte (b : Z) : string :=
  String (digit (b / 16 mod 16)) (String (digit (b mod 16)) EmptyString).

Fixpoint of_bytes (bs : list Z) : string :=
  match bs with
  | [] => EmptyString
  | b :: rest => (of_byte b ++ of_bytes rest)%string
  end.

(** Number of ['0'] characters at the start of a string. *)
Fixpoint leading_zeros (s : string) : nat :=
  match s with
  | String "0"%char rest => S (leading_zeros rest)
  | _ => O
  end.

End Hex.

Module Utf8.

(** UTF-8 bytes of a string of code units below 256: one byte up to 127,
    two bytes above. *)
Definition of_unit (c : ascii) : list Z :=
  let n := Z.of_nat (nat_of_ascii c) in
  if n <? 128 then [n] else [Z.lor 192 (Z.shiftr n 6); Z.lor 128 (Z.land n 63)].

Fixpoint encode (s : string) : list Z :=
  match s with
  | EmptyString => []
  | String c rest => of_unit c ++ encode rest
  end.

End Utf8.

Module Sha256.

(** FIPS 180-4, on 32-bit words kept in [Z] and reduced after each
    operation that can leave the range. *)

Definition w32 (x : Z) : Z := x mod 4294967296.

Definition rotr (n x : Z) : Z :=
  Z.lor (Z.shiftr x n) (w32 (Z.shiftl x (32 - n))).

Definition Ch (x y z : Z) : Z :=
  Z.lxor (Z.land x y) (Z.land (w32 (Z.lnot x)) z).

Definition Maj (x y z : Z) : Z :=
  Z.lxor (Z.lxor (Z.land x y) (Z.land x z)) (Z.land y z).

Definition Sigma0 (x : Z) : Z := Z.lxor (Z.lxor (rotr 2 x) (rotr 13 x)) (rotr 22 x).
Definition Sigma1 (x : Z) : Z := Z.lxor (Z.lxor (rotr 6 x) (rotr 11 x)) (rotr 25 x).
Definition sigma0 (x : Z) : Z := Z.lxor (Z.lxor (rotr 7 x) (rotr 18 x)) (Z.shiftr x 3).
Definition sigma1 (x : Z) : Z := Z.lxor (Z.lxor (rotr 17 x) (rotr 19 x)) (Z.shiftr x 10).

Definition K : list Z :=
  [ 1116352408; 1899447441; 3049323471; 3921009573; 961987163; 1508970993;
    2453635748; 2870763221; 3624381080; 310598401; 607225278; 1426881987;
    1925078388; 2162078206; 2614888103; 3248222580; 3835390401; 4022224774;
    264347078; 604807628; 770255983; 1249150122; 1555081692; 1996064986;
    2554220882; 2821834349; 2952996808; 3210313671; 3336571891; 3584528711;
    113926993; 338241895; 666307205; 773529912; 1294757372; 1396182291;
    1695183700; 1986661051; 2177026350; 2456956037; 2730485921; 2820302411;
    3259730800; 3345764771; 3516065817; 3600352804; 4094571909; 275423344;
    430227734; 506948616; 659060556; 883997877; 958139571; 1322822218;
    1537002063; 1747873779; 1955562222; 2024104815; 2227730452; 2361852424;
    2428436474; 2756734187; 3204031479; 3329325298 ].

(** Big-endian bytes of a word of [n] bytes. *)
Fixpoint be_bytes (n : nat) (x : Z) : list Z :=
  match n with
  | O => []
  | S m => (x / 256 ^ Z.of_nat m) mod 256 :: be_bytes m x
  end.

Definition be_word (bs : list Z) : Z :=
  fold_left (fun acc b => acc * 256 + b) bs 0.

(** The message followed by [0x80], zero bytes up to 56 modulo 64, and its
    length in bits on eight bytes. *)
Definition pad (msg : list Z) : list Z :=
  let n := Z.of_nat (List.length msg) in
  let zeros := Z.to_nat ((55 - n) mod 64) in
  msg ++ [128] ++ repeat 0 zeros ++ be_bytes 8 (8 * n).

(** [fuel] groups of [size] consecutive elements. *)
Fixpoint chunks {A : Type} (size fuel : nat) (l : list A) : list (list A) :=
  match fuel with
  | O => []
  | S f => firstn size l :: chunks size f (skipn size l)
  end.

Definition words_of_block (block : list Z) : list Z :=
  List.map be_word (chunks 4 16 block).

(** The message schedule, most recent word first while it is built. *)
Fixpoint extend (fuel : nat) (rev_w : list Z) : list Z :=
  match fuel with
  | O => rev_w
  | S f =>
      let w := w32 (sigma1 (nth 1 rev_w 0) + nth 6 rev_w 0
                    + sigma0 (nth 14 rev_w 0) + nth 15 rev_w 0) in
      extend f (w :: rev_w)
  end.

Definition schedule (block : list Z) : list Z :=
  rev (extend 48 (rev (words_of_block block))).

Record regs := Regs { ra : Z; rb : Z; rc : Z; rd : Z; re : Z; rf : Z; rg : Z; rh : Z }.

Definition round (s : regs) (kw : Z * Z) : regs :=
  let t1 := w32 (rh s + Sigma1 (re s) + Ch (re s) (rf s) (rg s) + fst kw + snd kw) in
  let t2 := w32 (Sigma0 (ra s) + Maj (ra s) (rb s) (rc s)) in
  Regs (w32 (t1 + t2)) (ra s) (rb s) (rc s) (w32 (rd s + t1)) (re s) (rf s) (rg s).

Definition compress (h : regs) (block : list Z) : regs :=
  let s := fold_left round (combine K (schedule block)) h in
  Regs (w32 (ra h + ra s)) (w32 (rb h + rb s)) (w32 (rc h + rc s)) (w32 (rd h + rd s))
       (w32 (re h + re s)) (w32 (rf h + rf s)) (w32 (rg h + rg s)) (w32 (rh h + rh s)).

Definition initial : regs :=
  Regs 1779033703 3144134277 1013904242 2773480762
       1359893119 2600822924 528734635 1541459225.

Definition digest (msg : list Z) : list Z :=
  let padded := pad msg in
  let blocks := chunks 64 (List.length padded / 64) padded in
  let h := fold_left compress blocks initial in
  flat_map (be_bytes 4) [ra h; rb h; rc h; rd h; re h; rf h; rg h; rh h].

(** [crypto.createHash('sha256').update(s).digest('hex')]. *)
Definition hex (s : string) : string := Hex.of_bytes (digest (Utf8.encode s)).

End Sha256.

(* ===================================================================== *)
(** ** Regular expressions of the user-agent catalogue *)
(* ===================================================================== *)

Module Text.

(** Case folding of the [i] flag; every pattern of the catalogue is ASCII,
    so only ASCII letters fold onto a pattern character. *)
Definition upper (c : ascii) : ascii :=
  let n := nat_of_ascii c in
  if ((97 <=? n) && (n <=? 122))%nat then ascii_of_nat (n - 32) else c.

Definition ci_eq (a b : ascii) : bool := Ascii.eqb (upper a) (upper b).

Fixpoint ci_prefix (p s : string) : bool :=
  match p, s with
  | EmptyString, _ => true
  | String _ _, EmptyString => false
  | String a p', String b s' => ci_eq a b && ci_prefix p' s'
  end.

Fixpoint ci_contains (p s : string) : bool :=
  ci_prefix p s ||
  match s with
  | EmptyString => false
  | String _ s' => ci_contains p s'
  end.

(** A literal pattern without the [i] flag. *)
Fixpoint contains (p s : string) : bool :=
  String.prefix p s ||
  match s with
  | EmptyString => false
  | String _ s' => contains p s'
  end.

Fixpoint ci_equal (a b : string) : bool :=
  match a, b with
  | EmptyString, EmptyString => true
  | String x a', String y b' => ci_eq x y && ci_equal a' b'
  | _, _ => false
  end.

(** [.] matches any character but a line terminator. *)
Definition line_terminator (c : ascii) : bool :=
  let n := nat_of_ascii c in ((n =? 10) || (n =? 13))%nat.

Fixpoint line (s : string) : string :=
  match s with
  | EmptyString => EmptyString
  | String c rest => if line_terminator c then EmptyString else String c (line rest)
  end.

Fixpoint drop (n : nat) (s : string) : string :=
  match n, s with
  | O, _ => s
  | S _, EmptyString => EmptyString
  | S m, String _ rest => drop m rest
  end.

(** [a.*b]: [a], then [b] further on the same line. *)
Fixpoint ci_gap (a b s : string) : bool :=
  (ci_prefix a s && ci_contains b (line (drop (String.length a) s))) ||
  match s with
  | EmptyString => false
  | String _ s' => ci_gap a b s'
  end.

(** The two shapes of pattern the catalogue uses, both with the [i] flag:
    a literal, and two literals separated by [.*]. *)
Inductive regex :=
| Lit (s : string)
| Gap (a b : string).

Definition test (r : regex) (s : string) : bool :=
  match r with
  | Lit p => ci_contains p s
  | Gap a b => ci_gap a b s
  end.

(** [s.trim()] for code units below 256: tab, line feed, vertical tab, form
    feed, carriage return, space and no-break space. *)
Definition white (c : ascii) : bool :=
  let n := nat_of_ascii c in
  (((9 <=? n) && (n <=? 13)) || (n =? 32) || (n =? 160))%nat.

Fixpoint trim_start (s : string) : string :=
  match s with
  | EmptyString => EmptyString
  | String c rest => if white c then trim_start rest else s
  end.

Fixpoint trim_end (s : string) : string :=
  match s with
  | EmptyString => EmptyString
  | String c rest =>
      match trim_end rest with
      | EmptyString => if white c then EmptyString else String c EmptyString
      | t => String c t
      end
  end.

Definition trim (s : string) : string := trim_end (trim_start s).

(** [s.split(',')[0]]. *)
Fixpoint before_comma (s : string) : string :=
  match s with
  | EmptyString => EmptyString
  | String c rest =>
      if Ascii.eqb c ","%char then EmptyString else String c (before_comma rest)
  end.

End Text.

(* ===================================================================== *)
(** ** Percent escapes *)
(* ===================================================================== *)

Module Uri.

(** Whether [decodeURIComponent] accepts a text: every [%] is followed by
    two hexadecimal digits, and the escaped bytes from 0x80 on come in
    well-formed UTF-8 sequences. It throws [URIError] on any other text. *)

Definition hex_value (c : ascii) : option Z :=
  let n := Z.of_nat (nat_of_ascii c) in
  if (48 <=? n) && (n <=? 57) then Some (n - 48)
  else if (97 <=? n) && (n <=? 102) then Some (n - 87)
  else if (65 <=? n) && (n <=? 70) then Some (n - 55)
  else None.

Inductive token :=
| Raw (c : ascii)
| Escaped (byte : Z).

Fixpoint tokens (s : string) : option (list token) :=
  match s with
  | EmptyString => Some []
  | String c rest =>
      if Ascii.eqb c "%"%char
      then match rest with
           | String h (String l rest') =>
               match hex_value h, hex_value l, tokens rest' with
               | Some x, Some y, Some ts => Some (Escaped (16 * x + y) :: ts)
               | _, _, _ => None
               end
           | _ => None
           end
      else match tokens rest with
           | Some ts => Some (Raw c :: ts)
           | None => None
           end
  end.

Definition between (lo b hi : Z) : bool := (lo <=? b) && (b <=? hi).

(** The escaped byte at the head of a list, when it lies in a range. *)
Definition following (lo hi : Z) (ts : list token) : bool :=
  match ts with
  | Escaped b :: _ => between lo b hi
  | _ => false
  end.

(** Well-formed UTF-8 (Unicode, table 3-7): the range of the second byte
    depends on the first, the later ones are in [80..BF]. *)
Fixpoint well_formed (ts : list token) : bool :=
  match ts with
  | [] => true
  | Raw _ :: rest => well_formed rest
  | Escaped b :: rest =>
      if b <? 128 then well_formed rest
      else if between 194 b 223 then
        following 128 191 rest
        && match rest with _ :: r => well_formed r | [] => false end
      else if between 224 b 239 then
        following (if b =? 224 then 160 else 128) (if b =? 237 then 159 else 191) rest
        && match rest with
           | _ :: r1 => following 128 191 r1
                        && match r1 with _ :: r => well_formed r | [] => false end
           | [] => false
           end
      else if between 240 b 244 then
        following (if b =? 240 then 144 else 128) (if b =? 244 then 143 else 191) rest
        && match rest with
           | _ :: r1 =>
               following 128 191 r1
               && match r1 with
                  | _ :: r2 => following 128 191 r2
                               && match r2 with _ :: r => well_formed r | [] => false end
                  | [] => false
                  end
           | [] => false
           end
      else false
  end.

Definition decodable (s : string) : bool :=
  match tokens s with
  | Some ts => well_formed ts
  | None => false
  end.

End Uri.

(* ===================================================================== *)
(** ** What the server takes from its platform *)
(* ===================================================================== *)

(** The runtime services [server.js] calls and does not define: the
    language's conversions between numbers and strings, the MD5 digest of
    [JSON.stringify] that keys the fingerprint ledger, the WHATWG [URL]
    class, and the files [express.static] finds next to the script. *)
Class Platform := {
  StringToNumber : string -> Js.number;
  NumberToString : Js.number -> string;
  (** [crypto.createHash('md5').update(JSON.stringify(v)).digest('hex')] *)
  md5_of_json : Js.json -> string;
  URL : Type;
  (** [new URL(s)]; [None] when the constructor throws. *)
  URL_new : string -> option URL;
  URL_hostname : URL -> string;
  URL_set_hostname : URL -> string -> URL;
  URL_set_pathname : URL -> string -> URL;
  URL_set_search : URL -> string -> URL;
  URL_toString : URL -> string;
  (** whether [express.static] serves a file for this request path *)
  static_file : string -> bool
}.

(** What one request reads from the clock and the random sources, one
    field per call site of [server.js]. *)
Record Readings := {
  now_rate : Z;            (* Date.now(), line 124 *)
  coin_rate : Js.number;   (* Math.random(), line 142 *)
  now_update : Z;          (* Date.now(), line 216 *)
  now_first : Z;           (* Date.now(), line 227 *)
  now_last : Z;            (* Date.now(), line 228 *)
  coin_ledger : Js.number; (* Math.random(), line 233 *)
  now_sweep : Z;           (* Date.now(), line 235 *)
  subdomain_bytes : nat -> Byte.byte;  (* crypto.randomBytes(6), line 24 *)
  challenge_bytes : nat -> Byte.byte;  (* crypto.randomBytes(16), line 294 *)
  now_challenge : Z;       (* Date.now(), line 300 *)
  now_pow : Z              (* Date.now(), line 313 *)
}.

(** [crypto.randomBytes(n)] drawn from a source of bytes. *)
Definition randomBytes (source : nat -> Byte.byte) (n : nat) : list Z :=
  List.map (fun i => Z.of_N (Byte.to_N (source i))) (seq 0 n).

(* ===================================================================== *)
(** ** server.js *)
(* ===================================================================== *)

Module Server.

Import Js.

(** An inbound request, as Express presents it after [express.json()]:
    [body] is the parsed JSON, the empty object when there is none. The
    requests of the model are unconditional: they carry no [If-None-Match]
    or [If-Modified-Since] header, on which [res.send] answers a [GET] with
    304 when the body is unchanged. *)
Record Request := {
  method : string;
  path : string;
  user_agent : option string;
  x_forwarded_for : option string;
  x_real_ip : option string;
  req_ip : option string;
  remoteAddress : option string;
  body : json
}.

(** The identity of a client: a string, or [undefined] when no header and no
    address is known. *)
Definition identity := option string.

Record FingerprintRecord := {
  ip : identity;
  count : Z;
  firstSeen : Z;
  lastSeen : Z
}.

(** The two module-level [Map]s. *)
Record State := {
  rateLimitStore : gmap identity (list Z);
  fingerprintStore : gmap string FingerprintRecord
}.

Definition initial : State :=
  {| rateLimitStore := ∅; fingerprintStore := ∅ |}.

(** The answer of [/api/verify-human]. *)
Record Verification := {
  allowed : bool;
  verdict : string;
  score : number;
  signals : list string;
  redirectUrl : option string
}.

Inductive Body :=
| BInert                                   (* the blank page of the hard block *)
| BError (error : string)                  (* { error } *)
| BVerification (v : Verification)
| BChallenge (challenge : string) (difficulty : Z) (timestamp : Z)
| BPow (valid : bool) (reason : option string)
| BStatic (file : string)                  (* a file served by express.static *)
| BPage (cookie_ss : number)               (* the detector page, with the _ss cookie *)
| BScript                                  (* the detector script *)
| BHealth
| BNotFound
| BException                               (* Express's answer to a thrown error *)
| BBadRequest.                             (* Express's answer to a parameter it cannot decode *)

Record Response := { status : Z; content : Body }.

(** The properties the classifier attaches to the request object. *)
Record Scoped := {
  botScore : option number;
  botSignals : option (list string)
}.

Definition unscored : Scoped := {| botScore := None; botSignals := None |}.

Inductive Outcome :=
| Next (sc : Scoped)
| Send (r : Response).

(** A running total with the names of the signals applied so far. *)
Record Tally := { total : number; names : list string }.

Definition bump (w : number) (name : string) (t : Tally) : Tally :=
  {| total := PrimFloat.add (total t) w; names := names t ++ [name] |}.

Definition bump_if (c : bool) (w : number) (name : string) (t : Tally) : Tally :=
  if c then bump w name t else t.

(** [a || b] on possibly missing strings. *)
Definition str_truthy (s : option string) : bool :=
  match s with Some t => negb (is_empty t) | None => false end.

Definition or_else (a b : option string) : option string :=
  if str_truthy a then a else b.

Definition getClientIP (req : Request) : identity :=
  if str_truthy (x_forwarded_for req)
  then option_map (fun f => Text.trim (Text.before_comma f)) (x_forwarded_for req)
  else or_else (x_real_ip req) (or_else (req_ip req) (remoteAddress req)).

Definition generateRandomSubdomain (rd : Readings) : string :=
  Hex.of_bytes (randomBytes (subdomain_bytes rd) 6).

Definition botPatterns : list Text.regex :=
  let L := Text.Lit in
  let G := Text.Gap in
  [ L "ProofPoint"; L "Mimecast"; L "Barracuda"; L "SafeRedirect";
    L "EmailScanner"; L "MailScanner"; L "ATP"; G "Advanced" "Threat";
    G "Link" "Scanner"; G "Security" "Scanner"; G "URL" "Scanner";
    L "IronPort"; L "FortiMail"; L "Sophos";
    L "HeadlessChrome"; L "PhantomJS"; L "Nightmare";
    L "Selenium"; L "WebDriver"; L "Puppeteer"; L "Playwright";
    L "Cypress"; L "TestCafe"; L "ChromeDriver";
    L "bot"; L "crawl"; L "spider"; L "scrape";
    L "curl"; L "wget"; L "python-requests"; L "python-urllib";
    L "node-fetch"; L "axios"; L "okhttp"; L "Apache-HttpClient";
    L "Java/"; L "Go-http-client"; L "libwww-perl";
    L "monitor"; L "check"; L "validator"; L "preview";
    L "uptime"; L "pingdom"; L "StatusCake" ].

Definition rateLimitWindow : Z := 60000.
Definition maxRequests : nat := 10.

(** Lines 128-139: the per-identity window; the flag says whether the
    ceiling was exceeded. *)
Definition rate_limit (now : Z) (clientIP : identity)
    (store : gmap identity (list Z)) : gmap identity (list Z) * bool :=
  match store !! clientIP with
  | None => (<[clientIP := [now]]> store, false)
  | Some times =>
      let requests :=
        List.filter (fun time => now - time <? rateLimitWindow) times ++ [now] in
      (<[clientIP := requests]> store, (maxRequests <? List.length requests)%nat)
  end.

(** Lines 143-150: drop what left the window, and the identities left with
    nothing. *)
Definition rate_sweep (now : Z) (store : gmap identity (list Z))
    : gmap identity (list Z) :=
  omap (fun requests =>
          match List.filter (fun time => now - time <? rateLimitWindow) requests with
          | [] => None
          | validRequests => Some validRequests
          end) store.

(** Lines 73-151 of the bot detection middleware: the server-side score and
    signals of a request, and the rate table after it. *)
Definition classify (rd : Readings) (req : Request) (st : State)
    : Tally * State :=
  let userAgent := match user_agent req with
                   | Some ua => ua
                   | None => EmptyString
                   end in
  let t0 := {| total := 0%float; names := [] |} in
  let isBotUA := existsb (fun pattern => Text.test pattern userAgent) botPatterns in
  let t1 := bump_if isBotUA 60%float "bot-ua" t0 in
  let t2 := bump_if (is_empty userAgent || (String.length userAgent <? 5)%nat)
                    50%float "missing-ua" t1 in
  let clientIP := getClientIP req in
  let now := now_rate rd in
  let '(store, exceeded) := rate_limit now clientIP (rateLimitStore st) in
  let t3 := bump_if exceeded 40%float "rate-limit-exceeded" t2 in
  let store' := if lt (coin_rate rd) 0.01%float then rate_sweep now store else store in
  (t3, {| rateLimitStore := store'; fingerprintStore := fingerprintStore st |}).

Definition inert : Response := {| status := 200; content := BInert |}.

(** The bot detection middleware (lines 67-165). *)
Definition botDetection (rd : Readings) (req : Request) (st : State)
    : Outcome * State :=
  if endsWith (path req) ".js" || startsWith (path req) "/api/"
     || String.eqb (path req) "/health"
  then (Next unscored, st)
  else
    let '(t, st') := classify rd req st in
    if ge (total t) 80%float
    then (Send inert, st')
    else (Next {| botScore := Some (total t); botSignals := Some (names t) |}, st').

Section Handlers.

Context `{Platform}.

(** [process.env.REDIRECT_URL]; the process exits at start when it is
    not set. *)
Variable REDIRECT_URL : string.

(** [v && f(v)] for a test that may throw. *)
Definition truthy_and (v : value) (f : json -> completion bool) : completion bool :=
  match v with
  | Some j => if truthy v then f j else Normal false
  | None => Normal false
  end.

(** Lines 186-207: the four checks re-scored from the raw payload. *)
Definition cdp_reported (checks : value) : bool :=
  truthy checks && truthy (prop checks "cdp").

Definition webdriver_reported (checks : value) : bool :=
  truthy checks && truthy (prop checks "webdriver").

Definition artifacts_reported (checks : value) : completion bool :=
  if truthy checks
  then truthy_and (prop checks "automationArtifacts")
                  (fun a => length_gt StringToNumber NumberToString a 0)
  else Normal false.

Definition headless_reported (checks : value) : completion bool :=
  if truthy checks
  then truthy_and (prop checks "headlessSignals")
                  (fun a => length_ge StringToNumber NumberToString a 2)
  else Normal false.

(** Lines 213-230: insert or update the ledger entry of a hash; the flag
    says whether the hash was on record under another identity. *)
Definition observe (rd : Readings) (fpHash : string) (clientIP : identity)
    (store : gmap string FingerprintRecord)
    : gmap string FingerprintRecord * bool :=
  match store !! fpHash with
  | Some stored =>
      (<[fpHash := {| ip := ip stored;
                      count := count stored + 1;
                      firstSeen := firstSeen stored;
                      lastSeen := now_update rd |}]> store,
       bool_decide (ip stored ≠ clientIP))
  | None =>
      (<[fpHash := {| ip := clientIP;
                      count := 1;
                      firstSeen := now_first rd;
                      lastSeen := now_last rd |}]> store,
       false)
  end.

Definition maxAge : Z := 24 * 60 * 60 * 1000.

(** Lines 236-240. *)
Definition ledger_sweep (now : Z) (store : gmap string FingerprintRecord)
    : gmap string FingerprintRecord :=
  filter (fun entry => ¬ (now - lastSeen (snd entry) > maxAge)) store.

(** Lines 247-250. *)
Definition verdict_of (totalScore : number) : string :=
  if ge totalScore 100%float then "bot"
  else if ge totalScore 80%float then "likely-bot"
  else if ge totalScore 50%float then "suspicious"
  else "human".

(** [baseUrl.pathname = urlParams.path] and [baseUrl.search =
    urlParams.query], each when the parameter is given; the assignment
    converts the value to a string. *)
Definition assign (setter : URL -> string -> URL) (u : URL) (v : value)
    : completion URL :=
  match v with
  | Some j =>
      if truthy v
      then let! text := ToString NumberToString j in Normal (setter u text)
      else Normal u
  | None => Normal u
  end.

(** Lines 256-280: whatever throws inside the [try] leaves the configured
    target as the result. *)
Definition build_redirect (rd : Readings) (isBot : bool) (urlParams : value)
    : option string :=
  if negb isBot && negb (is_empty REDIRECT_URL) then
    match URL_new REDIRECT_URL with
    | Some baseUrl =>
        let randomSubdomain := generateRandomSubdomain rd in
        let u1 := URL_set_hostname baseUrl
                    (randomSubdomain ++ "." ++ URL_hostname baseUrl) in
        match (let! u2 := assign URL_set_pathname u1 (prop urlParams "path") in
               let! u3 := assign URL_set_search u2 (prop urlParams "query") in
               Normal (URL_toString u3)) with
        | Normal finalRedirectUrl => Some finalRedirectUrl
        | TypeError => Some REDIRECT_URL
        end
    | None => Some REDIRECT_URL
    end
  else None.

Definition missing : Response :=
  {| status := 400; content := BError "Missing required data" |}.

(** Express's answer when a handler throws. *)
Definition thrown : Response := {| status := 500; content := BException |}.

(** Lines 184-207: what the handler reads from the payload before it
    touches the ledger; a conversion that throws ends the request. *)
Record Reported := {
  client : number;
  cdp : bool;
  webdriver : bool;
  artifacts : bool;
  headless : bool
}.

Definition read_payload (clientScore checks : value) : completion Reported :=
  let! c := or_zero StringToNumber NumberToString clientScore in
  let! a := artifacts_reported checks in
  let! h := headless_reported checks in
  Normal {| client := c;
            cdp := cdp_reported checks;
            webdriver := webdriver_reported checks;
            artifacts := a;
            headless := h |}.

(** [POST /api/verify-human] (lines 168-289). *)
Definition verify_human (rd : Readings) (req : Request) (sc : Scoped)
    (st : State) : Response * State :=
  let b := Some (body req) in
  let behaviors := prop b "behaviors" in
  let clientScore := prop b "clientScore" in
  let checks := prop b "checks" in
  let urlParams := prop b "urlParams" in
  match prop b "fingerprint" with
  | Some fingerprint =>
      if negb (truthy (Some fingerprint)) || negb (truthy behaviors)
      then (missing, st)
      else
        match read_payload clientScore checks with
        | TypeError => (thrown, st)
        | Normal reported =>
            let t0 := {| total := match botScore sc with
                                  | Some x => if number_truthy x then x else 0%float
                                  | None => 0%float
                                  end;
                         names := match botSignals sc with
                                  | Some l => l
                                  | None => []
                                  end |} in
            let t1 := {| total := PrimFloat.add (total t0)
                                    (PrimFloat.mul (client reported) 0.5%float);
                         names := names t0 |} in
            let t2 := bump_if (cdp reported) 60%float "cdp-detected" t1 in
            let t3 := bump_if (webdriver reported) 70%float "webdriver-detected" t2 in
            let t4 := bump_if (artifacts reported) 65%float "automation-artifacts" t3 in
            let t5 := bump_if (headless reported) 50%float "headless-browser" t4 in
            let clientIP := getClientIP req in
            let fpHash := md5_of_json fingerprint in
            let '(ledger, reused) := observe rd fpHash clientIP (fingerprintStore st) in
            let t6 := bump_if reused 20%float "fingerprint-reuse" t5 in
            let ledger' := if lt (coin_ledger rd) 0.01%float
                           then ledger_sweep (now_sweep rd) ledger
                           else ledger in
            let totalScore := total t6 in
            let isBot := ge totalScore 80%float in
            ({| status := 200;
                content := BVerification
                  {| allowed := negb isBot;
                     verdict := verdict_of totalScore;
                     score := totalScore;
                     signals := names t6;
                     redirectUrl := build_redirect rd isBot urlParams |} |},
             {| rateLimitStore := rateLimitStore st; fingerprintStore := ledger' |})
        end
  | None => (missing, st)
  end.

(** [POST /api/challenge] (lines 292-302). *)
Definition challenge (rd : Readings) : Response :=
  {| status := 200;
     content := BChallenge (Hex.of_bytes (randomBytes (challenge_bytes rd) 16))
                           4 (now_challenge rd) |}.

(** [POST /api/verify-pow] (lines 305-326). Adding two values that are
    not strings gives a number, which [hash.update] refuses by throwing. *)
Definition verify_pow (rd : Readings) (req : Request) : Response :=
  let b := Some (body req) in
  let timestamp := prop b "timestamp" in
  match prop b "challenge", prop b "nonce" with
  | Some c, Some nonce =>
      if negb (truthy (Some c)) || negb (truthy timestamp)
      then missing
      else
        let now := now_pow rd in
        match ToNumber StringToNumber NumberToString timestamp with
        | TypeError => thrown
        | Normal issued =>
            if gt (PrimFloat.sub (of_Z now) issued) 30000%float
            then {| status := 200; content := BPow false (Some "Challenge expired") |}
            else
              match plus StringToNumber NumberToString c nonce with
              | Normal (SumStr text) =>
                  let hash := Sha256.hex text in
                  {| status := 200; content := BPow (startsWith hash "0000") None |}
              | Normal (SumNum _) => thrown
              | TypeError => thrown
              end
        end
  | _, _ => missing
  end.

(** Express matches a route path without regard to case and with an
    optional trailing slash. *)
Definition route (pattern p : string) : bool :=
  Text.ci_equal pattern p || Text.ci_equal (pattern ++ "/") p.

(** [/:randomname.js]: one non-empty segment that ends in [.js]. *)
Definition no_slash (s : string) : bool :=
  forallb (fun c => negb (Ascii.eqb c "/"%char)) (list_ascii_of_string s).

Definition script_route (p : string) : bool :=
  let q := if endsWith p "/" then substring 0 (String.length p - 1) p else p in
  match q with
  | String "/"%char name =>
      (3 <? String.length name)%nat && no_slash name
      && Text.ci_equal ".js" (Text.drop (String.length name - 3) name)
  | _ => false
  end.

(** The [randomname] parameter of a path the script route matches: what
    stands between the leading slash and the final [.js]. *)
Definition script_name (p : string) : string :=
  let q := if endsWith p "/" then substring 0 (String.length p - 1) p else p in
  substring 1 (String.length q - 4) q.

Definition has_method (m : string) (req : Request) : bool :=
  String.eqb (method req) m.

(** [app.get] also answers [HEAD]. *)
Definition is_get (req : Request) : bool := has_method "GET" req || has_method "HEAD" req.

(** The routes and middleware registered after the classifier, in
    registration order (lines 168-458). *)
Definition routes (rd : Readings) (req : Request) (sc : Scoped) (st : State)
    : Response * State :=
  let p := path req in
  if has_method "POST" req && route "/api/verify-human" p then verify_human rd req sc st
  else if has_method "POST" req && route "/api/challenge" p then (challenge rd, st)
  else if has_method "POST" req && route "/api/verify-pow" p then (verify_pow rd req, st)
  else if is_get req && static_file p then ({| status := 200; content := BStatic p |}, st)
  else if is_get req && String.eqb p "/" then
    ({| status := 200;
        content := BPage match botScore sc with
                         | Some x => if number_truthy x then x else 0%float
                         | None => 0%float
                         end |}, st)
  else if is_get req && script_route p then
    (* Express decodes the parameter before it calls the handler, and answers
       400 itself when the parameter cannot be decoded *)
    (if Uri.decodable (script_name p)
     then {| status := 200; content := BScript |}
     else {| status := 400; content := BBadRequest |}, st)
  else if is_get req && route "/health" p then ({| status := 200; content := BHealth |}, st)
  else ({| status := 404; content := BNotFound |}, st).

(** The whole application on one request. *)
Definition app (rd : Readings) (req : Request) (st : State) : Response * State :=
  match botDetection rd req st with
  | (Send r, st') => (r, st')
  | (Next sc, st') => routes rd req sc st'
  end.

(** A sequence of requests, each with its readings, served in order. *)
Fixpoint serve (trace : list (Readings * Request)) (st : State) : State :=
  match trace with
  | [] => st
  | (rd, req) :: rest => serve rest (snd (app rd req st))
  end.

End Handlers.

End Server.

(* ===================================================================== *)
(** ** au0cki7gbr.js *)
(* ===================================================================== *)

Module Detector.

Import Js.

(** What a host call gives back: a value, or an exception. *)
Inductive outcome (A : Type) :=
| Returns (a : A)
| Raises.
Arguments Returns {A} a.
Arguments Raises {A}.

(** A computation of the detector: a value, or an exception that nobody
    caught. *)
Inductive result (A : Type) :=
| Ok (a : A)
| Throw.
Arguments Ok {A} a.
Arguments Throw {A}.

Definition bind {A B : Type} (r : result A) (k : A -> result B) : result B :=
  match r with
  | Ok a => k a
  | Throw => Throw
  end.

Notation "'let*' x ':=' r 'in' k" := (bind r (fun x => k))
  (at level 10, x name, r at level 100, k at level 200).

(** [try { body } catch (e) { return null; }]. *)
Definition try_or_null {A : Type} (body : result (option A)) : option A :=
  match body with
  | Ok v => v
  | Throw => None
  end.

(** Reading [.length] (or any property) of a value that may be
    [undefined]. *)
Definition deref {A : Type} (v : option A) : result A :=
  match v with
  | Some a => Ok a
  | None => Throw
  end.

Definition lift {A : Type} (o : outcome A) : result A :=
  match o with
  | Returns a => Ok a
  | Raises => Throw
  end.

(** *** The browser, as far as the detector looks at it *)

(** How [navigator.permissions.query] stands when the score is read. *)
Inductive Permissions :=
| NoPermissionsApi
| QueryPending
| QueryRejected
| QuerySettled (inconsistent : bool).

Record Navigator := {
  webdriver : option bool;
  userAgent : string;
  plugins : option nat;
  mimeTypes : option nat;
  languages : option (list string);
  language : option string;
  platform : option string;
  hardwareConcurrency : option number;
  deviceMemory : option number;
  vendor : option string;
  permissions : Permissions;
  cookieEnabled : bool;
  doNotTrack : option string;
  maxTouchPoints : Z;
  vendorSub : string;
  productSub : string
}.

Record Window := {
  chrome : bool;
  callPhantom : bool;
  _phantom : bool;
  _Selenium_IDE_Recorder : bool;
  cdc_adoQpoasnfa76pfcZLmcfl_Array : bool;
  cdc_adoQpoasnfa76pfcZLmcfl_Promise : bool;
  cdc_adoQpoasnfa76pfcZLmcfl_Symbol : bool;
  __playwright__ : bool;
  __pw_manual : bool;
  __PW_inspect : bool;
  __nightmare : bool;
  devicePixelRatio : number
}.

(** The attributes of [document.documentElement] the detector reads. *)
Record RootElement := {
  attr_selenium : option string;
  attr_driver : option string
}.

(** A 2D drawing context: what [canvas.toDataURL()] gives after the
    drawing calls, and the width [measureText] reports for the test string
    under a given [font] setting. *)
Record Context2D := {
  toDataURL : outcome string;
  measured_width : string -> number
}.

Record WebGLInfo := {
  gl_vendor : string;
  gl_renderer : string;
  gl_version : string;
  gl_shadingLanguageVersion : string
}.

(** A WebGL context: whether the renderer-info extension exists, the
    parameters it exposes, and the list of supported extensions ([null]
    on a lost context). *)
Record WebGL := {
  debug_renderer_info : option WebGLInfo;
  supportedExtensions : option nat
}.

Record AudioInfo := {
  sampleRate : number;
  state : string;
  baseLatency : option number;
  outputLatency : option number
}.

Record Screen := {
  width : Z;
  height : Z;
  availWidth : Z;
  availHeight : Z;
  colorDepth : Z;
  pixelDepth : Z;
  orientation : option string
}.

Record Browser := {
  navigator : Navigator;
  window : Window;
  (** [console.debug(err)]: whether an attached inspector read [err.stack] *)
  stack_serialized : bool;
  documentElement : option RootElement;
  (** [document.createElement('canvas').getContext('2d')] *)
  context2d : outcome (option Context2D);
  (** [getContext('webgl') || getContext('experimental-webgl')] *)
  webgl : outcome (option WebGL);
  (** [window.AudioContext || window.webkitAudioContext], and what
      constructing one gives *)
  AudioContext : option (outcome AudioInfo);
  screen : Screen;
  timeZone : string;
  timezoneOffset : Z
}.

(** *** The detector object *)

Record Config := {
  cdpWeight : Z;
  behaviorWeight : Z;
  fingerprintWeight : Z;
  timingWeight : Z;
  navigatorWeight : Z;
  threshold : Z;
  behaviorTimeout : Z
}.

Definition defaults : Config :=
  {| cdpWeight := 50; behaviorWeight := 40; fingerprintWeight := 30;
     timingWeight := 25; navigatorWeight := 20; threshold := 70;
     behaviorTimeout := 3000 |}.

Record Checks := {
  cdp : option bool;
  check_webdriver : option bool;
  headlessSignals : option (list string);
  permissionInconsistency : option bool;
  navigatorIssues : option (list string);
  automationArtifacts : option (list string);
  behaviorScore : option Z
}.

Definition no_checks : Checks :=
  {| cdp := None; check_webdriver := None; headlessSignals := None;
     permissionInconsistency := None; navigatorIssues := None;
     automationArtifacts := None; behaviorScore := None |}.

Record Behaviors := {
  mouseMove : bool; click : bool; scroll : bool; keyboard : bool; touch : bool
}.

Record WebGLFingerprint := {
  fp_vendor : string;
  fp_renderer : string;
  fp_version : string;
  fp_shadingLanguageVersion : string;
  extensionCount : nat
}.

Record BrowserFingerprint := {
  fp_userAgent : string;
  fp_platform : option string;
  fp_language : option string;
  fp_languages : option (list string);
  fp_cookieEnabled : bool;
  fp_doNotTrack : option string;
  fp_hardwareConcurrency : option number;
  fp_deviceMemory : option number;
  fp_maxTouchPoints : Z;
  fp_vendorName : option string;
  fp_vendorSub : string;
  fp_productSub : string;
  fp_timezone : string;
  fp_timezoneOffset : Z
}.

Record Fingerprint := {
  fp_canvas : option string;
  fp_webgl : option WebGLFingerprint;
  fp_audio : option AudioInfo;
  fp_fonts : list string;
  fp_screen : Screen * number;
  fp_browser : BrowserFingerprint
}.

(** The fields of [this] that the checks update. *)
Record Self := {
  score : Z;
  checks : Checks
}.

Record Detection := {
  isBot : bool;
  final_score : Z;
  final_checks : Checks;
  behaviors : Behaviors;
  fingerprint : Fingerprint
}.

Definition add (n : Z) (s : Self) : Self :=
  {| score := score s + n; checks := checks s |}.

Definition push_if (c : bool) (name : string) (l : list string) : list string :=
  if c then l ++ [name] else l.

Section Detect.

Variable config : Config.
Variable env : Browser.

Let nav := navigator env.
Let win := window env.

(** Lines 64-90. *)
Definition detectCDP (s : Self) : Self :=
  let detected := stack_serialized env in
  let c := checks s in
  let s1 := {| score := score s;
               checks := {| cdp := Some detected;
                            check_webdriver := check_webdriver c;
                            headlessSignals := headlessSignals c;
                            permissionInconsistency := permissionInconsistency c;
                            navigatorIssues := navigatorIssues c;
                            automationArtifacts := automationArtifacts c;
                            behaviorScore := behaviorScore c |} |} in
  if detected then add (cdpWeight config) s1 else s1.

(** Lines 95-103. *)
Definition detectWebDriver (s : Self) : Self :=
  let flag := match webdriver nav with Some true => true | _ => false end in
  let c := checks s in
  let s1 := {| score := score s;
               checks := {| cdp := cdp c;
                            check_webdriver := Some flag;
                            headlessSignals := headlessSignals c;
                            permissionInconsistency := permissionInconsistency c;
                            navigatorIssues := navigatorIssues c;
                            automationArtifacts := automationArtifacts c;
                            behaviorScore := behaviorScore c |} |} in
  if flag then add 45 s1 else s1.

(** Lines 158-171: the permissions query runs on its own; by the time
    the score is read it has flagged an inconsistency, or it has not. *)
Definition checkPermissionsAsync (s : Self) : Self :=
  match permissions nav with
  | QuerySettled true =>
      let c := checks s in
      add 20 {| score := score s;
                checks := {| cdp := cdp c;
                             check_webdriver := check_webdriver c;
                             headlessSignals := headlessSignals c;
                             permissionInconsistency := Some true;
                             navigatorIssues := navigatorIssues c;
                             automationArtifacts := automationArtifacts c;
                             behaviorScore := behaviorScore c |} |}
  | _ => s
  end.

(** Lines 108-153. *)
Definition detectHeadless (s : Self) : result Self :=
  let ua := userAgent nav in
  let sig1 := push_if (Text.ci_contains "HeadlessChrome" ua) "headless-ua" [] in
  let sig2 := push_if (negb (chrome win) && Text.ci_contains "Chrome" ua)
                      "missing-chrome-object" sig1 in
  let* n_plugins := deref (plugins nav) in
  let sig3 := push_if (n_plugins =? 0)%nat "no-plugins" sig2 in
  let* n_mime := deref (mimeTypes nav) in
  let sig4 := push_if (n_mime =? 0)%nat "no-mimetypes" sig3 in
  let sig5 := push_if (match languages nav with
                       | Some l => (List.length l =? 0)%nat
                       | None => true
                       end) "no-languages" sig4 in
  let sig6 := push_if (callPhantom win || _phantom win) "phantomjs" sig5 in
  let s1 := match permissions nav with
            | NoPermissionsApi => s
            | _ => checkPermissionsAsync s
            end in
  let c := checks s1 in
  let s2 := {| score := score s1;
               checks := {| cdp := cdp c;
                            check_webdriver := check_webdriver c;
                            headlessSignals := Some sig6;
                            permissionInconsistency := permissionInconsistency c;
                            navigatorIssues := navigatorIssues c;
                            automationArtifacts := automationArtifacts c;
                            behaviorScore := behaviorScore c |} |} in
  Ok (if (0 <? List.length sig6)%nat
      then add (Z.min (Z.of_nat (List.length sig6) * 15) 45) s2
      else s2).

Definition differs (a : option string) (b : string) : bool :=
  match a with
  | Some x => negb (String.eqb x b)
  | None => true
  end.

(** Lines 176-219. *)
Definition checkNavigatorInconsistencies (s : Self) : Self :=
  let ua := userAgent nav in
  let uaPlatform :=
    if Text.contains "Win" ua then "Win32"%string
    else if Text.contains "Mac" ua then "MacIntel"%string
    else if Text.contains "Linux" ua then "Linux x86_64"%string
    else EmptyString in
  let i1 := push_if (negb (is_empty uaPlatform) && differs (platform nav) uaPlatform)
                    "platform-mismatch" [] in
  let i2 := push_if (match language nav, languages nav with
                     | Some lang, Some langs =>
                         negb (is_empty lang)
                         && negb (existsb (String.eqb lang) langs)
                     | _, _ => false
                     end) "language-mismatch" i1 in
  let i3 := push_if (match hardwareConcurrency nav with
                     | Some n => gt n 32%float || PrimFloat.eqb n 0%float
                     | None => false
                     end) "suspicious-cpu" i2 in
  let i4 := push_if (match deviceMemory nav with
                     | Some m => number_truthy m
                                 && (gt m 32%float || lt m 0.25%float)
                     | None => false
                     end) "suspicious-memory" i3 in
  let expectedVendor :=
    if Text.contains "Chrome" ua then "Google Inc."%string
    else if Text.contains "Safari" ua && negb (Text.contains "Chrome" ua)
         then "Apple Computer, Inc."%string
         else EmptyString in
  let i5 := push_if (negb (is_empty expectedVendor)
                     && differs (vendor nav) expectedVendor)
                    "vendor-mismatch" i4 in
  let c := checks s in
  let s1 := {| score := score s;
               checks := {| cdp := cdp c;
                            check_webdriver := check_webdriver c;
                            headlessSignals := headlessSignals c;
                            permissionInconsistency := permissionInconsistency c;
                            navigatorIssues := Some i5;
                            automationArtifacts := automationArtifacts c;
                            behaviorScore := behaviorScore c |} |} in
  if (0 <? List.length i5)%nat
  then add (Z.min (Z.of_nat (List.length i5) * 10) (navigatorWeight config)) s1
  else s1.

(** Truthiness of [getAttribute(name)]: a non-empty string. *)
Definition attr_truthy (a : option string) : bool :=
  match a with
  | Some v => negb (is_empty v)
  | None => false
  end.

(** Lines 224-265. The attributes are read only when the recorder global
    is not there. *)
Definition checkAutomationArtifacts (s : Self) : result Self :=
  let* selenium :=
    (if _Selenium_IDE_Recorder win then Ok true
     else let* root := deref (documentElement env) in
          Ok (attr_truthy (attr_selenium root) || attr_truthy (attr_driver root))) in
  let a1 := push_if selenium "selenium" [] in
  let a2 := push_if (cdc_adoQpoasnfa76pfcZLmcfl_Array win
                     || cdc_adoQpoasnfa76pfcZLmcfl_Promise win
                     || cdc_adoQpoasnfa76pfcZLmcfl_Symbol win)
                    "chrome-automation" a1 in
  let a3 := push_if (match webdriver nav with None => true | Some _ => false end
                     && Text.contains "HeadlessChrome" (userAgent nav))
                    "puppeteer" a2 in
  let a4 := push_if (__playwright__ win || __pw_manual win || __PW_inspect win)
                    "playwright" a3 in
  let a5 := push_if (__nightmare win) "nightmare" a4 in
  let c := checks s in
  let s1 := {| score := score s;
               checks := {| cdp := cdp c;
                            check_webdriver := check_webdriver c;
                            headlessSignals := headlessSignals c;
                            permissionInconsistency := permissionInconsistency c;
                            navigatorIssues := navigatorIssues c;
                            automationArtifacts := Some a5;
                            behaviorScore := behaviorScore c |} |} in
  Ok (if (0 <? List.length a5)%nat then add 50 s1 else s1).

(** Lines 476-484: a 32-bit rolling hash, printed in base 36. *)
Definition to_int32 (z : Z) : Z := (z + 2147483648) mod 4294967296 - 2147483648.

Fixpoint hash_loop (hash : Z) (str : string) : Z :=
  match str with
  | EmptyString => hash
  | String c rest =>
      let char := Z.of_nat (nat_of_ascii c) in
      hash_loop (to_int32 (to_int32 (hash * 32) - hash + char)) rest
  end.

Definition digit36 (d : Z) : ascii :=
  ascii_of_nat (Z.to_nat (if d <? 10 then 48 + d else 87 + d)).

Fixpoint base36 (fuel : nat) (z : Z) (acc : string) : string :=
  match fuel with
  | O => acc
  | S f =>
      let acc' := String (digit36 (z mod 36)) acc in
      if z <? 36 then acc' else base36 f (z / 36) acc'
  end.

Definition simpleHash (str : string) : string :=
  let h := hash_loop 0 str in
  if h <? 0 then String "-"%char (base36 7 (- h) EmptyString)
  else base36 7 h EmptyString.

(** Lines 294-322. *)
Definition getCanvasFingerprint : option string :=
  try_or_null
    (let* ctx := lift (context2d env) in
     match ctx with
     | None => Ok None
     | Some c => let* dataURL := lift (toDataURL c) in Ok (Some (simpleHash dataURL))
     end).

(** Lines 327-348. *)
Definition getWebGLFingerprint : option WebGLFingerprint :=
  try_or_null
    (let* gl := lift (webgl env) in
     match gl with
     | None => Ok None
     | Some g =>
         match debug_renderer_info g with
         | None => Ok None
         | Some info =>
             let* n := deref (supportedExtensions g) in
             Ok (Some {| fp_vendor := gl_vendor info;
                         fp_renderer := gl_renderer info;
                         fp_version := gl_version info;
                         fp_shadingLanguageVersion := gl_shadingLanguageVersion info;
                         extensionCount := n |})
         end
     end).

(** Lines 353-371. *)
Definition getAudioFingerprint : option AudioInfo :=
  try_or_null
    (match AudioContext env with
     | None => Ok None
     | Some construct => let* context := lift construct in Ok (Some context)
     end).

Definition baseFonts : list string := ["monospace"; "sans-serif"; "serif"].

Definition testFonts : list string :=
  [ "Arial"; "Verdana"; "Times New Roman"; "Courier New";
    "Georgia"; "Palatino"; "Garamond"; "Comic Sans MS";
    "Trebuchet MS"; "Impact" ].

(** Lines 376-411. The context is used without a check. *)
Definition getFontFingerprint : result (list string) :=
  let* got := lift (context2d env) in
  let* ctx := deref got in
  let baseSize (font : string) := measured_width ctx ("72px " ++ font) in
  let detect_font (detectedFonts : list string) (font : string) :=
    fold_left
      (fun (acc : list string) (baseFont : string) =>
         let size := measured_width ctx ("72px " ++ font ++ ", " ++ baseFont) in
         if negb (PrimFloat.eqb size (baseSize baseFont))
         then if existsb (String.eqb font) acc then acc else acc ++ [font]
         else acc)
      baseFonts detectedFonts in
  Ok (fold_left detect_font testFonts []).

(** Lines 416-427. *)
Definition getScreenFingerprint : Screen * number :=
  (screen env, devicePixelRatio win).

(** Lines 432-449. *)
Definition getBrowserFingerprint : BrowserFingerprint :=
  {| fp_userAgent := userAgent nav;
     fp_platform := platform nav;
     fp_language := language nav;
     fp_languages := languages nav;
     fp_cookieEnabled := cookieEnabled nav;
     fp_doNotTrack := doNotTrack nav;
     fp_hardwareConcurrency := hardwareConcurrency nav;
     fp_deviceMemory := deviceMemory nav;
     fp_maxTouchPoints := maxTouchPoints nav;
     fp_vendorName := vendor nav;
     fp_vendorSub := vendorSub nav;
     fp_productSub := productSub nav;
     fp_timezone := timeZone env;
     fp_timezoneOffset := timezoneOffset env |}.

(** Lines 270-289. *)
Definition generateFingerprint (s : Self) : result (Self * Fingerprint) :=
  let canvas := getCanvasFingerprint in
  let gl := getWebGLFingerprint in
  let audio := getAudioFingerprint in
  let* fonts := getFontFingerprint in
  let fp := {| fp_canvas := canvas; fp_webgl := gl; fp_audio := audio;
               fp_fonts := fonts; fp_screen := getScreenFingerprint;
               fp_browser := getBrowserFingerprint |} in
  let missing := match canvas, gl with
                 | Some _, Some _ => false
                 | _, _ => true
                 end in
  Ok (if missing then add 15 s else s, fp).

(** Lines 458-471. *)
Definition calculateScore (s : Self) : Self :=
  let c := checks s in
  {| score := score s;
     checks := {| cdp := cdp c;
                  check_webdriver := check_webdriver c;
                  headlessSignals := headlessSignals c;
                  permissionInconsistency := permissionInconsistency c;
                  navigatorIssues := navigatorIssues c;
                  automationArtifacts := automationArtifacts c;
                  behaviorScore := Some 0 |} |}.

(** The constructor (lines 19-30). *)
Definition fresh : Self := {| score := 0; checks := no_checks |}.

Definition idle : Behaviors :=
  {| mouseMove := false; click := false; scroll := false;
     keyboard := false; touch := false |}.

(** [detect()] (lines 36-59): [Throw] is a rejected promise. *)
Definition detect : result Detection :=
  let s1 := detectCDP fresh in
  let s2 := detectWebDriver s1 in
  let* s3 := detectHeadless s2 in
  let s4 := checkNavigatorInconsistencies s3 in
  let* s5 := checkAutomationArtifacts s4 in
  let* sf := generateFingerprint s5 in
  let s6 := calculateScore (fst sf) in
  Ok {| isBot := threshold config <=? score s6;
        final_score := score s6;
        final_checks := checks s6;
        behaviors := idle;
        fingerprint := snd sf |}.

(** [Math.round(x)]: the integer nearest to [x], the upper one of two that
    are equally near. The argument below is a quotient of integers, never
    [NaN] or infinite; for those the result here is 0. *)
Definition Math_round (x : number) : Z :=
  match Prim2SF x with
  | S754_finite s m e =>
      let mantissa := if s then Z.neg m else Z.pos m in
      if 0 <=? e then mantissa * 2 ^ e
      else (2 * mantissa + 2 ^ (- e)) / 2 ^ (- e + 1)
  | _ => 0
  end.

Record Result := {
  result_isBot : bool;
  confidence : Z;
  result_score : Z;
  result_verdict : string;
  details : Checks;
  result_behaviors : Behaviors
}.

(** [getResult()] (lines 489-503). *)
Definition getResult (s : Self) : Result :=
  {| result_isBot := threshold config <=? score s;
     confidence :=
       Z.min (Math_round (PrimFloat.mul (PrimFloat.div (of_Z (score s)) 150%float)
                                        100%float))
             100;
     result_score := score s;
     result_verdict := if 100 <=? score s then "Definite Bot"
                       else if 70 <=? score s then "Likely Bot"
                       else if 40 <=? score s then "Suspicious"
                       else "Likely Human";
     details := checks s;
     result_behaviors := idle |}.

End Detect.

End Detector.

(* ===================================================================== *)
(** ** The URL class of the platform *)
(* ===================================================================== *)

(** [new URL(s)], the [hostname], [pathname] and [search] setters and
    [toString()], after the URL Standard (url.spec.whatwg.org): the parser
    without a base URL, the host parser with its IPv4 and IPv6 parsers, the
    three setters and the serializer. A string is a sequence of code units
    below 256, as everywhere in this file; percent-encoding goes through
    their UTF-8 bytes. The one part that is not written out is the Unicode
    [ToASCII] of UTS #46, which the host parser consults for a host with a
    character outside ASCII or with a label that starts with [xn--]: it is
    a parameter of the model. Where editions of the standard differ (the
    escaping of [^] in a path, and of a space that ends an opaque path) the
    current text is followed; no statement below rests on those. *)

Module Whatwg.

Import ListNotations.
#[local] Open Scope string_scope.
#[local] Open Scope nat_scope.

Definition code (c : ascii) : nat := nat_of_ascii c.

Definition among (l : list nat) (c : ascii) : bool := existsb (Nat.eqb (code c)) l.

Definition in_range (lo hi : nat) (c : ascii) : bool :=
  (lo <=? code c) && (code c <=? hi).

Definition is_upper : ascii -> bool := in_range 65 90.
Definition is_alpha (c : ascii) : bool := is_upper c || in_range 97 122 c.
Definition is_digit : ascii -> bool := in_range 48 57.
Definition is_alnum (c : ascii) : bool := is_alpha c || is_digit c.

Definition lower (c : ascii) : ascii :=
  if is_upper c then ascii_of_nat (code c + 32) else c.

Fixpoint lowercase (s : string) : string :=
  match s with
  | EmptyString => EmptyString
  | String c rest => String (lower c) (lowercase rest)
  end.

Definition some (f : ascii -> bool) (s : string) : bool :=
  negb (Js.every (fun c => negb (f c)) s).

Fixpoint keep (f : ascii -> bool) (s : string) : string :=
  match s with
  | EmptyString => EmptyString
  | String c rest => if f c then String c (keep f rest) else keep f rest
  end.

(** The part of [s] before the first character in [stop], and the rest,
    which starts with that character. *)
Fixpoint span (stop : ascii -> bool) (s : string) : string * string :=
  match s with
  | EmptyString => (EmptyString, EmptyString)
  | String c rest =>
      if stop c then (EmptyString, s)
      else let '(a, b) := span stop rest in (String c a, b)
  end.

(** Strictly splitting on a separator: empty items are kept. *)
Fixpoint split_on (sep : ascii) (s : string) : list string :=
  match s with
  | EmptyString => [EmptyString]
  | String c rest =>
      if Ascii.eqb c sep then EmptyString :: split_on sep rest
      else match split_on sep rest with
           | x :: xs => String c x :: xs
           | [] => [String c EmptyString]
           end
  end.

(** *** Percent-encoding *)

Definition c0_set (c : ascii) : bool := (code c <=? 31) || (127 <=? code c).
Definition fragment_set (c : ascii) : bool := c0_set c || among [32; 34; 60; 62; 96] c.
Definition query_set (c : ascii) : bool := c0_set c || among [32; 34; 35; 60; 62] c.
Definition special_query_set (c : ascii) : bool := query_set c || among [39] c.
Definition path_set (c : ascii) : bool :=
  query_set c || among [63; 94; 96; 123; 125] c.
Definition userinfo_set (c : ascii) : bool :=
  path_set c || among [47; 58; 59; 61; 64; 91; 92; 93; 124] c.

Definition hex_upper (n : nat) : ascii :=
  ascii_of_nat (if n <? 10 then 48 + n else 55 + n).

Definition percent_byte (b : nat) : string :=
  String "%" (String (hex_upper (b / 16)) (String (hex_upper (b mod 16)) EmptyString)).

(** The UTF-8 bytes of a code unit, and of a string. *)
Definition utf8_unit (c : ascii) : list nat := List.map Z.to_nat (Utf8.of_unit c).

Fixpoint utf8 (s : string) : string :=
  match s with
  | EmptyString => EmptyString
  | String c rest =>
      string_of_list_ascii (List.map ascii_of_nat (utf8_unit c)) ++ utf8 rest
  end.

Definition percent (c : ascii) : string :=
  String.concat "" (List.map percent_byte (utf8_unit c)).

Definition encode_one (set : ascii -> bool) (c : ascii) : string :=
  if set c then percent c else String c EmptyString.

Fixpoint encode (set : ascii -> bool) (s : string) : string :=
  match s with
  | EmptyString => EmptyString
  | String c rest => encode_one set c ++ encode set rest
  end.

Fixpoint percent_decode (s : string) : string :=
  match s with
  | EmptyString => EmptyString
  | String c rest =>
      match rest with
      | String a (String b rest') =>
          match Ascii.eqb c "%", Uri.hex_value a, Uri.hex_value b with
          | true, Some x, Some y =>
              String (ascii_of_nat (Z.to_nat (16 * x + y))) (percent_decode rest')
          | _, _, _ => String c (percent_decode rest)
          end
      | _ => String c (percent_decode rest)
      end
  end.

(** *** Hosts *)

Inductive Host :=
| Domain (name : string)
| Ipv4 (address : Z)
| Ipv6 (pieces : list Z)
| OpaqueHost (name : string)
| EmptyHost.

Definition forbidden_host : ascii -> bool :=
  among [0; 9; 10; 13; 32; 35; 47; 58; 60; 62; 63; 64; 91; 92; 93; 94; 124].

Definition forbidden_domain (c : ascii) : bool :=
  forbidden_host c || (code c <=? 31) || among [37; 127] c.

Fixpoint number_in (radix : Z) (s : string) (acc : Z) : option Z :=
  match s with
  | EmptyString => Some acc
  | String c rest =>
      match Uri.hex_value c with
      | Some d => if (d <? radix)%Z then number_in radix rest (radix * acc + d)%Z
                  else None
      | None => None
      end
  end.

(** The IPv4 number parser: decimal, [0x] hexadecimal or [0] octal. *)
Definition ipv4_number (s : string) : option Z :=
  match s with
  | EmptyString => None
  | String a EmptyString => number_in 10 s 0
  | String a (String b rest) =>
      if Ascii.eqb a "0" && (Ascii.eqb b "x" || Ascii.eqb b "X")
      then number_in 16 rest 0
      else if Ascii.eqb a "0" then number_in 8 (String b rest) 0
      else number_in 10 s 0
  end.

Definition is_some {A : Type} (o : option A) : bool :=
  match o with Some _ => true | None => false end.

Definition numeric (part : string) : bool :=
  (negb (Js.is_empty part) && Js.every is_digit part) || is_some (ipv4_number part).

(** The ends-in-a-number checker. *)
Definition ends_in_number (s : string) : bool :=
  let parts := split_on "." s in
  if Js.is_empty (List.last parts EmptyString)
  then if List.length parts =? 1 then false
       else numeric (List.last (List.removelast parts) EmptyString)
  else numeric (List.last parts EmptyString).

Fixpoint all_some {A : Type} (l : list (option A)) : option (list A) :=
  match l with
  | [] => Some []
  | None :: _ => None
  | Some a :: rest => option_map (cons a) (all_some rest)
  end.

(** The IPv4 parser. *)
Definition ipv4_parse (s : string) : option Z :=
  let parts := split_on "." s in
  let parts := if Js.is_empty (List.last parts EmptyString) && (1 <? List.length parts)
               then List.removelast parts else parts in
  if 4 <? List.length parts then None
  else match all_some (List.map ipv4_number parts) with
       | None => None
       | Some numbers =>
           let final := List.last numbers 0%Z in
           let others := List.removelast numbers in
           if existsb (fun n => (255 <? n)%Z) others then None
           else if (256 ^ (5 - Z.of_nat (List.length numbers)) <=? final)%Z then None
           else Some (final
                      + snd (List.fold_left
                               (fun '(counter, sum) n =>
                                  (counter + 1, sum + n * 256 ^ (3 - counter))%Z)
                               others (0, 0))%Z)%Z
       end.

Definition decimal (z : Z) : string := NilZero.string_of_uint (N.to_uint (Z.to_N z)).

Definition ipv4_text (address : Z) : string :=
  (decimal (address / 16777216 mod 256) ++ "."
   ++ decimal (address / 65536 mod 256) ++ "."
   ++ decimal (address / 256 mod 256) ++ "."
   ++ decimal (address mod 256))%string.

(** Up to [n] hexadecimal digits at the start of [s]: their value, how many
    they are, and what follows. *)
Fixpoint read_hex (n : nat) (s : string) (value : Z) (len : nat) : Z * nat * string :=
  match n, s with
  | S n', String c rest =>
      match Uri.hex_value c with
      | Some d => read_hex n' rest (value * 16 + d)%Z (S len)
      | None => (value, len, s)
      end
  | _, _ => (value, len, s)
  end.

(** One number of the dotted part of an IPv6 address: decimal digits
    without a leading zero, at most 255. *)
Definition quad_number (part : string) : option Z :=
  match part with
  | EmptyString => None
  | String a rest =>
      if negb (Js.every is_digit part) then None
      else if Ascii.eqb a "0" && negb (Js.is_empty rest) then None
      else match number_in 10 part 0 with
           | Some n => if (n <=? 255)%Z then Some n else None
           | None => None
           end
  end.

Definition dotted_quad (s : string) : option (Z * Z) :=
  match List.map quad_number (split_on "." s) with
  | [Some a; Some b; Some c; Some d] => Some (a * 256 + b, c * 256 + d)%Z
  | _ => None
  end.

(** The pieces of an IPv6 address read so far, in order (a [::] counts as
    one piece, zero), and the number of pieces before the gap it leaves. *)
Fixpoint ipv6_pieces (fuel : nat) (s : string) (pieces : list Z) (compress : option nat)
    : option (list Z * option nat) :=
  match fuel with
  | O => None
  | S fuel' =>
      match s with
      | EmptyString => Some (pieces, compress)
      | String c rest =>
          if List.length pieces =? 8 then None
          else if Ascii.eqb c ":" then
            match compress with
            | Some _ => None
            | None => ipv6_pieces fuel' rest (pieces ++ [0%Z])%list
                        (Some (S (List.length pieces)))
            end
          else
            let '(value, len, after) := read_hex 4 s 0 0 in
            match after with
            | EmptyString => Some ((pieces ++ [value])%list, compress)
            | String d after' =>
                if Ascii.eqb d "." then
                  if (len =? 0) || (6 <? List.length pieces) then None
                  else match dotted_quad s with
                       | Some (high, low) => Some ((pieces ++ [high; low])%list, compress)
                       | None => None
                       end
                else if Ascii.eqb d ":" then
                  if Js.is_empty after' then None
                  else ipv6_pieces fuel' after' (pieces ++ [value])%list compress
                else None
            end
      end
  end.

(** The IPv6 parser. *)
Definition ipv6_parse (s : string) : option (list Z) :=
  let start :=
    match s with
    | String a rest =>
        if Ascii.eqb a ":" then
          match rest with
          | String b rest' =>
              if Ascii.eqb b ":" then Some (rest', [0%Z], Some 1) else None
          | EmptyString => None
          end
        else Some (s, [], None)
    | EmptyString => Some (s, [], None)
    end in
  match start with
  | None => None
  | Some (s', pieces, compress) =>
      match ipv6_pieces (S (String.length s')) s' pieces compress with
      | None => None
      | Some (pieces, Some k) =>
          Some (List.firstn k pieces
                ++ List.repeat 0%Z (8 - List.length pieces)
                ++ List.skipn k pieces)%list
      | Some (pieces, None) =>
          if List.length pieces =? 8 then Some pieces else None
      end
  end.

Fixpoint hex_digits (fuel : nat) (z : Z) (acc : string) : string :=
  match fuel with
  | O => acc
  | S f =>
      let acc' := String (Hex.digit (z mod 16)) acc in
      if (z <? 16)%Z then acc' else hex_digits f (z / 16) acc'
  end.

Fixpoint zeros_at_start (l : list Z) : nat :=
  match l with
  | 0%Z :: rest => S (zeros_at_start rest)
  | _ => 0
  end.

(** Where the first longest run of two or more zero pieces starts. *)
Fixpoint longest_zeros (l : list Z) (i : nat) (best : option (nat * nat))
    : option (nat * nat) :=
  match l with
  | [] => best
  | _ :: rest =>
      let n := zeros_at_start l in
      let longer := match best with Some (_, m) => m <? n | None => true end in
      longest_zeros rest (S i) (if (1 <? n) && longer then Some (i, n) else best)
  end.

Fixpoint ipv6_text (l : list Z) (i : nat) (compress : option nat) (ignore0 : bool)
    : string :=
  match l with
  | [] => EmptyString
  | x :: rest =>
      if ignore0 && (x =? 0)%Z then ipv6_text rest (S i) compress true
      else if match compress with Some k => k =? i | None => false end
           then (if i =? 0 then "::" else ":") ++ ipv6_text rest (S i) compress true
           else hex_digits 4 x EmptyString ++ (if i =? 7 then "" else ":")
                ++ ipv6_text rest (S i) compress false
  end.

Definition host_text (h : Host) : string :=
  match h with
  | Domain name => name
  | Ipv4 address => ipv4_text address
  | Ipv6 pieces =>
      "[" ++ ipv6_text pieces 0 (option_map fst (longest_zeros pieces 0 None)) false
      ++ "]"
  | OpaqueHost name => name
  | EmptyHost => EmptyString
  end.

Section Parser.

(** Unicode ToASCII with the flags the URL Standard passes, on the UTF-8
    bytes of a percent-decoded domain; [None] is failure. *)
Variable ToASCII : string -> option string.

Definition punycode_label (label : string) : bool :=
  String.prefix "xn--" (lowercase label).

(** Domain to ASCII: ASCII lowercasing for an ASCII domain without an
    [xn--] label, as the standard notes; an empty result is a failure. *)
Definition domain_to_ascii (domain : string) : option string :=
  let result :=
    if Js.every (fun c => code c <? 128) domain
       && negb (existsb punycode_label (split_on "." domain))
    then Some (lowercase domain)
    else ToASCII domain in
  match result with
  | Some EmptyString => None
  | _ => result
  end.

(** The host parser. *)
Definition host_parse (isOpaque : bool) (input : string) : option Host :=
  if String.prefix "[" input then
    if Js.endsWith input "]"
    then option_map Ipv6 (ipv6_parse (substring 1 (String.length input - 2) input))
    else None
  else if isOpaque then
    if some forbidden_host input then None
    else Some (match encode c0_set input with
               | EmptyString => EmptyHost
               | name => OpaqueHost name
               end)
  else
    match domain_to_ascii (percent_decode (utf8 input)) with
    | None => None
    | Some asciiDomain =>
        if some forbidden_domain asciiDomain then None
        else if ends_in_number asciiDomain
             then option_map Ipv4 (ipv4_parse asciiDomain)
             else Some (Domain asciiDomain)
    end.

(** *** The URL record *)

Inductive Path :=
| OpaquePath (text : string)
| Segments (items : list string).

Record Url := {
  scheme : string;
  username : string;
  password : string;
  host : option Host;
  port : option Z;
  path : Path;
  query : option string;
  fragment : option string
}.

Definition special (sch : string) : bool :=
  existsb (String.eqb sch) ["ftp"; "file"; "http"; "https"; "ws"; "wss"].

Definition default_port (sch : string) : option Z :=
  if String.eqb sch "ftp" then Some 21%Z
  else if String.eqb sch "http" || String.eqb sch "ws" then Some 80%Z
  else if String.eqb sch "https" || String.eqb sch "wss" then Some 443%Z
  else None.

(** *** Paths *)

Definition single_dot (buffer : string) : bool :=
  existsb (String.eqb (lowercase buffer)) ["."; "%2e"].

Definition double_dot (buffer : string) : bool :=
  existsb (String.eqb (lowercase buffer)) [".."; ".%2e"; "%2e."; "%2e%2e"].

Definition drive_letter (buffer : string) : bool :=
  match buffer with
  | String a (String b EmptyString) => is_alpha a && among [58; 124] b
  | _ => false
  end.

Definition normalized_drive_letter (buffer : string) : bool :=
  match buffer with
  | String a (String b EmptyString) => is_alpha a && Ascii.eqb b ":"
  | _ => false
  end.

Definition shorten (sch : string) (items : list string) : list string :=
  match items with
  | [only] => if String.eqb sch "file" && normalized_drive_letter only
              then items else []
  | _ => List.removelast items
  end.

(** What the path state does with its buffer at the end of a segment;
    [final] says that the segment was not ended by a slash. *)
Definition push (sch : string) (final : bool) (items : list string) (buffer : string)
    : list string :=
  if double_dot buffer then
    let items := shorten sch items in
    if final then (items ++ [EmptyString])%list else items
  else if single_dot buffer then
    if final then (items ++ [EmptyString])%list else items
  else
    (items ++ [match buffer, items with
               | String a (String _ EmptyString), [] =>
                   if String.eqb sch "file" && drive_letter buffer
                   then String a (String ":" EmptyString) else buffer
               | _, _ => buffer
               end])%list.

Definition slash (c : ascii) : bool := among [47; 92] c.

(** The path state; with [override] (the [pathname] setter) [?] and [#] do
    not end the path. Gives the path and what is more of the input. *)
Fixpoint path_state (sch : string) (override : bool) (s : string)
    (items : list string) (buffer : string) : list string * string :=
  match s with
  | EmptyString => (push sch true items buffer, EmptyString)
  | String c rest =>
      if Ascii.eqb c "/" || (special sch && Ascii.eqb c "\")
      then path_state sch override rest (push sch false items buffer) EmptyString
      else if negb override && among [63; 35] c
           then (push sch true items buffer, s)
           else path_state sch override rest items (buffer ++ encode_one path_set c)
  end.

(** The opaque path state. *)
Fixpoint opaque_path (s : string) : string * string :=
  match s with
  | EmptyString => (EmptyString, EmptyString)
  | String c rest =>
      if among [63; 35] c then (EmptyString, s)
      else let '(text, more) := opaque_path rest in
           ((if Ascii.eqb c " "
             then match rest with
                  | String d _ => if among [63; 35] d then "%20" else " "
                  | EmptyString => " "
                  end
             else encode_one c0_set c) ++ text, more)
  end.

(** The query and fragment states, from what the path more. *)
Definition query_and_fragment (sch : string) (s : string)
    : option string * option string :=
  let fragment_of (t : string) :=
    match t with
    | String _ f => Some (encode fragment_set f)
    | EmptyString => None
    end in
  match s with
  | String c rest =>
      if Ascii.eqb c "?" then
        let '(q, t) := span (Ascii.eqb "#") rest in
        (Some (encode (if special sch then special_query_set else query_set) q),
         fragment_of t)
      else (None, fragment_of s)
  | EmptyString => (None, None)
  end.

(** *** The parser, without a base URL *)

Fixpoint trim_start (s : string) : string :=
  match s with
  | String c rest => if code c <=? 32 then trim_start rest else s
  | EmptyString => EmptyString
  end.

Fixpoint trim_end (s : string) : string :=
  match s with
  | EmptyString => EmptyString
  | String c rest =>
      match trim_end rest with
      | EmptyString => if code c <=? 32 then EmptyString else String c EmptyString
      | rest' => String c rest'
      end
  end.

Definition without_tab_or_newline : string -> string :=
  keep (fun c => negb (among [9; 10; 13] c)).

(** The scheme state, after the first letter. *)
Fixpoint scheme_state (s : string) : option (string * string) :=
  match s with
  | EmptyString => None
  | String c rest =>
      if Ascii.eqb c ":" then Some (EmptyString, rest)
      else if is_alnum c || among [43; 45; 46] c
           then match scheme_state rest with
                | Some (name, after) => Some (String (lower c) name, after)
                | None => None
                end
           else None
  end.

Definition scheme_of (s : string) : option (string * string) :=
  match s with
  | String c rest =>
      if is_alpha c
      then match scheme_state rest with
           | Some (name, after) => Some (String (lower c) name, after)
           | None => None
           end
      else None
  | EmptyString => None
  end.

(** The part before the last [sep] and the part after it. *)
Fixpoint split_last (sep : ascii) (s : string) : option (string * string) :=
  match s with
  | EmptyString => None
  | String c rest =>
      match split_last sep rest with
      | Some (a, b) => Some (String c a, b)
      | None => if Ascii.eqb c sep then Some (EmptyString, rest) else None
      end
  end.

(** The host state up to a colon outside brackets: the host, and the port
    after the colon if there is one. *)
Fixpoint split_port (inside : bool) (s : string) : string * option string :=
  match s with
  | EmptyString => (EmptyString, None)
  | String c rest =>
      if Ascii.eqb c ":" && negb inside then (EmptyString, Some rest)
      else let inside := if Ascii.eqb c "[" then true
                         else if Ascii.eqb c "]" then false else inside in
           let '(h, p) := split_port inside rest in (String c h, p)
  end.

Definition with_rest (sch user pass : string) (h : option Host) (p : option Z)
    (items : list string) (more : string) : Url :=
  let '(q, f) := query_and_fragment sch more in
  {| scheme := sch; username := user; password := pass; host := h; port := p;
     path := Segments items; query := q; fragment := f |}.

(** The path start state of the parser. *)
Definition path_start (sch user pass : string) (h : option Host) (p : option Z)
    (s : string) : Url :=
  if special sch then
    let s := match s with
             | String c rest => if slash c then rest else s
             | EmptyString => s
             end in
    let '(items, more) := path_state sch false s [] EmptyString in
    with_rest sch user pass h p items more
  else
    match s with
    | EmptyString => with_rest sch user pass h p [] EmptyString
    | String c rest =>
        if among [63; 35] c then with_rest sch user pass h p [] s
        else let '(items, more) :=
               path_state sch false (if Ascii.eqb c "/" then rest else s)
                 [] EmptyString in
             with_rest sch user pass h p items more
    end.

(** The authority, host and port states. *)
Definition authority (sch : string) (s : string) : option Url :=
  let sp := special sch in
  let '(span_, after) := span (fun c => among [47; 63; 35] c || (sp && Ascii.eqb c "\")) s in
  let '(credentials, hostport) :=
    match split_last "@" span_ with
    | Some (info, hp) => (Some info, hp)
    | None => (None, span_)
    end in
  let '(user, pass) :=
    match credentials with
    | Some info =>
        let '(name, word) := span (Ascii.eqb ":") info in
        (encode userinfo_set name,
         encode userinfo_set (match word with String _ w => w | EmptyString => word end))
    | None => (EmptyString, EmptyString)
    end in
  if is_some credentials && Js.is_empty hostport then None
  else
    match split_port false hostport with
    | (buffer, Some digits) =>
        if Js.is_empty buffer then None
        else match host_parse (negb sp) buffer with
             | None => None
             | Some h =>
                 if negb (Js.every is_digit digits) then None
                 else if Js.is_empty digits
                      then Some (path_start sch user pass (Some h) None after)
                      else match number_in 10 digits 0 with
                           | Some n =>
                               if (65535 <? n)%Z then None
                               else Some (path_start sch user pass (Some h)
                                            (if bool_decide (default_port sch = Some n)
                                             then None else Some n)
                                            after)
                           | None => None
                           end
             end
    | (buffer, None) =>
        if sp && Js.is_empty buffer then None
        else match host_parse (negb sp) buffer with
             | None => None
             | Some h => Some (path_start sch user pass (Some h) None after)
             end
    end.

Fixpoint skip_slashes (s : string) : string :=
  match s with
  | String c rest => if slash c then skip_slashes rest else s
  | EmptyString => EmptyString
  end.

(** The file, file slash and file host states. *)
Definition file (s : string) : option Url :=
  let plain (s : string) (buffer : string) :=
    let '(items, more) := path_state "file" false s [] buffer in
    Some (with_rest "file" "" "" (Some EmptyHost) None items more) in
  match s with
  | String a (String b rest as after) =>
      if slash a && slash b then
        let '(buffer, more) := span (among [47; 92; 63; 35]) rest in
        if drive_letter buffer then plain more buffer
        else if Js.is_empty buffer
             then Some (path_start "file" "" "" (Some EmptyHost) None more)
             else match host_parse false buffer with
                  | None => None
                  | Some h =>
                      Some (path_start "file" "" ""
                              (Some (match h with
                                     | Domain name =>
                                         if String.eqb name "localhost" then EmptyHost else h
                                     | _ => h
                                     end))
                              None more)
                  end
      else if slash a then plain after EmptyString
      else plain s EmptyString
  | String a EmptyString =>
      if slash a then plain EmptyString EmptyString else plain s EmptyString
  | EmptyString => plain s EmptyString
  end.

(** [new URL(input)]; [None] when the constructor throws. *)
Definition parse (input : string) : option Url :=
  let s := without_tab_or_newline (trim_end (trim_start input)) in
  match scheme_of s with
  | None => None
  | Some (sch, rest) =>
      if String.eqb sch "file" then file rest
      else if special sch then authority sch (skip_slashes rest)
      else match rest with
           | String a after =>
               if Ascii.eqb a "/" then
                 match after with
                 | String b after' =>
                     if Ascii.eqb b "/" then authority sch after'
                     else let '(items, more) := path_state sch false after [] "" in
                          Some (with_rest sch "" "" None None items more)
                 | EmptyString =>
                     let '(items, more) := path_state sch false after [] "" in
                     Some (with_rest sch "" "" None None items more)
                 end
               else
                 let '(text, more) := opaque_path rest in
                 let '(q, f) := query_and_fragment sch more in
                 Some {| scheme := sch; username := ""; password := ""; host := None;
                         port := None; path := OpaquePath text; query := q;
                         fragment := f |}
           | EmptyString =>
               Some {| scheme := sch; username := ""; password := ""; host := None;
                       port := None; path := OpaquePath ""; query := None;
                       fragment := None |}
           end
  end.

(** *** Getters, setters and the serializer *)

Definition hostname (u : Url) : string :=
  match host u with
  | Some h => host_text h
  | None => EmptyString
  end.

(** A slash in front of every segment. *)
Fixpoint slashed (items : list string) : string :=
  match items with
  | [] => EmptyString
  | item :: rest => "/" ++ item ++ slashed rest
  end.

Definition path_text (p : Path) : string :=
  match p with
  | OpaquePath text => text
  | Segments items => slashed items
  end.

Definition pathname (u : Url) : string := path_text (path u).

Definition credentials (u : Url) : bool :=
  negb (Js.is_empty (username u)) || negb (Js.is_empty (password u)).

Definition href (u : Url) : string :=
  scheme u ++ ":"
  ++ match host u with
     | Some h =>
         "//"
         ++ (if credentials u
             then username u
                  ++ (if Js.is_empty (password u) then "" else ":" ++ password u)
                  ++ "@"
             else "")
         ++ host_text h
         ++ match port u with
            | Some p => ":" ++ decimal p
            | None => ""
            end
     | None =>
         match path u with
         | Segments (EmptyString :: _ :: _) => "/."
         | _ => ""
         end
     end
  ++ pathname u
  ++ match query u with Some q => "?" ++ q | None => "" end
  ++ match fragment u with Some f => "#" ++ f | None => "" end.

Definition with_host (u : Url) (h : Host) : Url :=
  {| scheme := scheme u; username := username u; password := password u;
     host := Some h; port := port u; path := path u; query := query u;
     fragment := fragment u |}.

Definition with_path (u : Url) (items : list string) : Url :=
  {| scheme := scheme u; username := username u; password := password u;
     host := host u; port := port u; path := Segments items; query := query u;
     fragment := fragment u |}.

Definition with_query (u : Url) (q : option string) : Url :=
  {| scheme := scheme u; username := username u; password := password u;
     host := host u; port := port u; path := path u; query := q;
     fragment := fragment u |}.

(** The host state under the hostname override: the buffer when the input
    ends or reaches a delimiter, nothing when it reaches a colon outside
    brackets. *)
Fixpoint hostname_state (sp : bool) (inside : bool) (s : string) : option string :=
  match s with
  | EmptyString => Some EmptyString
  | String c rest =>
      if Ascii.eqb c ":" && negb inside then None
      else if among [47; 63; 35] c || (sp && Ascii.eqb c "\") then Some EmptyString
      else let inside := if Ascii.eqb c "[" then true
                         else if Ascii.eqb c "]" then false else inside in
           option_map (String c) (hostname_state sp inside rest)
  end.

(** [u.hostname = value]. *)
Definition set_hostname (u : Url) (value : string) : Url :=
  match path u with
  | OpaquePath _ => u
  | Segments _ =>
      let s := without_tab_or_newline value in
      if String.eqb (scheme u) "file" then
        let buffer := fst (span (among [47; 92; 63; 35]) s) in
        if Js.is_empty buffer then with_host u EmptyHost
        else match host_parse false buffer with
             | None => u
             | Some (Domain name) =>
                 with_host u (if String.eqb name "localhost" then EmptyHost else Domain name)
             | Some h => with_host u h
             end
      else
        let sp := special (scheme u) in
        match hostname_state sp false s with
        | None => u
        | Some buffer =>
            if sp && Js.is_empty buffer then u
            else if Js.is_empty buffer && (credentials u || is_some (port u)) then u
            else match host_parse (negb sp) buffer with
                 | None => u
                 | Some h => with_host u h
                 end
        end
  end.

(** [u.pathname = value]. *)
Definition set_pathname (u : Url) (value : string) : Url :=
  match path u with
  | OpaquePath _ => u
  | Segments _ =>
      let s := without_tab_or_newline value in
      let sch := scheme u in
      if special sch then
        let s := match s with
                 | String c rest => if slash c then rest else s
                 | EmptyString => s
                 end in
        with_path u (fst (path_state sch true s [] EmptyString))
      else
        match s with
        | EmptyString =>
            with_path u (match host u with None => [EmptyString] | Some _ => [] end)
        | String c rest =>
            with_path u (fst (path_state sch true (if Ascii.eqb c "/" then rest else s)
                                [] EmptyString))
        end
  end.

(** [u.search = value]. *)
Definition set_search (u : Url) (value : string) : Url :=
  match value with
  | EmptyString => with_query u None
  | String c rest =>
      let input := without_tab_or_newline (if Ascii.eqb c "?" then rest else value) in
      with_query u
        (Some (encode (if special (scheme u) then special_query_set else query_set)
                 input))
  end.

End Parser.

End Whatwg.

(* ===================================================================== *)
(** ** A platform to run the model on *)
(* ===================================================================== *)

(** The statements below hold for every [Platform]. To evaluate the model
    on concrete requests one instance is needed; this one is exact on what
    the examples use and makes no attempt beyond it: numbers are read and
    printed in decimal when they are non-negative integers below 2^53 (any
    other text reads as [NaN]), the ledger key of a fingerprint is its
    rendered text rather than an MD5 digest of it, and the files next to
    the script are its two sources. Its URL class is the one of the URL
    Standard, over a conversion to ASCII for hosts that need the Unicode
    tables; [platform] refuses such hosts, which the examples do not
    have. *)
Module Reference.

Import Js.
#[local] Open Scope string_scope.

Definition is_decimal (c : ascii) : bool :=
  let n := nat_of_ascii c in ((48 <=? n) && (n <=? 57))%nat.

Fixpoint decimal_value (acc : Z) (s : string) : option Z :=
  match s with
  | EmptyString => Some acc
  | String c rest =>
      if is_decimal c
      then decimal_value (10 * acc + Z.of_nat (nat_of_ascii c) - 48) rest
      else None
  end.

Definition read_number (s : string) : number :=
  match s with
  | EmptyString => 0%float
  | _ => match decimal_value 0 s with
         | Some z => if (z <? 2 ^ 53)%Z then of_Z z else nan
         | None => nan
         end
  end.

Fixpoint decimal_digits (fuel : nat) (z : Z) (acc : string) : string :=
  match fuel with
  | O => acc
  | S f =>
      let acc' := String (ascii_of_nat (Z.to_nat (48 + z mod 10))) acc in
      if (z <? 10)%Z then acc' else decimal_digits f (z / 10) acc'
  end.

(** The integer a float stands for, when it is a non-negative one. *)
Definition integral (x : number) : option Z :=
  let '(m, e) := PrimFloat.frshiftexp x in
  let z := Uint63.to_Z (PrimFloat.normfr_mantissa m) in
  let shift := Uint63.to_Z e - FloatOps.shift - 53 in
  if PrimFloat.eqb x 0%float then Some 0
  else if PrimFloat.ltb 0%float x && PrimFloat.ltb x 9007199254740992%float
          && PrimFloat.eqb (of_Z (Z.shiftl z shift)) x
       then Some (Z.shiftl z shift)
       else None.

Definition print_number (x : number) : string :=
  match integral x with
  | Some z => decimal_digits 20 z EmptyString
  | None => "NaN"
  end.

Definition quoted (s : string) : string :=
  let q := ascii_of_nat 34 in String q (s ++ String q EmptyString).

Fixpoint render (v : json) : string :=
  match v with
  | JNull => "null"
  | JBool true => "true"
  | JBool false => "false"
  | JNum x => print_number x
  | JStr s => quoted s
  | JArr items => "[" ++ join "," (List.map render items) ++ "]"
  | JObj fields =>
      "{" ++ join "," (List.map (fun kv => quoted (fst kv) ++ ":" ++ render (snd kv))
                                fields) ++ "}"
  end.

(** The platform over a conversion to ASCII. *)
Definition on (ToASCII : string -> option string) : Platform := {|
  StringToNumber := read_number;
  NumberToString := print_number;
  md5_of_json := render;
  URL := Whatwg.Url;
  URL_new := Whatwg.parse ToASCII;
  URL_hostname := Whatwg.hostname;
  URL_set_hostname := Whatwg.set_hostname ToASCII;
  URL_set_pathname := Whatwg.set_pathname;
  URL_set_search := Whatwg.set_search;
  URL_toString := Whatwg.href;
  static_file := fun p => String.eqb p "/server.js" || String.eqb p "/au0cki7gbr.js"
|}.

(** No conversion: a host outside ASCII or with an [xn--] label is
    refused. *)
Definition refuse : string -> option string := fun _ => None.

#[export] Instance platform : Platform := on refuse.

(** Readings with the clock at [t], both sweep draws at [coin] and every
    random byte equal to [b]. *)
Definition at_time (t : Z) (coin : number) (b : Byte.byte) : Readings :=
  {| now_rate := t; coin_rate := coin; now_update := t; now_first := t;
     now_last := t; coin_ledger := coin; now_sweep := t;
     subdomain_bytes := fun _ => b; challenge_bytes := fun _ => b;
     now_challenge := t; now_pow := t |}.

(** A request with the given method, path, user agent, peer address and
    body, and no forwarding header. *)
Definition request (m p : string) (ua : option string) (peer : string)
    (b : json) : Server.Request :=
  {| Server.method := m; Server.path := p; Server.user_agent := ua;
     Server.x_forwarded_for := None; Server.x_real_ip := None;
     Server.req_ip := Some peer; Server.remoteAddress := Some peer;
     Server.body := b |}.

End Reference.

(* ===================================================================== *)
(** ** Facts about binary64 comparisons *)
(* ===================================================================== *)

Section FloatFacts.

Lemma SFcompare_swap x y :
  SFcompare y x = option_map CompOpp (SFcompare x y).
Proof.
  destruct x as [sx|sx| |sx mx ex], y as [sy|sy| |sy my ey]; simpl;
    try reflexivity;
    try (destruct sx; reflexivity); try (destruct sy; reflexivity);
    try (destruct sx, sy; reflexivity).
  destruct sx, sy; try reflexivity; simpl;
    rewrite (Z.compare_antisym ex ey); destruct (ex ?= ey) eqn:E; simpl;
    try reflexivity;
    f_equal; rewrite (Pos.compare_cont_antisym); simpl;
    destruct (PosDef.Pos.compare_cont Eq mx my); reflexivity.
Qed.

Lemma is_nan_spec x : PrimFloat.is_nan x = true <-> Prim2SF x = S754_nan.
Proof.
  unfold PrimFloat.is_nan. rewrite FloatAxioms.eqb_spec. unfold SFeqb.
  destruct (Prim2SF x) as [s|s| |s m e] eqn:E; simpl.
  - split; discriminate.
  - destruct s; split; discriminate.
  - split; reflexivity.
  - destruct s; rewrite Z.compare_refl, Pos.compare_cont_refl; simpl;
      split; discriminate.
Qed.

(** A comparison that holds has no [NaN] operand. *)
Lemma leb_true_not_nan x y :
  PrimFloat.leb x y = true ->
  PrimFloat.is_nan x = false /\ PrimFloat.is_nan y = false.
Proof.
  rewrite leb_spec. unfold SFleb. intros Hc.
  split; apply not_true_is_false; intros Hn; apply is_nan_spec in Hn;
    rewrite Hn in Hc.
  - discriminate.
  - destruct (Prim2SF x); discriminate.
Qed.

Lemma ltb_true_not_nan x y :
  PrimFloat.ltb x y = true ->
  PrimFloat.is_nan x = false /\ PrimFloat.is_nan y = false.
Proof.
  rewrite ltb_spec. unfold SFltb. intros Hc.
  split; apply not_true_is_false; intros Hn; apply is_nan_spec in Hn;
    rewrite Hn in Hc.
  - discriminate.
  - destruct (Prim2SF x); discriminate.
Qed.

(** Away from [NaN], [x < y] is the negation of [y <= x]. *)
Lemma ltb_negb_leb x y :
  PrimFloat.is_nan x = false -> PrimFloat.is_nan y = false ->
  PrimFloat.ltb x y = negb (PrimFloat.leb y x).
Proof.
  intros Hx Hy. rewrite ltb_spec, leb_spec. unfold SFltb, SFleb.
  rewrite (SFcompare_swap (Prim2SF x) (Prim2SF y)).
  destruct (SFcompare (Prim2SF x) (Prim2SF y)) as [c|] eqn:E.
  - destruct c; reflexivity.
  - exfalso.
    destruct (Prim2SF x) eqn:Ex, (Prim2SF y) eqn:Ey; simpl in E;
      try discriminate.
    all: try (apply is_nan_spec in Ex; congruence).
    all: try (apply is_nan_spec in Ey; congruence).
Qed.

(** With a [NaN] operand every comparison is false. *)
Lemma nan_compares_false x y :
  PrimFloat.is_nan x = true ->
  PrimFloat.leb x y = false /\ PrimFloat.leb y x = false
  /\ PrimFloat.ltb x y = false /\ PrimFloat.ltb y x = false.
Proof.
  intros Hn.
  repeat split; apply not_true_is_false; intros Hc.
  - apply leb_true_not_nan in Hc. destruct Hc; congruence.
  - apply leb_true_not_nan in Hc. destruct Hc; congruence.
  - apply ltb_true_not_nan in Hc. destruct Hc; congruence.
  - apply ltb_true_not_nan in Hc. destruct Hc; congruence.
Qed.

(** [s >= c] fails exactly when [s < c] or [s] is [NaN], for a
    threshold [c] that is a number. *)
Lemma ge_false_iff (s c : Js.number) :
  PrimFloat.is_nan c = false ->
  Js.ge s c = false <-> Js.lt s c = true \/ PrimFloat.is_nan s = true.
Proof.
  intros Hc. unfold Js.ge, Js.lt.
  destruct (PrimFloat.is_nan s) eqn:Hs.
  - destruct (nan_compares_false s c Hs) as (_ & H2 & _). rewrite H2. tauto.
  - rewrite (ltb_negb_leb s c Hs Hc).
    destruct (PrimFloat.leb c s); simpl; split; intros; try tauto.
    + discriminate.
    + destruct H as [H|H]; discriminate.
Qed.

Lemma SFleb_trans x y z :
  SFleb x y = true -> SFleb y z = true -> SFleb x z = true.
Proof.
  unfold SFleb.
  destruct x as [sx|sx| |sx mx ex], y as [sy|sy| |sy my ey],
           z as [sz|sz| |sz mz ez];
    simpl; try discriminate; try reflexivity;
    try (destruct sx; simpl; try discriminate; try reflexivity);
    try (destruct sy; simpl; try discriminate; try reflexivity);
    try (destruct sz; simpl; try discriminate; try reflexivity).
  all: change (PosDef.Pos.compare_cont Eq) with Pos.compare.
  all: destruct (Z.compare_spec ex ey); destruct (Z.compare_spec ey ez);
       destruct (Z.compare_spec ex ez); try lia; simpl;
       try discriminate; try reflexivity.
  all: destruct (Pos.compare_spec mx my); destruct (Pos.compare_spec my mz);
       destruct (Pos.compare_spec mx mz); try lia; simpl;
       try discriminate; try reflexivity.
Qed.

(** A score that reaches a threshold reaches every lower one. *)
Lemma ge_mono (s a b : Js.number) :
  PrimFloat.leb a b = true -> Js.ge s b = true -> Js.ge s a = true.
Proof.
  unfold Js.ge. rewrite !leb_spec. apply SFleb_trans.
Qed.

(** A score below a threshold is below every higher one. *)
Lemma ge_false_mono (s a b : Js.number) :
  PrimFloat.leb a b = true -> Js.ge s a = false -> Js.ge s b = false.
Proof.
  intros Hab Ha. destruct (Js.ge s b) eqn:Hb; [|reflexivity].
  rewrite (ge_mono s a b Hab Hb) in Ha. discriminate.
Qed.


Lemma ge_true_lt (s a b : Js.number) :
  PrimFloat.is_nan b = false ->
  Js.ge s a = true -> Js.ge s b = false -> Js.lt s b = true.
Proof.
  intros Hb Ha Hsb. apply ge_false_iff in Hsb; [|assumption].
  destruct Hsb as [Hlt|Hn]; [assumption|].
  apply leb_true_not_nan in Ha. destruct Ha; congruence.
Qed.

End FloatFacts.

(* ===================================================================== *)
(** ** The answer of /api/verify-human *)
(* ===================================================================== *)

Section Aggregation.

Import Js Server.

Context `{Platform}.
Variable target : string.

(** The score as the design describes it: the server-side score, plus half
    the client's own score, plus one fixed bonus per reported check and the
    reuse penalty. *)
Definition expected_score (serverScore clientScore : number)
    (cdp webdriver artifacts headless reuse : bool) : number :=
  let s0 := PrimFloat.add serverScore (PrimFloat.mul clientScore 0.5%float) in
  let s1 := if cdp then PrimFloat.add s0 60%float else s0 in
  let s2 := if webdriver then PrimFloat.add s1 70%float else s1 in
  let s3 := if artifacts then PrimFloat.add s2 65%float else s2 in
  let s4 := if headless then PrimFloat.add s3 50%float else s3 in
  if reuse then PrimFloat.add s4 20%float else s4.

(** [req.botScore || 0]. *)
Definition server_score (sc : Scoped) : number :=
  match botScore sc with
  | Some x => if number_truthy x then x else 0%float
  | None => 0%float
  end.

(** Whether the ledger has the hash on record under another identity. *)
Definition on_record_elsewhere (st : State) (fpHash : string) (who : identity) : bool :=
  match fingerprintStore st !! fpHash with
  | Some stored => bool_decide (ip stored ≠ who)
  | None => false
  end.

Lemma total_bump_if c w name t :
  total (bump_if c w name t) = if c then PrimFloat.add (total t) w else total t.
Proof. destruct c; reflexivity. Qed.

Lemma observe_flag rd fpHash who store :
  snd (observe rd fpHash who store)
  = match store !! fpHash with
    | Some stored => bool_decide (ip stored ≠ who)
    | None => false
    end.
Proof. unfold observe. destruct (store !! fpHash); reflexivity. Qed.

(** What the handler reads from the payload of a request. *)
Definition payload_of (req : Request) : completion Reported :=
  read_payload (prop (Some (body req)) "clientScore")
               (prop (Some (body req)) "checks").

(** The score the design describes, from what was read. *)
Definition score_of (serverScore : number) (r : Reported) (reuse : bool) : number :=
  expected_score serverScore (client r) (cdp r) (webdriver r) (artifacts r)
                 (headless r) reuse.

Lemma read_payload_fields clientScore checks r :
  read_payload clientScore checks = Normal r ->
  or_zero StringToNumber NumberToString clientScore = Normal (client r)
  /\ cdp r = cdp_reported checks
  /\ webdriver r = webdriver_reported checks
  /\ artifacts_reported checks = Normal (artifacts r)
  /\ headless_reported checks = Normal (headless r).
Proof.
  unfold read_payload.
  destruct (or_zero StringToNumber NumberToString clientScore) as [c|];
    [|discriminate].
  destruct (artifacts_reported checks) as [a|]; [|discriminate].
  destruct (headless_reported checks) as [h|]; [|discriminate].
  cbn. intros [= <-]. cbn. repeat split; reflexivity.
Qed.

(** What a verdict answer was computed from. *)
Lemma verify_human_answer rd req sc st v :
  fst (verify_human target rd req sc st)
  = {| status := 200; content := BVerification v |} ->
  exists fingerprint reported,
    prop (Some (body req)) "fingerprint" = Some fingerprint
    /\ truthy (Some fingerprint) = true
    /\ truthy (prop (Some (body req)) "behaviors") = true
    /\ payload_of req = Normal reported
    /\ score v
       = score_of (server_score sc) reported
           (on_record_elsewhere st (md5_of_json fingerprint) (getClientIP req))
    /\ verdict v = verdict_of (score v)
    /\ allowed v = negb (ge (score v) 80%float)
    /\ redirectUrl v
       = build_redirect target rd (ge (score v) 80%float)
           (prop (Some (body req)) "urlParams").
Proof.
  unfold verify_human, payload_of.
  destruct (prop (Some (body req)) "fingerprint") as [fingerprint|] eqn:Hfp;
    [|cbn; discriminate].
  destruct (truthy (Some fingerprint)) eqn:Tf; [|cbn; discriminate].
  destruct (truthy (prop (Some (body req)) "behaviors")) eqn:Tb;
    [|cbn; discriminate].
  cbn [negb orb].
  destruct (read_payload (prop (Some (body req)) "clientScore")
              (prop (Some (body req)) "checks")) as [reported|];
    [|cbn; discriminate].
  pose proof (observe_flag rd (md5_of_json fingerprint) (getClientIP req)
                (fingerprintStore st)) as Hflag.
  destruct (observe rd (md5_of_json fingerprint) (getClientIP req)
              (fingerprintStore st)) as [ledger reused].
  cbn [snd] in Hflag. cbn [fst]. intros [= <-].
  cbn [score verdict allowed redirectUrl].
  exists fingerprint, reported. repeat split; try assumption; try reflexivity.
  rewrite !total_bump_if. cbn [total]. subst reused. reflexivity.
Qed.

(** C1, as amended. The verdict of every answer follows the ladder: "bot"
    iff the score reaches 100, "likely-bot" iff it is in [80, 100),
    "suspicious" iff it is in [50, 80), "human" iff it does not reach 50;
    and [allowed] holds iff the score does not reach 80, whatever the
    label. Not reaching a threshold means being below it or being NaN
    (which is what a client score that is not numeric produces). In
    particular 99 is not "bot", 100 is "bot", 79 is allowed and 80 is not. *)
Theorem verdict_ladder rd req sc st v :
  fst (verify_human target rd req sc st)
  = {| status := 200; content := BVerification v |} ->
  (verdict v = "bot" <-> ge (score v) 100%float = true)
  /\ (verdict v = "likely-bot"
      <-> ge (score v) 80%float = true /\ lt (score v) 100%float = true)
  /\ (verdict v = "suspicious"
      <-> ge (score v) 50%float = true /\ lt (score v) 80%float = true)
  /\ (verdict v = "human"
      <-> lt (score v) 50%float = true \/ PrimFloat.is_nan (score v) = true)
  /\ (allowed v = true
      <-> lt (score v) 80%float = true \/ PrimFloat.is_nan (score v) = true)
  /\ (score v = 99%float -> verdict v <> "bot")
  /\ (score v = 100%float -> verdict v = "bot")
  /\ (score v = 79%float -> allowed v = true)
  /\ (score v = 80%float -> allowed v = false).
Proof.
  intros Hans.
  destruct (verify_human_answer rd req sc st v Hans)
    as (fp & reported & _ & _ & _ & _ & _ & Hv & Ha & _).
  rewrite Hv, Ha. unfold verdict_of. clear Hv Ha Hans.
  set (s := score v).
  assert (H58 : PrimFloat.leb 50 80 = true) by reflexivity.
  assert (H81 : PrimFloat.leb 80 100 = true) by reflexivity.
  destruct (PrimFloat.is_nan s) eqn:Hn.
  - destruct (nan_compares_false s 50%float Hn) as (_ & G50 & L50 & _).
    destruct (nan_compares_false s 80%float Hn) as (_ & G80 & L80 & _).
    destruct (nan_compares_false s 100%float Hn) as (_ & G100 & L100 & _).
    unfold ge, lt. rewrite G50, G80, G100, L50, L80, L100. cbn [negb].
    repeat split; intros; try discriminate; try tauto;
      try (intuition discriminate);
      rewrite H0 in Hn; vm_compute in Hn; discriminate.
  - assert (L50 : lt s 50%float = negb (ge s 50%float))
      by (apply ltb_negb_leb; [assumption|reflexivity]).
    assert (L80 : lt s 80%float = negb (ge s 80%float))
      by (apply ltb_negb_leb; [assumption|reflexivity]).
    assert (L100 : lt s 100%float = negb (ge s 100%float))
      by (apply ltb_negb_leb; [assumption|reflexivity]).
    rewrite L50, L80, L100.
    pose proof (ge_mono s 80%float 100%float H81) as M1.
    pose proof (ge_mono s 50%float 80%float H58) as M2.
    destruct (ge s 100%float) eqn:G100;
      [rewrite (M1 eq_refl) in *; rewrite (M2 eq_refl) in *
      |destruct (ge s 80%float) eqn:G80;
         [rewrite (M2 eq_refl) in *|destruct (ge s 50%float) eqn:G50]];
      cbn [negb];
      repeat split; intros; try discriminate; try tauto;
      try (intuition discriminate);
      match goal with
      | E : s = _ |- _ =>
          rewrite E in *; vm_compute in G100; try discriminate;
          vm_compute in G80; try discriminate
      end.
Qed.

(** A check reported as the boolean [true] counts; so does any other
    truthy value, which is how the handler reads the flags. *)
Lemma reported_boolean checks k b :
  prop checks k = Some (JBool b) ->
  truthy checks && truthy (prop checks k) = b.
Proof.
  intros Hk. rewrite Hk.
  destruct checks as [[| | | | |fs]|]; try discriminate. reflexivity.
Qed.

Lemma reported_artifacts checks items :
  prop checks "automationArtifacts" = Some (JArr items) ->
  artifacts_reported checks = Normal (0 <? List.length items)%nat.
Proof.
  intros Hk. unfold artifacts_reported. rewrite Hk.
  destruct checks as [[| | | | |fs]|]; try discriminate. reflexivity.
Qed.

Lemma reported_headless checks items :
  prop checks "headlessSignals" = Some (JArr items) ->
  headless_reported checks = Normal (2 <=? List.length items)%nat.
Proof.
  intros Hk. unfold headless_reported. rewrite Hk.
  destruct checks as [[| | | | |fs]|]; try discriminate. reflexivity.
Qed.

(** C2. The score of every answer is the server-side score plus half the
    client score (the number [clientScore] of the payload itself when it is
    a number, 0 when it is 0, NaN or absent), plus 60 when [checks.cdp] is reported, 70 for
    [checks.webdriver], 65 for a non-empty [checks.automationArtifacts], 50
    for [checks.headlessSignals] of length at least 2, and 20 when the
    fingerprint is on record under another identity; the additions are made
    in that order, in binary64. With [checks.webdriver = true], a client
    score of 0 and no server-side score, the score is at least 70 and the
    verdict is "suspicious" or worse. *)
Theorem final_score rd req sc st v :
  fst (verify_human target rd req sc st)
  = {| status := 200; content := BVerification v |} ->
  let payload := Some (body req) in
  let checks := prop payload "checks" in
  exists fingerprint clientScore artifacts headless,
    prop payload "fingerprint" = Some fingerprint
    /\ or_zero StringToNumber NumberToString (prop payload "clientScore")
       = Normal clientScore
    /\ (forall c, prop payload "clientScore" = Some (JNum c) ->
        clientScore = if number_truthy c then c else 0%float)
    /\ (prop payload "clientScore" = None -> clientScore = 0%float)
    /\ artifacts_reported checks = Normal artifacts
    /\ headless_reported checks = Normal headless
    /\ score v
       = expected_score (server_score sc) clientScore
           (cdp_reported checks) (webdriver_reported checks) artifacts headless
           (on_record_elsewhere st (md5_of_json fingerprint) (getClientIP req))
    /\ (forall cdp webdriver items signals,
          prop checks "cdp" = Some (JBool cdp) ->
          prop checks "webdriver" = Some (JBool webdriver) ->
          prop checks "automationArtifacts" = Some (JArr items) ->
          prop checks "headlessSignals" = Some (JArr signals) ->
          cdp_reported checks = cdp
          /\ webdriver_reported checks = webdriver
          /\ artifacts = (0 <? List.length items)%nat
          /\ headless = (2 <=? List.length signals)%nat)
    /\ (prop checks "webdriver" = Some (JBool true) ->
        prop payload "clientScore" = Some (JNum 0%float) ->
        server_score sc = 0%float ->
        ge (score v) 70%float = true
        /\ (verdict v = "suspicious" \/ verdict v = "likely-bot" \/ verdict v = "bot")).
Proof.
  intros Hans payload checks.
  destruct (verify_human_answer rd req sc st v Hans)
    as (fp & r & Hfp & _ & _ & Hread & Hscore & Hv & _).
  destruct (read_payload_fields _ _ _ Hread) as (Hc & Hcdp & Hwd & Ha & Hh).
  fold payload in Hc. fold payload checks in Hcdp, Hwd, Ha, Hh.
  exists fp, (client r), (artifacts r), (headless r).
  split; [exact Hfp|]. split; [exact Hc|].
  split.
  { intros c Pc. rewrite Pc in Hc. unfold or_zero in Hc. cbn [truthy] in Hc.
    destruct (number_truthy c); cbn in Hc; injection Hc as <-; reflexivity. }
  split.
  { intros Pc. rewrite Pc in Hc. cbn in Hc. injection Hc as <-. reflexivity. }
  split; [exact Ha|]. split; [exact Hh|].
  unfold score_of in Hscore. rewrite Hcdp, Hwd in Hscore.
  split; [exact Hscore|]. split.
  - intros cdp webdriver items signals Pc Pw Pa Ph.
    unfold cdp_reported, webdriver_reported.
    rewrite (reported_boolean _ _ _ Pc), (reported_boolean _ _ _ Pw).
    rewrite (reported_artifacts _ _ Pa) in Ha.
    rewrite (reported_headless _ _ Ph) in Hh.
    injection Ha as <-. injection Hh as <-. repeat split; reflexivity.
  - intros Pw Pc Hs. rewrite Hv, Hscore, Hs.
    rewrite Pc in Hc. cbn in Hc. injection Hc as <-.
    unfold webdriver_reported. rewrite (reported_boolean _ _ _ Pw).
    destruct (cdp_reported checks), (artifacts r), (headless r),
             (on_record_elsewhere st (md5_of_json fp) (getClientIP req));
      vm_compute; auto.
Qed.

End Aggregation.

(* ===================================================================== *)
(** ** The middleware chain *)
(* ===================================================================== *)

Section Chain.

Import Js Server.

Context `{Platform}.
Variable target : string.

(** The same request under another user agent, and the same state with
    another rate table. *)
Definition with_user_agent (ua : option string) (req : Request) : Request :=
  {| method := method req; path := path req; user_agent := ua;
     x_forwarded_for := x_forwarded_for req; x_real_ip := x_real_ip req;
     req_ip := req_ip req; remoteAddress := remoteAddress req;
     body := body req |}.

Definition with_rate_table (table : gmap identity (list Z)) (st : State) : State :=
  {| rateLimitStore := table; fingerprintStore := fingerprintStore st |}.

(** Whether the classifier leaves the request alone (line 69). *)
Definition skipped (req : Request) : bool :=
  endsWith (path req) ".js" || startsWith (path req) "/api/"
  || String.eqb (path req) "/health".

Lemma botDetection_skipped rd req st :
  skipped req = true -> botDetection rd req st = (Next unscored, st).
Proof. unfold botDetection, skipped. intros ->. reflexivity. Qed.

Lemma botDetection_classified rd req st :
  skipped req = false ->
  botDetection rd req st
  = let t := fst (classify rd req st) in
    (if ge (total t) 80%float
     then Send inert
     else Next {| botScore := Some (total t); botSignals := Some (names t) |},
     snd (classify rd req st)).
Proof.
  unfold botDetection, skipped. intros ->.
  destruct (classify rd req st) as [t st']. cbn [fst snd].
  destruct (ge (total t) 80%float); reflexivity.
Qed.

Lemma api_skipped req : startsWith (path req) "/api/" = true -> skipped req = true.
Proof.
  unfold skipped. intros ->. destruct (endsWith (path req) ".js"); reflexivity.
Qed.

(** Case-insensitive equality of strings is an equivalence. *)
Lemma ci_eq_true a b : Text.ci_eq a b = true <-> Text.upper a = Text.upper b.
Proof. unfold Text.ci_eq. apply Ascii.eqb_eq. Qed.

Lemma ci_equal_join a : forall b p,
  Text.ci_equal a p = true -> Text.ci_equal b p = true -> Text.ci_equal a b = true.
Proof.
  induction a as [|x a IH]; intros [|y b] [|z p]; simpl; try discriminate; auto.
  intros [Hxz Ha]%andb_prop [Hyz Hb]%andb_prop.
  apply andb_true_intro. split.
  - apply ci_eq_true. apply ci_eq_true in Hxz, Hyz. congruence.
  - eapply IH; eassumption.
Qed.

Lemma ci_equal_slash a : forall b,
  Text.ci_equal (a ++ "/") (b ++ "/") = true -> Text.ci_equal a b = true.
Proof.
  induction a as [|x a IH]; intros [|y b]; simpl; intros Hc; auto.
  - destruct b; simpl in Hc; rewrite andb_false_r in Hc; discriminate.
  - destruct a; simpl in Hc; rewrite andb_false_r in Hc; discriminate.
  - apply andb_prop in Hc. destruct Hc as [Hxy Hab].
    apply andb_true_intro. split; [assumption|apply IH; assumption].
Qed.

(** A path matches at most one of two routes that differ beyond case. *)
Lemma route_exclusive a b p :
  Text.ci_equal a b = false ->
  Text.ci_equal a (b ++ "/") = false ->
  Text.ci_equal (a ++ "/") b = false ->
  route a p = true -> route b p = false.
Proof.
  unfold route. intros N1 N2 N3 Ha.
  apply orb_false_intro; apply not_true_is_false; intros Hb;
    apply orb_prop in Ha; destruct Ha as [Ha|Ha].
  - rewrite (ci_equal_join _ _ _ Ha Hb) in N1. discriminate.
  - pose proof (ci_equal_join _ _ _ Ha Hb) as E. rewrite E in N3. discriminate.
  - rewrite (ci_equal_join _ _ _ Ha Hb) in N2. discriminate.
  - pose proof (ci_equal_slash _ _ (ci_equal_join _ _ _ Ha Hb)) as E.
    rewrite E in N1. discriminate.
Qed.


(** A [POST] to the verification route is answered by its handler, on
    whatever the classifier attached to the request. *)
Lemma routes_verify_human rd req sc st :
  has_method "POST" req = true ->
  route "/api/verify-human" (path req) = true ->
  routes target rd req sc st = verify_human target rd req sc st.
Proof. unfold routes. intros -> ->. reflexivity. Qed.

Lemma routes_verify_pow rd req sc st :
  has_method "POST" req = true ->
  route "/api/verify-pow" (path req) = true ->
  routes target rd req sc st = (verify_pow rd req, st).
Proof.
  unfold routes. intros Hm Hr. rewrite Hm. cbn [andb].
  rewrite (route_exclusive "/api/verify-pow" "/api/verify-human" (path req)
             eq_refl eq_refl eq_refl Hr).
  rewrite (route_exclusive "/api/verify-pow" "/api/challenge" (path req)
             eq_refl eq_refl eq_refl Hr).
  rewrite Hr. reflexivity.
Qed.

Lemma app_api rd req st :
  startsWith (path req) "/api/" = true ->
  app target rd req st = routes target rd req unscored st.
Proof.
  intros Hapi. unfold app.
  rewrite (botDetection_skipped rd req st (api_skipped req Hapi)). reflexivity.
Qed.

Lemma verify_human_rate_table rd req sc st :
  rateLimitStore (snd (verify_human target rd req sc st)) = rateLimitStore st.
Proof.
  unfold verify_human.
  destruct (prop (Some (body req)) "fingerprint") as [fp|]; [|reflexivity].
  destruct (negb (truthy (Some fp)) || negb (truthy (prop (Some (body req)) "behaviors")));
    [reflexivity|].
  destruct (read_payload (prop (Some (body req)) "clientScore")
              (prop (Some (body req)) "checks")); [|reflexivity].
  destruct (observe rd (md5_of_json fp) (getClientIP req) (fingerprintStore st)).
  reflexivity.
Qed.

(** The answer of the verification handler depends on the request through
    its body and the identity of the client, and on the state through the
    ledger. *)
Lemma verify_human_answer_ext rd req req' sc st st' :
  body req = body req' ->
  getClientIP req = getClientIP req' ->
  fingerprintStore st = fingerprintStore st' ->
  fst (verify_human target rd req sc st) = fst (verify_human target rd req' sc st').
Proof.
  intros Hb Hi Hs. unfold verify_human. rewrite Hb, Hi, Hs.
  destruct (prop (Some (body req')) "fingerprint") as [fp|]; [|reflexivity].
  destruct (negb (truthy (Some fp))
            || negb (truthy (prop (Some (body req')) "behaviors")));
    [reflexivity|].
  destruct (read_payload (prop (Some (body req')) "clientScore")
              (prop (Some (body req')) "checks")); [|reflexivity].
  destruct (observe rd (md5_of_json fp) (getClientIP req') (fingerprintStore st')).
  reflexivity.
Qed.

(** C3. A request whose path starts with [/api/] passes the classifier
    untouched: nothing is attached to it and the state is as before. A
    [POST] to [/api/verify-human] is therefore answered with a server-side
    score of 0: its score is half the client score plus the check bonuses
    and the reuse penalty, and the answer is the same under any user agent
    and any rate table, which the request leaves as it was. *)
Theorem api_requests_carry_no_server_score rd req st :
  startsWith (path req) "/api/" = true ->
  botDetection rd req st = (Next unscored, st)
  /\ (has_method "POST" req = true ->
      route "/api/verify-human" (path req) = true ->
      app target rd req st = verify_human target rd req unscored st
      /\ (forall v,
            fst (app target rd req st)
            = {| status := 200; content := BVerification v |} ->
            exists fingerprint reported,
              prop (Some (body req)) "fingerprint" = Some fingerprint
              /\ payload_of req = Normal reported
              /\ score v
                 = expected_score 0%float (client reported)
                     (cdp reported) (webdriver reported)
                     (artifacts reported) (headless reported)
                     (on_record_elsewhere st (md5_of_json fingerprint)
                        (getClientIP req)))
      /\ rateLimitStore (snd (app target rd req st)) = rateLimitStore st
      /\ (forall ua table,
            fst (app target rd (with_user_agent ua req) (with_rate_table table st))
            = fst (app target rd req st))).
Proof.
  intros Hapi. split; [apply botDetection_skipped, api_skipped, Hapi|].
  intros Hpost Hroute.
  assert (Happ : app target rd req st = verify_human target rd req unscored st).
  { rewrite (app_api rd req st Hapi). apply routes_verify_human; assumption. }
  split; [exact Happ|]. rewrite Happ. repeat split.
  - intros v Hans.
    destruct (verify_human_answer target rd req unscored st v Hans)
      as (fp & r & Hfp & _ & _ & Hread & Hscore & _).
    exists fp, r. split; [exact Hfp|]. split; [exact Hread|exact Hscore].
  - apply verify_human_rate_table.
  - intros ua table.
    rewrite (app_api rd (with_user_agent ua req) (with_rate_table table st) Hapi).
    rewrite (routes_verify_human rd (with_user_agent ua req) unscored
               (with_rate_table table st) Hpost Hroute).
    apply verify_human_answer_ext; reflexivity.
Qed.

(** C10. A [POST] to [/api/verify-human] without a fingerprint or without
    behaviors, and a [POST] to [/api/verify-pow] without a challenge, a nonce
    or a timestamp, are answered with status 400 and leave the rate table
    and the ledger as they were. (A challenge or timestamp that is present
    but falsy counts as absent.) *)
Theorem malformed_requests_change_nothing rd req st :
  startsWith (path req) "/api/" = true ->
  has_method "POST" req = true ->
  (route "/api/verify-human" (path req) = true ->
   truthy (prop (Some (body req)) "fingerprint") = false
   \/ truthy (prop (Some (body req)) "behaviors") = false ->
   app target rd req st
   = ({| status := 400; content := BError "Missing required data" |}, st))
  /\ (route "/api/verify-pow" (path req) = true ->
      truthy (prop (Some (body req)) "challenge") = false
      \/ prop (Some (body req)) "nonce" = None
      \/ truthy (prop (Some (body req)) "timestamp") = false ->
      app target rd req st
      = ({| status := 400; content := BError "Missing required data" |}, st)).
Proof.
  intros Hapi Hpost. split; intros Hroute Hmiss; rewrite (app_api rd req st Hapi).
  - rewrite (routes_verify_human rd req unscored st Hpost Hroute).
    unfold verify_human.
    destruct (prop (Some (body req)) "fingerprint") as [fp|]; [|reflexivity].
    destruct Hmiss as [-> | ->]; [reflexivity|].
    rewrite orb_true_r. reflexivity.
  - rewrite (routes_verify_pow rd req unscored st Hpost Hroute).
    unfold verify_pow.
    destruct (prop (Some (body req)) "challenge") as [c|]; [|reflexivity].
    destruct (prop (Some (body req)) "nonce") as [n|]; [|reflexivity].
    destruct Hmiss as [-> | [Hn | ->]]; [reflexivity|discriminate|].
    rewrite orb_true_r. reflexivity.
Qed.




End Chain.

(* ===================================================================== *)
(** ** The redirect target *)
(* ===================================================================== *)

Section Redirect.

Import Js Server.

Lemma every_app f a b : every f (a ++ b) = every f a && every f b.
Proof.
  induction a as [|c a IH]; simpl; [reflexivity|].
  rewrite IH. apply andb_assoc.
Qed.

Lemma length_app (a b : string) :
  String.length (a ++ b) = (String.length a + String.length b)%nat.
Proof. induction a as [|c a IH]; simpl; [reflexivity|]. rewrite IH. reflexivity. Qed.

Lemma digit_is_digit n : 0 <= n < 16 -> Hex.is_digit (Hex.digit n) = true.
Proof.
  intros [Hlow Hhigh].
  destruct n as [|p|p]; [reflexivity| |lia].
  do 4 (try (destruct p as [p|p|]; try reflexivity)); lia.
Qed.

Lemma of_bytes_length bs :
  String.length (Hex.of_bytes bs) = (2 * List.length bs)%nat.
Proof.
  induction bs as [|b bs IH]; [reflexivity|].
  cbn [Hex.of_bytes]. rewrite length_app, IH. simpl. lia.
Qed.

Lemma of_bytes_digits bs : every Hex.is_digit (Hex.of_bytes bs) = true.
Proof.
  induction bs as [|b bs IH]; [reflexivity|].
  cbn [Hex.of_bytes]. rewrite every_app, IH. unfold Hex.of_byte. cbn [every].
  rewrite !digit_is_digit; [reflexivity| |];
    apply Z.mod_pos_bound; lia.
Qed.

Lemma randomBytes_length source n : List.length (randomBytes source n) = n.
Proof. unfold randomBytes. rewrite List.length_map, List.length_seq. reflexivity. Qed.


Context `{Platform}.
Variable target : string.

Lemma prop_some_truthy v k w : prop v k = Some w -> truthy v = true.
Proof. destruct v as [[| | | | |fs]|]; try discriminate. reflexivity. Qed.

Lemma build_redirect_blocked rd urlParams :
  build_redirect target rd true urlParams = None.
Proof. reflexivity. Qed.




Lemma append_assoc (a b c : string) : ((a ++ b) ++ c = a ++ (b ++ c))%string.
Proof.
  induction a as [|x a IH]; [reflexivity|].
  change (String x ((a ++ b) ++ c) = String x (a ++ (b ++ c)))%string.
  f_equal. exact IH.
Qed.

Lemma nonempty_of_length (s : string) n :
  String.length s = S n -> is_empty s = false.
Proof. destruct s; [discriminate|reflexivity]. Qed.


End Redirect.

(* ===================================================================== *)
(** ** The random label *)
(* ===================================================================== *)

Section RandomLabels.

Import Js Server.

Lemma hex_digit_code n :
  0 <= n < 16 ->
  Z.of_nat (nat_of_ascii (Hex.digit n)) = if n <? 10 then 48 + n else 87 + n.
Proof.
  intros Hn. unfold Hex.digit. rewrite nat_ascii_embedding.
  - rewrite Z2Nat.id; [reflexivity|]. destruct (n <? 10); lia.
  - destruct (Z.ltb_spec n 10); lia.
Qed.

Lemma hex_digit_injective n m :
  0 <= n < 16 -> 0 <= m < 16 -> Hex.digit n = Hex.digit m -> n = m.
Proof.
  intros Hn Hm E. pose proof (hex_digit_code n Hn) as Cn.
  pose proof (hex_digit_code m Hm) as Cm. rewrite E in Cn. rewrite Cn in Cm.
  destruct (Z.ltb_spec n 10), (Z.ltb_spec m 10); lia.
Qed.

Lemma of_bytes_cons b bs :
  Hex.of_bytes (b :: bs)
  = String (Hex.digit (b / 16 mod 16)) (String (Hex.digit (b mod 16)) (Hex.of_bytes bs)).
Proof. reflexivity. Qed.

Lemma of_bytes_injective bs : forall bs',
  Forall (fun b => 0 <= b < 256) bs -> Forall (fun b => 0 <= b < 256) bs' ->
  Hex.of_bytes bs = Hex.of_bytes bs' -> bs = bs'.
Proof.
  induction bs as [|b bs IH]; intros [|b' bs'] Hr Hr' E;
    try reflexivity; try (rewrite of_bytes_cons in E; discriminate).
  rewrite !of_bytes_cons in E. injection E as Eh El Er.
  apply List.Forall_cons_iff in Hr, Hr'. destruct Hr as [Hb Hr], Hr' as [Hb' Hr'].
  apply hex_digit_injective in Eh; [|apply Z.mod_pos_bound; lia..].
  apply hex_digit_injective in El; [|apply Z.mod_pos_bound; lia..].
  f_equal; [|apply IH; assumption].
  rewrite (Z.div_mod b 16), (Z.div_mod b' 16) by lia.
  rewrite !Z.mod_small in Eh; [lia| |];
    (split; [apply Z.div_pos; lia|apply Z.div_lt_upper_bound; lia]).
Qed.

Lemma byte_range b : 0 <= Z.of_N (Byte.to_N b) < 256.
Proof. destruct b; cbn; lia. Qed.

Lemma byte_injective b b' :
  Z.of_N (Byte.to_N b) = Z.of_N (Byte.to_N b') -> b = b'.
Proof.
  intros E%N2Z.inj. pose proof (Byte.of_to_N b) as Hb.
  rewrite E, Byte.of_to_N in Hb. congruence.
Qed.

Lemma randomBytes_range source n : Forall (fun b => 0 <= b < 256) (randomBytes source n).
Proof.
  unfold randomBytes. apply List.Forall_forall. intros b Hin.
  apply List.in_map_iff in Hin. destruct Hin as (i & <- & _). apply byte_range.
Qed.

Lemma randomBytes_equal source source' n :
  randomBytes source n = randomBytes source' n
  <-> forall i, (i < n)%nat -> source i = source' i.
Proof.
  unfold randomBytes. split.
  - intros E i Hi.
    apply byte_injective.
    apply (f_equal (fun l => nth i l 0)) in E.
    rewrite !(List.nth_indep _ 0 (Z.of_N (Byte.to_N (source 0%nat)))) in E
      by (rewrite List.length_map, List.length_seq; exact Hi).
    rewrite (List.map_nth (fun i => Z.of_N (Byte.to_N (source i)))) in E.
    rewrite (List.nth_indep _ (Z.of_N (Byte.to_N (source 0%nat)))
               (Z.of_N (Byte.to_N (source' 0%nat)))) in E
      by (rewrite List.length_map, List.length_seq; exact Hi).
    rewrite (List.map_nth (fun i => Z.of_N (Byte.to_N (source' i)))) in E.
    rewrite List.seq_nth in E by exact Hi. exact E.
  - intros Hsame. apply List.map_ext_in. intros i Hi%in_seq.
    rewrite (Hsame i) by lia. reflexivity.
Qed.


End RandomLabels.

(* ===================================================================== *)
(** ** The URL class on a target with a domain name *)
(* ===================================================================== *)

Section UrlClass.

Import Js Whatwg.
Import ListNotations.
#[local] Open Scope string_scope.
#[local] Open Scope nat_scope.

Variable ToASCII : string -> option string.





























(** *** Paths *)













End UrlClass.



(* ===================================================================== *)
(** ** Proof of work *)
(* ===================================================================== *)

Section ProofOfWork.

Import Js Server.

Lemma leading_zeros_step c rest :
  Hex.leading_zeros (String c rest)
  = if Ascii.eqb c "0" then S (Hex.leading_zeros rest) else O.
Proof. destruct c as [[] [] [] [] [] [] [] []]; reflexivity. Qed.

Lemma prefix_step a p c rest :
  String.prefix (String a p) (String c rest) = Ascii.eqb a c && String.prefix p rest.
Proof.
  cbn [String.prefix]. destruct (ascii_dec a c) as [->|Hne].
  - rewrite Ascii.eqb_refl. reflexivity.
  - apply Ascii.eqb_neq in Hne. rewrite Hne. reflexivity.
Qed.

(** [hash.startsWith('0000')] says that the digest has at least four
    leading zero digits. *)
Lemma startsWith_zeros h :
  startsWith h "0000" = (4 <=? Hex.leading_zeros h)%nat.
Proof.
  unfold startsWith.
  destruct h as [|c1 h]; [reflexivity|].
  rewrite prefix_step, leading_zeros_step, (Ascii.eqb_sym "0"%char c1).
  destruct (Ascii.eqb c1 "0"); [|reflexivity]. cbn [andb].
  destruct h as [|c2 h]; [reflexivity|].
  rewrite prefix_step, leading_zeros_step, (Ascii.eqb_sym "0"%char c2).
  destruct (Ascii.eqb c2 "0"); [|reflexivity]. cbn [andb].
  destruct h as [|c3 h]; [reflexivity|].
  rewrite prefix_step, leading_zeros_step, (Ascii.eqb_sym "0"%char c3).
  destruct (Ascii.eqb c3 "0"); [|reflexivity]. cbn [andb].
  destruct h as [|c4 h]; [reflexivity|].
  rewrite prefix_step, leading_zeros_step, (Ascii.eqb_sym "0"%char c4).
  destruct (Ascii.eqb c4 "0"); [|reflexivity].
  destruct h; reflexivity.
Qed.

(** [x > c] fails exactly when [x <= c] or [x] is [NaN]. *)
Lemma gt_false_iff (x c : number) :
  PrimFloat.is_nan c = false ->
  gt x c = false <-> le x c = true \/ PrimFloat.is_nan x = true.
Proof.
  intros Hc. unfold gt, le.
  destruct (PrimFloat.is_nan x) eqn:Hx.
  - destruct (nan_compares_false x c Hx) as (_ & _ & _ & H4). rewrite H4. tauto.
  - rewrite (ltb_negb_leb c x Hc Hx).
    destruct (PrimFloat.leb x c); simpl; split; intros; try tauto.
    + discriminate.
    + destruct H as [H|H]; discriminate.
Qed.

Context `{Platform}.

(** [now - timestamp] at verification time, for a timestamp that converts
    to the number [issued]. *)
Definition age (rd : Readings) (issued : number) : number :=
  PrimFloat.sub (of_Z (now_pow rd)) issued.

(** C5, as amended. For a submission with a truthy challenge, a nonce and
    a truthy timestamp: when [now - timestamp > 30000] the answer is
    [{valid: false, reason: "Challenge expired"}] whatever the digest;
    otherwise, when [challenge + nonce] is a string, [valid] says whether
    its SHA-256 digest has at least four leading zero hexadecimal digits
    (and two values that add up to a number make [hash.update] throw). So
    [valid] is true iff the digest has four leading zeros and
    [now - timestamp > 30000] does not hold, which means that
    [now - timestamp <= 30000] or that [now - timestamp] is NaN: a timestamp
    that is not numeric passes the freshness check, as a future one does.
    A string challenge always concatenates. *)
Theorem pow_verification rd req c nonce issued :
  prop (Some (body req)) "challenge" = Some c -> truthy (Some c) = true ->
  prop (Some (body req)) "nonce" = Some nonce ->
  truthy (prop (Some (body req)) "timestamp") = true ->
  ToNumber StringToNumber NumberToString (prop (Some (body req)) "timestamp")
  = Normal issued ->
  (gt (age rd issued) 30000%float = true ->
   verify_pow rd req
   = {| status := 200; content := BPow false (Some "Challenge expired") |})
  /\ (gt (age rd issued) 30000%float = false ->
      match plus StringToNumber NumberToString c nonce with
      | Normal (SumStr text) =>
          verify_pow rd req
          = {| status := 200;
               content := BPow (4 <=? Hex.leading_zeros (Sha256.hex text))%nat None |}
      | _ => verify_pow rd req = {| status := 500; content := BException |}
      end)
  /\ (forall text,
        plus StringToNumber NumberToString c nonce = Normal (SumStr text) ->
        (verify_pow rd req = {| status := 200; content := BPow true None |}
         <-> (4 <= Hex.leading_zeros (Sha256.hex text))%nat
             /\ (le (age rd issued) 30000%float = true
                 \/ PrimFloat.is_nan (age rd issued) = true)))
  /\ (forall s text,
        c = JStr s -> ToString NumberToString nonce = Normal text ->
        plus StringToNumber NumberToString c nonce = Normal (SumStr (s ++ text))).
Proof.
  intros Hc Tc Hn Tt Hissued.
  assert (Hexp : gt (age rd issued) 30000%float = true ->
                 verify_pow rd req
                 = {| status := 200; content := BPow false (Some "Challenge expired") |}).
  { intros Hgt. unfold verify_pow. rewrite Hc, Hn, Tc, Tt, Hissued. cbn [negb orb].
    unfold age in Hgt. rewrite Hgt. reflexivity. }
  assert (Hfresh : gt (age rd issued) 30000%float = false ->
      match plus StringToNumber NumberToString c nonce with
      | Normal (SumStr text) =>
          verify_pow rd req
          = {| status := 200;
               content := BPow (4 <=? Hex.leading_zeros (Sha256.hex text))%nat None |}
      | _ => verify_pow rd req = {| status := 500; content := BException |}
      end).
  { intros Hgt. unfold verify_pow. rewrite Hc, Hn, Tc, Tt, Hissued. cbn [negb orb].
    unfold age in Hgt. rewrite Hgt.
    destruct (plus StringToNumber NumberToString c nonce) as [[text|x]|];
      [rewrite startsWith_zeros| |]; reflexivity. }
  split; [exact Hexp|]. split; [exact Hfresh|]. split.
  - intros text Hplus.
    rewrite <- (gt_false_iff (age rd issued) 30000%float eq_refl).
    destruct (gt (age rd issued) 30000%float) eqn:Hgt.
    + rewrite (Hexp eq_refl). split; [discriminate|]. intros [_ Hf]. discriminate.
    + specialize (Hfresh eq_refl). rewrite Hplus in Hfresh. rewrite Hfresh.
      split.
      * intros [= Hz]. split; [apply Nat.leb_le; exact Hz|reflexivity].
      * intros [Hz%Nat.leb_le _]. rewrite Hz. reflexivity.
  - intros s text -> Htext. unfold plus. cbn [stringish orb ToString and_then].
    rewrite Htext. reflexivity.
Qed.

End ProofOfWork.

(* ===================================================================== *)
(** ** The rate limiter *)
(* ===================================================================== *)

Section RateLimiter.

Import Js Server.

(** The filter of lines 131 and 144. *)
Definition in_window (now : Z) (times : list Z) : list Z :=
  List.filter (fun time => now - time <? rateLimitWindow) times.

(** The timestamps on record for an identity. *)
Definition recorded (store : gmap identity (list Z)) (who : identity) : list Z :=
  match store !! who with
  | Some times => times
  | None => []
  end.

(** How many of them are not older than [since]. *)
Definition recent (since : Z) (store : gmap identity (list Z)) (who : identity) : nat :=
  List.length (List.filter (fun time => since <=? time) (recorded store who)).

(** The tally before the rate limiter is consulted (lines 109-120). *)
Definition header_tally (req : Request) : Tally :=
  let userAgent := match user_agent req with
                   | Some ua => ua
                   | None => EmptyString
                   end in
  bump_if (is_empty userAgent || (String.length userAgent <? 5)%nat)
          50%float "missing-ua"
    (bump_if (existsb (fun pattern => Text.test pattern userAgent) botPatterns)
             60%float "bot-ua" {| total := 0%float; names := [] |}).

Lemma filter_length_le {A} (f : A -> bool) l :
  (List.length (List.filter f l) <= List.length l)%nat.
Proof.
  induction l as [|x l IH]; simpl; [lia|]. destruct (f x); simpl; lia.
Qed.

Lemma filter_filter_length {A} (f g : A -> bool) l :
  (forall x, f x = true -> g x = true) ->
  List.length (List.filter f (List.filter g l)) = List.length (List.filter f l).
Proof.
  intros Hfg. induction l as [|x l IH]; simpl; [reflexivity|].
  destruct (g x) eqn:Hg; simpl.
  - destruct (f x); simpl; rewrite IH; reflexivity.
  - destruct (f x) eqn:Hf; [rewrite (Hfg x Hf) in Hg; discriminate|exact IH].
Qed.

Lemma filter_all {A} (f : A -> bool) l :
  (forall x, In x l -> f x = true) -> List.filter f l = l.
Proof.
  induction l as [|x l IH]; simpl; intros Hall; [reflexivity|].
  rewrite (Hall x (or_introl eq_refl)). f_equal. apply IH. auto.
Qed.

Lemma filter_none {A} (f : A -> bool) l :
  (forall x, In x l -> f x = false) -> List.filter f l = [].
Proof.
  induction l as [|x l IH]; simpl; intros Hall; [reflexivity|].
  rewrite (Hall x (or_introl eq_refl)). apply IH. auto.
Qed.

Lemma in_window_idem now times :
  in_window now (in_window now times ++ [now]) = in_window now times ++ [now].
Proof.
  apply filter_all. intros t [Ht|Ht]%in_app_or.
  - apply List.filter_In in Ht. tauto.
  - destruct Ht as [<-|[]]. apply Z.ltb_lt. unfold rateLimitWindow. lia.
Qed.

(** What one access leaves on record for the identity, and when it
    signals. *)
Lemma rate_limit_self now who store :
  fst (rate_limit now who store) !! who = Some (in_window now (recorded store who) ++ [now])
  /\ snd (rate_limit now who store)
     = (maxRequests <? List.length (in_window now (recorded store who) ++ [now]))%nat.
Proof.
  unfold rate_limit, recorded. destruct (store !! who) as [times|]; cbn [fst snd].
  - split; [apply lookup_insert_eq|reflexivity].
  - split; [apply lookup_insert_eq|reflexivity].
Qed.

Lemma rate_limit_other now who other store :
  who <> other -> fst (rate_limit now who store) !! other = store !! other.
Proof.
  intros Hne. unfold rate_limit.
  destruct (store !! who); cbn [fst]; apply lookup_insert_ne; assumption.
Qed.

Lemma rate_sweep_lookup now store who :
  rate_sweep now store !! who
  = match store !! who with
    | Some times => match in_window now times with
                    | [] => None
                    | valid => Some valid
                    end
    | None => None
    end.
Proof.
  unfold rate_sweep. rewrite lookup_omap. destruct (store !! who); reflexivity.
Qed.

Lemma recorded_sweep now store who :
  recorded (rate_sweep now store) who = in_window now (recorded store who).
Proof.
  unfold recorded. rewrite rate_sweep_lookup.
  destruct (store !! who) as [times|]; [|reflexivity].
  unfold in_window. destruct (List.filter _ times); reflexivity.
Qed.

(** The table after the classifier ran (lines 128-151). *)
Definition table_after (rd : Readings) (req : Request) (st : State)
    : gmap identity (list Z) :=
  rateLimitStore (snd (classify rd req st)).

Lemma classify_unfold rd req st :
  classify rd req st
  = (bump_if (snd (rate_limit (now_rate rd) (getClientIP req) (rateLimitStore st)))
             40%float "rate-limit-exceeded" (header_tally req),
     {| rateLimitStore :=
          if lt (coin_rate rd) 0.01%float
          then rate_sweep (now_rate rd)
                 (fst (rate_limit (now_rate rd) (getClientIP req) (rateLimitStore st)))
          else fst (rate_limit (now_rate rd) (getClientIP req) (rateLimitStore st));
        fingerprintStore := fingerprintStore st |}).
Proof.
  unfold classify, header_tally.
  destruct (rate_limit (now_rate rd) (getClientIP req) (rateLimitStore st)).
  reflexivity.
Qed.

(** After an access the identity has on record what was still in the
    window, followed by the time of the access. *)
Lemma recorded_after_access rd req st :
  recorded (table_after rd req st) (getClientIP req)
  = in_window (now_rate rd) (recorded (rateLimitStore st) (getClientIP req))
    ++ [now_rate rd].
Proof.
  unfold table_after. rewrite classify_unfold. cbn [snd rateLimitStore].
  destruct (rate_limit_self (now_rate rd) (getClientIP req) (rateLimitStore st))
    as [Hself _].
  destruct (lt (coin_rate rd) 0.01%float).
  - rewrite recorded_sweep. unfold recorded at 1. rewrite Hself.
    apply in_window_idem.
  - unfold recorded at 1. rewrite Hself. reflexivity.
Qed.

(** An access leaves the record of another identity alone, or trims it to
    the window when the sweep is drawn. *)
Lemma recorded_after_other rd req st other :
  getClientIP req <> other ->
  recorded (table_after rd req st) other
  = if lt (coin_rate rd) 0.01%float
    then in_window (now_rate rd) (recorded (rateLimitStore st) other)
    else recorded (rateLimitStore st) other.
Proof.
  intros Hne. unfold table_after. rewrite classify_unfold. cbn [snd rateLimitStore].
  destruct (lt (coin_rate rd) 0.01%float).
  - rewrite recorded_sweep. unfold recorded.
    rewrite (rate_limit_other _ _ _ _ Hne). reflexivity.
  - unfold recorded. rewrite (rate_limit_other _ _ _ _ Hne). reflexivity.
Qed.

Lemma recent_in_window since now times :
  since <= now < since + rateLimitWindow ->
  List.length (List.filter (fun time => since <=? time) (in_window now times))
  = List.length (List.filter (fun time => since <=? time) times).
Proof.
  intros Hnow. apply filter_filter_length.
  intros t Ht%Z.leb_le. apply Z.ltb_lt. lia.
Qed.

(** Within a window that starts at [since], an access adds one recent
    timestamp to the record of its identity and takes none away from the
    others. *)
Lemma recent_after_access since rd req st :
  since <= now_rate rd < since + rateLimitWindow ->
  recent since (table_after rd req st) (getClientIP req)
  = S (recent since (rateLimitStore st) (getClientIP req)).
Proof.
  intros Hnow. unfold recent. rewrite recorded_after_access.
  rewrite List.filter_app, List.length_app, (recent_in_window _ _ _ Hnow).
  cbn [List.filter]. destruct (Z.leb_spec since (now_rate rd)); [simpl; lia|lia].
Qed.

Lemma recent_after_other since rd req st other :
  since <= now_rate rd < since + rateLimitWindow ->
  getClientIP req <> other ->
  recent since (table_after rd req st) other = recent since (rateLimitStore st) other.
Proof.
  intros Hnow Hne. unfold recent. rewrite (recorded_after_other _ _ _ _ Hne).
  destruct (lt (coin_rate rd) 0.01%float); [|reflexivity].
  apply recent_in_window, Hnow.
Qed.

Lemma header_names req :
  ~ In "rate-limit-exceeded"%string (names (header_tally req)).
Proof.
  unfold header_tally.
  destruct (existsb _ botPatterns), (is_empty _ || _); cbn; intros Hin;
    repeat (destruct Hin as [Hin|Hin]; [discriminate|]); exact Hin.
Qed.

(** The classifier raises the signal, and adds 40, exactly when the
    identity has more than ten timestamps on record after the access. *)
Lemma classify_signal rd req st :
  let times := recorded (table_after rd req st) (getClientIP req) in
  (In "rate-limit-exceeded"%string (names (fst (classify rd req st)))
   <-> (10 < List.length times)%nat)
  /\ total (fst (classify rd req st))
     = if (10 <? List.length times)%nat
       then PrimFloat.add (total (header_tally req)) 40%float
       else total (header_tally req).
Proof.
  cbn zeta. rewrite recorded_after_access, classify_unfold. cbn [fst].
  destruct (rate_limit_self (now_rate rd) (getClientIP req) (rateLimitStore st))
    as [_ ->].
  change maxRequests with 10%nat.
  destruct (Nat.ltb_spec 10
              (List.length (in_window (now_rate rd)
                              (recorded (rateLimitStore st) (getClientIP req))
                            ++ [now_rate rd]))) as [Hlt|Hge]; cbn [bump_if bump names total].
  - split; [|reflexivity]. split; [intros _; exact Hlt|].
    intros _. apply in_or_app. right. left. reflexivity.
  - split; [|reflexivity]. split; [|lia].
    intros Hin. exfalso. exact (header_names req Hin).
Qed.

Context `{Platform}.
Variable target : string.

Lemma routes_rate_table rd req sc st :
  rateLimitStore (snd (routes target rd req sc st)) = rateLimitStore st.
Proof.
  unfold routes.
  repeat match goal with
         | |- context [if ?c then _ else _] => destruct c
         end; try reflexivity.
  apply verify_human_rate_table.
Qed.

(** Only the classifier writes the rate table. *)
Lemma app_rate_table rd req st :
  rateLimitStore (snd (app target rd req st))
  = if skipped req then rateLimitStore st else table_after rd req st.
Proof.
  unfold app. destruct (skipped req) eqn:Hskip.
  - rewrite (botDetection_skipped rd req st Hskip). apply routes_rate_table.
  - rewrite (botDetection_classified rd req st Hskip). cbn zeta.
    destruct (ge (total (fst (classify rd req st))) 80%float);
      [reflexivity|apply routes_rate_table].
Qed.

(** The requests of a trace that reach the rate limiter under an
    identity. *)
Fixpoint accesses (who : identity) (trace : list (Readings * Request)) : nat :=
  match trace with
  | [] => O
  | (_, req) :: rest =>
      if negb (skipped req) && bool_decide (getClientIP req = who)
      then S (accesses who rest)
      else accesses who rest
  end.

(** Every request of the trace that reaches the rate limiter does so at a
    time in [[since, since + 60000)]. *)
Definition within (since : Z) (trace : list (Readings * Request)) : Prop :=
  forall rd req, In (rd, req) trace -> skipped req = false ->
                 since <= now_rate rd < since + rateLimitWindow.

Lemma recent_after_trace since who trace : forall st,
  within since trace ->
  (recent since (rateLimitStore st) who + accesses who trace
   <= recent since (rateLimitStore (serve target trace st)) who)%nat.
Proof.
  induction trace as [|[rd req] rest IH]; intros st Hwin; cbn [serve accesses];
    [lia|].
  assert (Hrest : within since rest)
    by (intros rd' req' Hin; apply Hwin; right; exact Hin).
  specialize (IH (snd (app target rd req st)) Hrest).
  rewrite app_rate_table in IH.
  destruct (skipped req) eqn:Hskip; cbn [negb andb]; [exact IH|].
  pose proof (Hwin rd req (or_introl eq_refl) Hskip) as Hnow.
  destruct (bool_decide (getClientIP req = who)) eqn:Hwho.
  - apply bool_decide_eq_true in Hwho. subst who.
    rewrite (recent_after_access _ _ _ _ Hnow) in IH. lia.
  - apply bool_decide_eq_false in Hwho.
    rewrite (recent_after_other _ _ _ _ _ Hnow Hwho) in IH. exact IH.
Qed.

(** C6. Each access leaves on record, for its identity, the timestamps
    that were less than 60000 ms old followed by the current time; the
    signal "rate-limit-exceeded" is raised, and 40 added, exactly when that
    sequence has more than 10 elements. After ten accesses of an identity
    inside one window, whatever else was served in between, the next access
    of that identity in the window has more than 10 timestamps on record and
    raises the signal. When everything on record for the identity is at
    least 60000 ms old, the access leaves exactly one timestamp and raises
    nothing. *)
Theorem rate_limiter_window :
  (forall rd req st,
     let times := recorded (table_after rd req st) (getClientIP req) in
     times = in_window (now_rate rd) (recorded (rateLimitStore st) (getClientIP req))
             ++ [now_rate rd]
     /\ (In "rate-limit-exceeded"%string (names (fst (classify rd req st)))
         <-> (10 < List.length times)%nat)
     /\ total (fst (classify rd req st))
        = if (10 <? List.length times)%nat
          then PrimFloat.add (total (header_tally req)) 40%float
          else total (header_tally req))
  /\ (forall since trace st rd req,
        within since trace ->
        since <= now_rate rd < since + 60000 ->
        (10 <= accesses (getClientIP req) trace)%nat ->
        let st' := serve target trace st in
        (10 < List.length (recorded (table_after rd req st') (getClientIP req)))%nat
        /\ In "rate-limit-exceeded"%string (names (fst (classify rd req st')))
        /\ total (fst (classify rd req st'))
           = PrimFloat.add (total (header_tally req)) 40%float)
  /\ (forall rd req st,
        (forall time, In time (recorded (rateLimitStore st) (getClientIP req)) ->
                      60000 <= now_rate rd - time) ->
        recorded (table_after rd req st) (getClientIP req) = [now_rate rd]
        /\ ~ In "rate-limit-exceeded"%string (names (fst (classify rd req st)))
        /\ total (fst (classify rd req st)) = total (header_tally req)).
Proof.
  split; [|split].
  - intros rd req st times. split; [apply recorded_after_access|].
    apply classify_signal.
  - intros since trace st rd req Hwin Hnow Hten st'.
    assert (Hlen : (10 < List.length (recorded (table_after rd req st')
                                        (getClientIP req)))%nat).
    { pose proof (recent_after_trace since (getClientIP req) trace st Hwin) as Hrec.
      fold st' in Hrec.
      pose proof (recent_after_access since rd req st' Hnow) as Hacc.
      unfold recent in Hacc at 1.
      pose proof (filter_length_le (fun time => since <=? time)
                    (recorded (table_after rd req st') (getClientIP req))).
      lia. }
    destruct (classify_signal rd req st') as [Hsig Htot].
    split; [exact Hlen|]. split; [apply Hsig, Hlen|].
    rewrite Htot. apply Nat.ltb_lt in Hlen. rewrite Hlen. reflexivity.
  - intros rd req st Hold.
    assert (Hone : recorded (table_after rd req st) (getClientIP req) = [now_rate rd]).
    { rewrite recorded_after_access. unfold in_window.
      rewrite filter_none; [reflexivity|].
      intros t Ht. apply Z.ltb_ge. specialize (Hold t Ht).
      unfold rateLimitWindow. lia. }
    destruct (classify_signal rd req st) as [Hsig Htot].
    rewrite Hone in Hsig, Htot. cbn in Hsig, Htot.
    split; [exact Hone|]. split; [|exact Htot].
    intros Hin. apply Hsig in Hin. lia.
Qed.

End RateLimiter.

(* ===================================================================== *)
(** ** The fingerprint ledger *)
(* ===================================================================== *)

Section Ledger.

Import Js Server.

Context `{Platform}.
Variable target : string.

(** The clock does not run backwards: the readings of a request are not
    before [before], the latest time earlier requests have seen, they follow
    each other in program order, and none is after [after]. *)
Definition chronological (before : Z) (rd : Readings) (after : Z) : Prop :=
  before <= now_rate rd
  /\ now_rate rd <= now_update rd /\ now_rate rd <= now_first rd
  /\ now_first rd <= now_last rd
  /\ now_update rd <= now_sweep rd /\ now_last rd <= now_sweep rd
  /\ now_sweep rd <= after.

(** The states the server can be in by the time [T]. *)
Inductive reachable : Z -> State -> Prop :=
| reachable_initial T : reachable T initial
| reachable_step T T' rd req st :
    reachable T st -> chronological T rd T' ->
    reachable T' (snd (app target rd req st)).

(** The states the server can be in, whatever its clock reads. *)
Inductive served : State -> Prop :=
| served_initial : served initial
| served_step rd req st : served st -> served (snd (app target rd req st)).

Definition record_ok (T : Z) (r : FingerprintRecord) : Prop :=
  1 <= count r /\ firstSeen r <= lastSeen r /\ lastSeen r <= T.

Definition ledger_ok (T : Z) (store : gmap string FingerprintRecord) : Prop :=
  forall h r, store !! h = Some r -> record_ok T r.

(** The record an observation writes for a hash that is on record, and for
    one that is not. *)
Definition seen_again (rd : Readings) (r : FingerprintRecord) : FingerprintRecord :=
  {| ip := ip r; count := count r + 1; firstSeen := firstSeen r;
     lastSeen := now_update rd |}.

Definition seen_first (rd : Readings) (who : identity) : FingerprintRecord :=
  {| ip := who; count := 1; firstSeen := now_first rd; lastSeen := now_last rd |}.

Definition observed (rd : Readings) (who : identity) (old : option FingerprintRecord)
    : FingerprintRecord :=
  match old with
  | Some r => seen_again rd r
  | None => seen_first rd who
  end.

Lemma observe_store rd h who store :
  fst (observe rd h who store) = <[h := observed rd who (store !! h)]> store.
Proof. unfold observe, observed. destruct (store !! h); reflexivity. Qed.

(** The ledger after the sweep of lines 233-241, if it is drawn. *)
Definition swept (rd : Readings) (store : gmap string FingerprintRecord)
    : gmap string FingerprintRecord :=
  if lt (coin_ledger rd) 0.01%float then ledger_sweep (now_sweep rd) store else store.

Lemma swept_lookup rd store h r :
  swept rd store !! h = Some r -> store !! h = Some r.
Proof.
  unfold swept, ledger_sweep. destruct (lt (coin_ledger rd) 0.01%float); [|auto].
  intros Hf. apply map_lookup_filter_Some in Hf. tauto.
Qed.

Lemma swept_keeps rd store h r :
  store !! h = Some r ->
  lt (coin_ledger rd) 0.01%float = false \/ now_sweep rd - lastSeen r <= maxAge ->
  swept rd store !! h = Some r.
Proof.
  intros Hh Hkeep. unfold swept, ledger_sweep.
  destruct (lt (coin_ledger rd) 0.01%float); [|exact Hh].
  destruct Hkeep as [Hc|Hage]; [discriminate|].
  apply map_lookup_filter_Some. split; [exact Hh|]. cbn. lia.
Qed.

(** What the verification handler does to the state when the payload is
    complete and converts. *)
Lemma verify_human_state rd req sc st fp r :
  prop (Some (body req)) "fingerprint" = Some fp ->
  truthy (Some fp) = true ->
  truthy (prop (Some (body req)) "behaviors") = true ->
  payload_of req = Normal r ->
  snd (verify_human target rd req sc st)
  = {| rateLimitStore := rateLimitStore st;
       fingerprintStore :=
         swept rd (<[md5_of_json fp :=
                       observed rd (getClientIP req)
                         (fingerprintStore st !! md5_of_json fp)]>
                     (fingerprintStore st)) |}.
Proof.
  intros Hfp Tf Tb Hread. unfold payload_of in Hread.
  unfold verify_human. rewrite Hfp, Tf, Tb, Hread. cbn [negb orb].
  rewrite <- observe_store.
  destruct (observe rd (md5_of_json fp) (getClientIP req) (fingerprintStore st)).
  reflexivity.
Qed.

(** The ledger after any request: as before, or with one observation and
    possibly a sweep. *)
Lemma verify_human_ledger rd req sc st :
  fingerprintStore (snd (verify_human target rd req sc st)) = fingerprintStore st
  \/ exists h who,
       fingerprintStore (snd (verify_human target rd req sc st))
       = swept rd (<[h := observed rd who (fingerprintStore st !! h)]>
                     (fingerprintStore st)).
Proof.
  destruct (prop (Some (body req)) "fingerprint") as [fp|] eqn:Hfp.
  - destruct (truthy (Some fp)) eqn:Tf.
    + destruct (truthy (prop (Some (body req)) "behaviors")) eqn:Tb.
      * destruct (payload_of req) as [r|] eqn:Hread.
        -- right. exists (md5_of_json fp), (getClientIP req).
           rewrite (verify_human_state rd req sc st fp r Hfp Tf Tb Hread).
           reflexivity.
        -- left. unfold payload_of in Hread. unfold verify_human.
           rewrite Hfp, Tf, Tb, Hread. reflexivity.
      * left. unfold verify_human. rewrite Hfp, Tf, Tb. reflexivity.
    + left. unfold verify_human. rewrite Hfp, Tf. reflexivity.
  - left. unfold verify_human. rewrite Hfp. reflexivity.
Qed.

Lemma routes_ledger rd req sc st :
  fingerprintStore (snd (routes target rd req sc st)) = fingerprintStore st
  \/ exists h who,
       fingerprintStore (snd (routes target rd req sc st))
       = swept rd (<[h := observed rd who (fingerprintStore st !! h)]>
                     (fingerprintStore st)).
Proof.
  unfold routes.
  repeat match goal with
         | |- context [if ?c then _ else _] => destruct c
         end; try (left; reflexivity).
  apply verify_human_ledger.
Qed.

Lemma classify_ledger rd req st :
  fingerprintStore (snd (classify rd req st)) = fingerprintStore st.
Proof. rewrite classify_unfold. reflexivity. Qed.

Lemma app_ledger rd req st :
  fingerprintStore (snd (app target rd req st)) = fingerprintStore st
  \/ exists h who,
       fingerprintStore (snd (app target rd req st))
       = swept rd (<[h := observed rd who (fingerprintStore st !! h)]>
                     (fingerprintStore st)).
Proof.
  unfold app. destruct (skipped req) eqn:Hskip.
  - rewrite (botDetection_skipped rd req st Hskip). apply routes_ledger.
  - rewrite (botDetection_classified rd req st Hskip). cbn zeta.
    destruct (ge (total (fst (classify rd req st))) 80%float).
    + left. apply classify_ledger.
    + rewrite <- (classify_ledger rd req st). apply routes_ledger.
Qed.

Lemma observed_ok T T' rd who old :
  chronological T rd T' ->
  (forall r, old = Some r -> record_ok T r) ->
  record_ok T' (observed rd who old).
Proof.
  unfold chronological, record_ok. intros Hc Hold.
  destruct old as [r|]; cbn.
  - specialize (Hold r eq_refl). lia.
  - lia.
Qed.

Lemma ledger_ok_step T T' rd req st :
  chronological T rd T' ->
  ledger_ok T (fingerprintStore st) ->
  ledger_ok T' (fingerprintStore (snd (app target rd req st))).
Proof.
  intros Hc Hok.
  assert (Hweak : ledger_ok T' (fingerprintStore st)).
  { intros h r Hr. specialize (Hok h r Hr). unfold record_ok, chronological in *. lia. }
  destruct (app_ledger rd req st) as [-> | (h & who & ->)]; [exact Hweak|].
  intros h' r Hr%swept_lookup.
  destruct (decide (h = h')) as [<-|Hne].
  - rewrite lookup_insert_eq in Hr. injection Hr as <-.
    apply (observed_ok T T' rd who _ Hc). intros r Hr. exact (Hok h r Hr).
  - rewrite lookup_insert_ne in Hr by assumption. exact (Hweak h' r Hr).
Qed.

Lemma reachable_ok T st : reachable T st -> ledger_ok T (fingerprintStore st).
Proof.
  induction 1 as [T|T T' rd req st Hreach IH Hc].
  - intros h r Hr. cbn in Hr. rewrite lookup_empty in Hr. discriminate.
  - exact (ledger_ok_step T T' rd req st Hc IH).
Qed.

Lemma reachable_served T st : reachable T st -> served st.
Proof. induction 1; [apply served_initial|apply served_step; assumption]. Qed.

(** The count of a record needs no clock: a record starts at 1 and every
    later observation adds 1. *)
Lemma served_counted st :
  served st -> forall h r, fingerprintStore st !! h = Some r -> 1 <= count r.
Proof.
  induction 1 as [|rd req st Hserved IH].
  - intros h r Hr. cbn in Hr. rewrite lookup_empty in Hr. discriminate.
  - intros h r Hr.
    destruct (app_ledger rd req st) as [E | (h0 & who & E)]; rewrite E in Hr.
    + exact (IH h r Hr).
    + apply swept_lookup in Hr. destruct (decide (h0 = h)) as [->|Hne].
      * rewrite lookup_insert_eq in Hr. injection Hr as <-.
        destruct (fingerprintStore st !! h) as [old|] eqn:Hold; cbn; [|lia].
        specialize (IH h old Hold). lia.
      * rewrite lookup_insert_ne in Hr by assumption. exact (IH h r Hr).
Qed.

(** No request changes the identity a record was created under. *)
Lemma owner_kept rd req st h r r' :
  fingerprintStore st !! h = Some r ->
  fingerprintStore (snd (app target rd req st)) !! h = Some r' ->
  ip r' = ip r.
Proof.
  intros Hr Hr'.
  destruct (app_ledger rd req st) as [E | (h0 & who & E)]; rewrite E in Hr'.
  - congruence.
  - apply swept_lookup in Hr'. destruct (decide (h0 = h)) as [->|Hne].
    + rewrite lookup_insert_eq, Hr in Hr'. injection Hr' as <-. reflexivity.
    + rewrite lookup_insert_ne in Hr' by assumption. congruence.
Qed.

(** The names of the signals raised from the checks of a payload. *)
Definition check_signals (r : Reported) : list string :=
  (if cdp r then ["cdp-detected"%string] else [])
  ++ (if webdriver r then ["webdriver-detected"%string] else [])
  ++ (if artifacts r then ["automation-artifacts"%string] else [])
  ++ (if headless r then ["headless-browser"%string] else []).

Lemma names_bump_if c w name t :
  names (bump_if c w name t) = names t ++ (if c then [name] else []).
Proof. destruct c; cbn; [reflexivity|]. symmetry. apply List.app_nil_r. Qed.

Lemma check_signals_no_reuse r :
  ~ In "fingerprint-reuse"%string (check_signals r).
Proof.
  unfold check_signals.
  destruct (cdp r), (webdriver r), (artifacts r), (headless r);
    cbn; intros Hin;
    repeat (destruct Hin as [Hin|Hin]; [discriminate|]); exact Hin.
Qed.

(** The signals of an answer: those attached by the classifier, those of
    the checks, and the reuse signal when the ledger calls for it. *)
Lemma verify_human_signals rd req sc st v fp r :
  prop (Some (body req)) "fingerprint" = Some fp ->
  payload_of req = Normal r ->
  fst (verify_human target rd req sc st)
  = {| status := 200; content := BVerification v |} ->
  signals v
  = match botSignals sc with Some l => l | None => [] end
    ++ check_signals r
    ++ (if on_record_elsewhere st (md5_of_json fp) (getClientIP req)
        then ["fingerprint-reuse"%string] else []).
Proof.
  intros Hfp Hread. unfold payload_of in Hread. unfold verify_human.
  rewrite Hfp, Hread.
  destruct (negb (truthy (Some fp))
            || negb (truthy (prop (Some (body req)) "behaviors")));
    [cbn; discriminate|].
  pose proof (observe_flag rd (md5_of_json fp) (getClientIP req)
                (fingerprintStore st)) as Hflag.
  destruct (observe rd (md5_of_json fp) (getClientIP req) (fingerprintStore st))
    as [ledger reused].
  cbn [snd] in Hflag. cbn [fst]. intros [= <-]. cbn [signals].
  rewrite !names_bump_if. cbn [names]. unfold check_signals, on_record_elsewhere.
  rewrite <- Hflag, <- !List.app_assoc. reflexivity.
Qed.

(** A complete verification request, posted where the classifier does not
    look. *)
Definition verification_post (req : Request) (fp : json) : Prop :=
  startsWith (path req) "/api/" = true
  /\ has_method "POST" req = true
  /\ route "/api/verify-human" (path req) = true
  /\ prop (Some (body req)) "fingerprint" = Some fp.

(** One observation: the ledger afterwards, the signal and the score. *)
Lemma observation rd req st fp v :
  verification_post req fp ->
  fst (app target rd req st) = {| status := 200; content := BVerification v |} ->
  let h := md5_of_json fp in
  let who := getClientIP req in
  exists reported,
    payload_of req = Normal reported
    /\ fingerprintStore (snd (app target rd req st))
       = swept rd (<[h := observed rd who (fingerprintStore st !! h)]>
                     (fingerprintStore st))
    /\ (In "fingerprint-reuse"%string (signals v)
        <-> on_record_elsewhere st h who = true)
    /\ score v = score_of 0%float reported (on_record_elsewhere st h who).
Proof.
  intros (Hapi & Hpost & Hroute & Hfp) Hans h who.
  assert (Happ : app target rd req st = verify_human target rd req unscored st).
  { rewrite (app_api target rd req st Hapi). apply routes_verify_human; assumption. }
  rewrite Happ in *.
  destruct (verify_human_answer target rd req unscored st v Hans)
    as (fp' & r & Hfp' & Tf & Tb & Hread & Hscore & _).
  rewrite Hfp in Hfp'. injection Hfp' as <-.
  exists r. split; [exact Hread|]. split; [|split].
  - rewrite (verify_human_state rd req unscored st fp r Hfp Tf Tb Hread). reflexivity.
  - rewrite (verify_human_signals rd req unscored st v fp r Hfp Hread Hans).
    cbn [botSignals unscored List.app]. fold h who.
    destruct (on_record_elsewhere st h who).
    + split; [reflexivity|]. intros _. apply in_or_app. right. left. reflexivity.
    + rewrite List.app_nil_r. split; [|discriminate].
      intros Hin. exfalso. exact (check_signals_no_reuse _ Hin).
  - exact Hscore.
Qed.

(** What the ledger has for a hash after an observation by [who] at the
    readings [rd], given what it had before: the record, unless the sweep
    took it, and the record for sure when the sweep is not drawn or the
    record is then at most 24 hours old. *)
Definition recorded_as (rd : Readings) (after : gmap string FingerprintRecord)
    (h : string) (r : FingerprintRecord) : Prop :=
  (forall r', after !! h = Some r' -> r' = r)
  /\ (lt (coin_ledger rd) 0.01%float = false \/ now_sweep rd - lastSeen r <= maxAge ->
      after !! h = Some r).

(** One observation, by what the ledger had for the hash. *)
Lemma observation_cases rd req st fp v :
  verification_post req fp ->
  fst (app target rd req st) = {| status := 200; content := BVerification v |} ->
  let h := md5_of_json fp in
  let who := getClientIP req in
  let after := fingerprintStore (snd (app target rd req st)) in
  exists reported,
    payload_of req = Normal reported
    /\ match fingerprintStore st !! h with
       | Some r =>
           (In "fingerprint-reuse"%string (signals v) <-> ip r <> who)
           /\ score v = (if bool_decide (ip r <> who)
                         then PrimFloat.add (score_of 0%float reported false) 20%float
                         else score_of 0%float reported false)
           /\ recorded_as rd after h (seen_again rd r)
       | None =>
           ~ In "fingerprint-reuse"%string (signals v)
           /\ score v = score_of 0%float reported false
           /\ recorded_as rd after h (seen_first rd who)
       end.
Proof.
  intros Hpost Hans h who after.
  destruct (observation rd req st fp v Hpost Hans)
    as (r0 & Hread & Hafter & Hsig & Hscore).
  fold h who in Hafter, Hsig, Hscore. fold after in Hafter.
  exists r0. split; [exact Hread|].
  unfold on_record_elsewhere in Hsig, Hscore.
  assert (Hrec : recorded_as rd after h (observed rd who (fingerprintStore st !! h))).
  { split.
    - intros r' Hr'. rewrite Hafter in Hr'. apply swept_lookup in Hr'.
      rewrite lookup_insert_eq in Hr'. congruence.
    - intros Hkeep. rewrite Hafter.
      apply swept_keeps; [apply lookup_insert_eq|exact Hkeep]. }
  destruct (fingerprintStore st !! h) as [r|] eqn:Hold; cbn [observed] in Hrec.
  - split; [|split; [|exact Hrec]].
    + rewrite Hsig. apply bool_decide_eq_true.
    + rewrite Hscore. unfold score_of, expected_score.
      destruct (bool_decide (ip r <> who)); reflexivity.
  - split; [|split; [exact Hscore|exact Hrec]].
    intros Hin. apply Hsig in Hin. discriminate.
Qed.

(** C7, as amended. Every record of every ledger the server can hold has a
    count of at least 1, and, as long as the clock of the server does not
    run backwards, was last seen no earlier than it was first seen. No
    request changes the identity of a record.
    Observing a hash that is on record is not a first observation: the
    count grows by one, [lastSeen] becomes the current time, the identity
    and [firstSeen] stay, and the signal "fingerprint-reuse" is raised, with
    20 added to the score, exactly when the observer is not the identity on
    record. A hash that is not on record gets a record under the observer
    with count 1 and no signal. So a hash seen from A and then from B is on
    record under A with count 2 and raises the signal at the second
    observation iff A and B differ. (The sweep that may follow an
    observation removes the record only if it is then more than 24 hours
    old.) *)
Theorem fingerprint_ledger :
  (forall st, served st ->
     forall h r, fingerprintStore st !! h = Some r -> 1 <= count r)
  /\ (forall T st, reachable T st ->
        forall h r, fingerprintStore st !! h = Some r -> firstSeen r <= lastSeen r)
  /\ (forall rd req st h r r',
        fingerprintStore st !! h = Some r ->
        fingerprintStore (snd (app target rd req st)) !! h = Some r' ->
        ip r' = ip r)
  /\ (forall rd req st fp v,
        verification_post req fp ->
        fst (app target rd req st) = {| status := 200; content := BVerification v |} ->
        let h := md5_of_json fp in
        let who := getClientIP req in
        let after := fingerprintStore (snd (app target rd req st)) in
        exists reported,
          payload_of req = Normal reported
          /\ match fingerprintStore st !! h with
             | Some r =>
                 (In "fingerprint-reuse"%string (signals v) <-> ip r <> who)
                 /\ score v
                    = (if bool_decide (ip r <> who)
                       then PrimFloat.add (score_of 0%float reported false) 20%float
                       else score_of 0%float reported false)
                 /\ recorded_as rd after h
                      {| ip := ip r; count := count r + 1;
                         firstSeen := firstSeen r; lastSeen := now_update rd |}
             | None =>
                 ~ In "fingerprint-reuse"%string (signals v)
                 /\ score v = score_of 0%float reported false
                 /\ recorded_as rd after h
                      {| ip := who; count := 1;
                         firstSeen := now_first rd; lastSeen := now_last rd |}
             end)
  /\ (forall rd1 req1 rd2 req2 st fp1 fp2 v1 v2,
        verification_post req1 fp1 -> verification_post req2 fp2 ->
        md5_of_json fp1 = md5_of_json fp2 ->
        fingerprintStore st !! md5_of_json fp1 = None ->
        lt (coin_ledger rd1) 0.01%float = false
        \/ now_sweep rd1 - now_last rd1 <= maxAge ->
        let st1 := snd (app target rd1 req1 st) in
        fst (app target rd1 req1 st)
        = {| status := 200; content := BVerification v1 |} ->
        fst (app target rd2 req2 st1)
        = {| status := 200; content := BVerification v2 |} ->
        ~ In "fingerprint-reuse"%string (signals v1)
        /\ (In "fingerprint-reuse"%string (signals v2)
            <-> getClientIP req1 <> getClientIP req2)
        /\ (forall r,
              fingerprintStore (snd (app target rd2 req2 st1)) !! md5_of_json fp1
              = Some r ->
              r = {| ip := getClientIP req1; count := 2;
                     firstSeen := now_first rd1; lastSeen := now_update rd2 |})).
Proof.
  split; [|split; [|split; [|split]]].
  - exact served_counted.
  - intros T st Hreach h r Hr.
    destruct (reachable_ok T st Hreach h r Hr) as (_ & Hf & _). exact Hf.
  - apply owner_kept.
  - exact observation_cases.
  - intros rd1 req1 rd2 req2 st fp1 fp2 v1 v2 Hp1 Hp2 Hsame Hnew Hkeep st1 Ha1 Ha2.
    destruct (observation_cases rd1 req1 st fp1 v1 Hp1 Ha1) as (r1 & _ & H1).
    rewrite Hnew in H1. destruct H1 as (Hno & _ & _ & Hrec).
    specialize (Hrec Hkeep). fold st1 in Hrec.
    destruct (observation_cases rd2 req2 st1 fp2 v2 Hp2 Ha2) as (r2 & _ & H2).
    rewrite <- Hsame, Hrec in H2. destruct H2 as (Hsig & _ & Hagain & _).
    split; [exact Hno|]. split; [exact Hsig|].
    intros r Hr. rewrite (Hagain r Hr). reflexivity.
Qed.

End Ledger.

(* ===================================================================== *)
(** ** Exceptions inside the detector *)
(* ===================================================================== *)

Section Isolation.

Import Detector.

Variable config : Config.

(** The five checks that [detect()] runs before the fingerprint. *)
Definition immediate (env : Browser) : result Self :=
  let* s3 := detectHeadless env (detectWebDriver env (detectCDP config env fresh)) in
  checkAutomationArtifacts env (checkNavigatorInconsistencies config env s3).

(** An environment with other outcomes for the three guarded probes: what
    [toDataURL] does on the 2D context [ctx], what asking for a WebGL
    context does, and what constructing an [AudioContext] does. *)
Definition with_probes (env : Browser) (ctx : Context2D) (url : outcome string)
    (gl : outcome (option WebGL)) (audio : option (outcome AudioInfo)) : Browser :=
  {| navigator := navigator env;
     window := window env;
     stack_serialized := stack_serialized env;
     documentElement := documentElement env;
     context2d := Returns (Some {| toDataURL := url;
                                   measured_width := measured_width ctx |});
     webgl := gl;
     AudioContext := audio;
     screen := screen env;
     timeZone := timeZone env;
     timezoneOffset := timezoneOffset env |}.

(** The steps of the five checks that can throw, all outside any [try]:
    the length of [navigator.plugins] and of [navigator.mimeTypes], and the
    attributes of the root element (unless the recorder global is there). *)
Definition unguarded_steps_succeed (env : Browser) : Prop :=
  plugins (navigator env) <> None
  /\ mimeTypes (navigator env) <> None
  /\ (_Selenium_IDE_Recorder (window env) = true \/ documentElement env <> None).

Lemma immediate_runs env :
  unguarded_steps_succeed env -> exists s, immediate env = Ok s.
Proof.
  intros (Hp & Hm & Hroot). unfold immediate, detectHeadless, checkAutomationArtifacts.
  destruct (plugins (navigator env)) as [np|]; [|contradiction].
  destruct (mimeTypes (navigator env)) as [nm|]; [|contradiction].
  cbn [deref bind].
  destruct (_Selenium_IDE_Recorder (window env)) eqn:Hrec; cbn [bind].
  - eexists. reflexivity.
  - destruct Hroot as [Hr|Hr]; [discriminate|].
    destruct (documentElement env) as [root|]; [|contradiction].
    cbn [deref bind]. eexists. reflexivity.
Qed.

Lemma detect_unfold env :
  detect config env
  = let* s5 := immediate env in
    let* sf := generateFingerprint env s5 in
    Ok {| isBot := threshold config <=? score (calculateScore (fst sf));
          final_score := score (calculateScore (fst sf));
          final_checks := checks (calculateScore (fst sf));
          behaviors := idle;
          fingerprint := snd sf |}.
Proof.
  unfold detect, immediate.
  destruct (detectHeadless env (detectWebDriver env (detectCDP config env fresh)));
    reflexivity.
Qed.

(** A throw in an unguarded check ends [detect()] without a result. *)
Lemma detect_throws_without_plugins env :
  plugins (navigator env) = None -> detect config env = Throw.
Proof.
  intros Hp. unfold detect, detectHeadless. rewrite Hp. reflexivity.
Qed.

(** Without a 2D context the canvas probe yields null, and the font probe,
    which uses the context unchecked and outside any [try], throws. *)
Lemma canvas_without_context env :
  context2d env = Raises \/ context2d env = Returns None ->
  getCanvasFingerprint env = None /\ getFontFingerprint env = Throw.
Proof.
  unfold getCanvasFingerprint, getFontFingerprint. intros [-> | ->]; split; reflexivity.
Qed.

Lemma detect_throws_without_context env :
  context2d env = Raises \/ context2d env = Returns None ->
  detect config env = Throw.
Proof.
  intros Hctx. rewrite detect_unfold.
  destruct (immediate env) as [s|]; [|reflexivity]. cbn [bind].
  unfold generateFingerprint.
  rewrite (proj2 (canvas_without_context env Hctx)). reflexivity.
Qed.

(** C8, as amended. In a browser that hands out a 2D context and in which
    the five checks before the fingerprint do not throw, a throw inside the
    canvas probe (in the drawing calls or [toDataURL]), inside the WebGL
    probe (asking for the context, or reading the length of a null
    extension list) or inside the audio probe is caught by that probe: it
    yields null, the other probes and the rest of [detect()] run, and a
    result is produced. A null canvas or WebGL result adds the fixed 15
    points for a missing capability, a null audio result adds nothing. The
    five checks do not throw when [navigator.plugins],
    [navigator.mimeTypes] and the root element are there. Nothing else is
    guarded: when no 2D context can be had, the canvas probe yields null but
    the font probe throws, and when [navigator.plugins] is missing the
    headless check throws; [detect()] produces no result then. *)
Theorem guarded_probes_are_isolated env :
  (forall s ctx,
     immediate env = Ok s -> context2d env = Returns (Some ctx) ->
     exists d,
       detect config env = Ok d
       /\ final_score d
          = score s + (match fp_canvas (fingerprint d), fp_webgl (fingerprint d) with
                       | Some _, Some _ => 0
                       | _, _ => 15
                       end)
       /\ (toDataURL ctx = Raises -> fp_canvas (fingerprint d) = None)
       /\ (webgl env = Raises -> fp_webgl (fingerprint d) = None)
       /\ (forall gl info,
             webgl env = Returns (Some gl) -> debug_renderer_info gl = Some info ->
             supportedExtensions gl = None -> fp_webgl (fingerprint d) = None)
       /\ (AudioContext env = Some Raises -> fp_audio (fingerprint d) = None))
  /\ (unguarded_steps_succeed env -> exists s, immediate env = Ok s)
  /\ (context2d env = Raises \/ context2d env = Returns None ->
      getCanvasFingerprint env = None /\ detect config env = Throw)
  /\ (plugins (navigator env) = None -> detect config env = Throw).
Proof.
  split; [|split; [apply immediate_runs|split; [|apply detect_throws_without_plugins]]].
  - intros s ctx Hs Hctx.
    rewrite detect_unfold, Hs. cbn [bind].
    unfold generateFingerprint, getFontFingerprint.
    rewrite Hctx. cbn [lift deref bind fst snd].
    eexists. split; [reflexivity|].
    cbn [final_score fingerprint fp_canvas fp_webgl fp_audio calculateScore score].
    split; [|split; [|split; [|split]]].
    + destruct (getCanvasFingerprint env), (getWebGLFingerprint env);
        cbn [add score]; lia.
    + intros Hurl. unfold getCanvasFingerprint. rewrite Hctx. cbn [lift bind].
      rewrite Hurl. reflexivity.
    + intros Hgl. unfold getWebGLFingerprint. rewrite Hgl. reflexivity.
    + intros gl info Hgl Hinfo Hext. unfold getWebGLFingerprint.
      rewrite Hgl. cbn [lift bind]. rewrite Hinfo, Hext. reflexivity.
    + intros Haudio. unfold getAudioFingerprint. rewrite Haudio. reflexivity.
  - intros Hctx. split; [exact (proj1 (canvas_without_context env Hctx))|].
    exact (detect_throws_without_context env Hctx).
Qed.

End Isolation.

(* ===================================================================== *)
(** ** The identity of a client *)
(* ===================================================================== *)

Section ClientIdentity.

Import Js Server.

(** A character other than the comma. *)
Definition not_comma (c : ascii) : bool := negb (Ascii.eqb c ","%char).

Lemma before_comma_clean s : every not_comma (Text.before_comma s) = true.
Proof.
  induction s as [|c s IH]; [reflexivity|]. cbn [Text.before_comma].
  destruct (Ascii.eqb c ","%char) eqn:E; [reflexivity|].
  cbn [every]. unfold not_comma at 1. rewrite E. exact IH.
Qed.

Lemma before_comma_first a : forall rest,
  every not_comma a = true ->
  Text.before_comma (a ++ String ","%char rest) = a.
Proof.
  induction a as [|c a IH]; intros rest Ha.
  - reflexivity.
  - cbn [every] in Ha. apply andb_prop in Ha. destruct Ha as [Hc Ha].
    change (String c a ++ String ","%char rest)%string
      with (String c (a ++ String ","%char rest)).
    cbn [Text.before_comma]. unfold not_comma in Hc.
    destruct (Ascii.eqb c ","%char); [discriminate|].
    rewrite (IH rest Ha). reflexivity.
Qed.

Lemma before_comma_whole a : every not_comma a = true -> Text.before_comma a = a.
Proof.
  induction a as [|c a IH]; intros Ha; [reflexivity|].
  cbn [every] in Ha. apply andb_prop in Ha. destruct Ha as [Hc Ha].
  cbn [Text.before_comma]. unfold not_comma in Hc.
  destruct (Ascii.eqb c ","%char); [discriminate|]. rewrite (IH Ha). reflexivity.
Qed.

Lemma trim_start_every f s : every f s = true -> every f (Text.trim_start s) = true.
Proof.
  induction s as [|c s IH]; intros Hs; [reflexivity|].
  cbn [Text.trim_start]. destruct (Text.white c); [|exact Hs].
  cbn [every] in Hs. apply andb_prop in Hs. apply IH. tauto.
Qed.

Lemma trim_end_every f s : every f s = true -> every f (Text.trim_end s) = true.
Proof.
  induction s as [|c s IH]; intros Hs; [reflexivity|].
  cbn [every] in Hs. apply andb_prop in Hs. destruct Hs as [Hc Hs].
  cbn [Text.trim_end]. specialize (IH Hs).
  destruct (Text.trim_end s) as [|d t].
  - destruct (Text.white c); [reflexivity|]. cbn [every]. rewrite Hc. reflexivity.
  - cbn [every] in *. rewrite Hc. exact IH.
Qed.

(** A string that is empty or starts with something else than white
    space. *)
Definition starts_clean (s : string) : bool :=
  match s with
  | EmptyString => true
  | String c _ => negb (Text.white c)
  end.

Lemma trim_start_clean s : starts_clean (Text.trim_start s) = true.
Proof.
  induction s as [|c s IH]; [reflexivity|]. cbn [Text.trim_start].
  destruct (Text.white c) eqn:E; [exact IH|]. cbn. rewrite E. reflexivity.
Qed.

Lemma trim_start_fixed s : starts_clean s = true -> Text.trim_start s = s.
Proof.
  destruct s as [|c s]; [reflexivity|]. cbn. destruct (Text.white c); [discriminate|].
  reflexivity.
Qed.

Lemma trim_end_clean s : starts_clean s = true -> starts_clean (Text.trim_end s) = true.
Proof.
  destruct s as [|c s]; [reflexivity|]. cbn [starts_clean Text.trim_end].
  destruct (Text.white c) eqn:W; [discriminate|]. intros _.
  destruct (Text.trim_end s); cbn [starts_clean]; rewrite W; reflexivity.
Qed.

Lemma trim_end_fixed s : Text.trim_end (Text.trim_end s) = Text.trim_end s.
Proof.
  induction s as [|c s IH]; [reflexivity|]. cbn [Text.trim_end].
  destruct (Text.trim_end s) as [|d t] eqn:E.
  - destruct (Text.white c) eqn:W; [reflexivity|]. cbn [Text.trim_end]. rewrite W.
    reflexivity.
  - change (Text.trim_end (String c (String d t)))
      with (match Text.trim_end (String d t) with
            | EmptyString => if Text.white c then EmptyString else String c EmptyString
            | u => String c u
            end).
    rewrite IH. reflexivity.
Qed.

Lemma trim_fixed s : Text.trim (Text.trim s) = Text.trim s.
Proof.
  unfold Text.trim.
  rewrite (trim_start_fixed (Text.trim_end (Text.trim_start s))).
  - apply trim_end_fixed.
  - apply trim_end_clean, trim_start_clean.
Qed.

Lemma trim_every f s : every f s = true -> every f (Text.trim s) = true.
Proof. intros Hs. unfold Text.trim. apply trim_end_every, trim_start_every, Hs. Qed.

(** X1. [getClientIP] with a non-empty [X-Forwarded-For] header: the
    identity is the text before the first comma, trimmed, whatever the other
    headers and the peer address are. It holds no comma and trimming it
    again changes nothing. For a header [first,rest] it is [first] trimmed,
    for a header without a comma the whole header trimmed. Without the
    header, or with an empty one, the identity is the first non-empty one of
    [X-Real-IP], [req.ip] and the peer address, and the peer address as it
    is when all three are empty or missing. *)
Theorem getClientIP_forwarded req :
  (forall f,
     x_forwarded_for req = Some f -> is_empty f = false ->
     let who := Text.trim (Text.before_comma f) in
     getClientIP req = Some who
     /\ every not_comma who = true
     /\ Text.trim who = who
     /\ (forall first rest,
           every not_comma first = true ->
           f = (first ++ String ","%char rest)%string ->
           who = Text.trim first)
     /\ (every not_comma f = true -> who = Text.trim f))
  /\ (str_truthy (x_forwarded_for req) = false ->
      getClientIP req
      = if str_truthy (x_real_ip req) then x_real_ip req
        else if str_truthy (req_ip req) then req_ip req
             else remoteAddress req).
Proof.
  split.
  - intros f Hf Hne who. split; [|split; [|split; [|split]]].
    + unfold getClientIP. rewrite Hf. cbn [str_truthy]. rewrite Hne. reflexivity.
    + apply trim_every, before_comma_clean.
    + apply trim_fixed.
    + intros first rest Hfirst ->. unfold who.
      rewrite (before_comma_first first rest Hfirst). reflexivity.
    + intros Hall. unfold who. rewrite (before_comma_whole f Hall). reflexivity.
  - intros Hno. unfold getClientIP, or_else. rewrite Hno. reflexivity.
Qed.

End ClientIdentity.

(* ===================================================================== *)
(** ** The server-side score *)
(* ===================================================================== *)

Section ServerScore.

Import Js Server.

(** X2. The classifier raises at most the three signals "bot-ua",
    "missing-ua" and "rate-limit-exceeded", in that order and each once,
    and its total is the sum of their weights 60, 50 and 40. The hard block
    (a total of 80 or more) fires exactly when at least two signals are
    raised: no single signal blocks. A request that is passed on carries
    one of the totals 0, 40, 50 and 60. *)
Theorem classifier_blocks_on_two_signals rd req st :
  let t := fst (classify rd req st) in
  (exists ua missing rate : bool,
     names t = (if ua then ["bot-ua"%string] else [])
               ++ (if missing then ["missing-ua"%string] else [])
               ++ (if rate then ["rate-limit-exceeded"%string] else [])
     /\ total t = PrimFloat.add
                    (PrimFloat.add
                       (PrimFloat.add 0%float (if ua then 60%float else 0%float))
                       (if missing then 50%float else 0%float))
                    (if rate then 40%float else 0%float))
  /\ (ge (total t) 80%float = true <-> (2 <= List.length (names t))%nat)
  /\ (ge (total t) 80%float = false ->
      In (total t) [0%float; 40%float; 50%float; 60%float]).
Proof.
  cbn zeta. rewrite classify_unfold. cbn [fst]. unfold header_tally.
  destruct (existsb _ botPatterns) as [|];
    destruct (is_empty _ || _) as [|];
    destruct (snd (rate_limit _ _ _)) as [|];
    cbn [bump_if bump names total List.app].
  all: split;
    [ first [ exists true, true, true; split; reflexivity
            | exists true, true, false; split; reflexivity
            | exists true, false, true; split; reflexivity
            | exists true, false, false; split; reflexivity
            | exists false, true, true; split; reflexivity
            | exists false, true, false; split; reflexivity
            | exists false, false, true; split; reflexivity
            | exists false, false, false; split; reflexivity ]
    | split;
      [ split; [intros Hb; first [cbn; lia | vm_compute in Hb; discriminate]
               | intros Hl; first [vm_compute; reflexivity | cbn in Hl; lia]]
      | intros Hb; first [vm_compute in Hb; discriminate
                         | cbn; auto 6 ] ] ].
Qed.


(** The user agent the classifier looks at (line 76). *)
Definition userAgent_of (req : Request) : string :=
  match user_agent req with
  | Some ua => ua
  | None => EmptyString
  end.

(** X3. "missing-ua" is raised exactly for a user agent of fewer than five
    code units, the absent header included. No pattern of the catalogue
    matches the empty text, so a request without a user agent scores 50 and
    is blocked exactly when it also exceeds the rate limit; a short user
    agent that a pattern matches (such as [bot] or [curl]) scores 110 or
    more and is blocked at once. *)
Theorem short_user_agent rd req st :
  let t := fst (classify rd req st) in
  let ua := userAgent_of req in
  (In "missing-ua"%string (names t) <-> (String.length ua < 5)%nat)
  /\ (ua = EmptyString ->
      ~ In "bot-ua"%string (names t)
      /\ (ge (total t) 80%float = true
          <-> In "rate-limit-exceeded"%string (names t)))
  /\ ((String.length ua < 5)%nat -> In "bot-ua"%string (names t) ->
      ge (total t) 80%float = true).
Proof.
  cbn zeta. rewrite classify_unfold. cbn [fst]. unfold header_tally, userAgent_of.
  set (ua := match user_agent req with Some ua => ua | None => EmptyString end).
  assert (Hshort : is_empty ua || (String.length ua <? 5)%nat = true
                   <-> (String.length ua < 5)%nat).
  { destruct ua as [|c ua]; cbn [is_empty orb]; [cbn; split; [lia|reflexivity]|].
    apply Nat.ltb_lt. }
  split; [|split].
  - destruct (is_empty ua || (String.length ua <? 5)%nat) eqn:Hm.
    + split; [intros _; apply Hshort; reflexivity|]. intros _.
      destruct (existsb _ botPatterns); destruct (snd (rate_limit _ _ _));
        cbn; auto.
    + split; [|intros Hl; apply Hshort in Hl; discriminate].
      intros Hin. exfalso.
      destruct (existsb _ botPatterns); destruct (snd (rate_limit _ _ _));
        cbn in Hin;
        repeat (destruct Hin as [Hin|Hin]; [discriminate|]); exact Hin.
  - intros ->. cbn [existsb botPatterns is_empty orb bump_if].
    change (existsb (fun pattern => Text.test pattern EmptyString) botPatterns)
      with false.
    cbn [bump_if]. destruct (snd (rate_limit _ _ _)); cbn [bump_if bump names total List.app].
    + split; [intros Hin; repeat (destruct Hin as [Hin|Hin]; [discriminate|]); exact Hin|].
      split; [intros _; right; left; reflexivity|intros _; vm_compute; reflexivity].
    + split; [intros Hin; repeat (destruct Hin as [Hin|Hin]; [discriminate|]); exact Hin|].
      split; [intros Hb; vm_compute in Hb; discriminate|].
      intros Hin. repeat (destruct Hin as [Hin|Hin]; [discriminate|]). destruct Hin.
  - intros Hl%Hshort. rewrite Hl.
    destruct (existsb _ botPatterns); destruct (snd (rate_limit _ _ _));
      cbn [bump_if bump names total List.app]; intros Hin;
      try (vm_compute; reflexivity);
      exfalso; repeat (destruct Hin as [Hin|Hin]; [discriminate|]); exact Hin.
Qed.

End ServerScore.

(* ===================================================================== *)
(** ** The user-agent catalogue *)
(* ===================================================================== *)

Section Catalogue.

Import Js Server.

Lemma append_cons c (s t : string) : (String c s ++ t)%string = String c (s ++ t)%string.
Proof. reflexivity. Qed.

Lemma append_empty (t : string) : (EmptyString ++ t)%string = t.
Proof. reflexivity. Qed.

Lemma upper_upper c : Text.upper (Text.upper c) = Text.upper c.
Proof. destruct c as [[] [] [] [] [] [] [] []]; reflexivity. Qed.

Lemma upper_terminator c : Text.line_terminator (Text.upper c) = Text.line_terminator c.
Proof. destruct c as [[] [] [] [] [] [] [] []]; reflexivity. Qed.

Lemma ci_eq_terminator a b :
  Text.ci_eq a b = true -> Text.line_terminator a = Text.line_terminator b.
Proof.
  intros E%ci_eq_true.
  rewrite <- (upper_terminator a), <- (upper_terminator b), E. reflexivity.
Qed.

Lemma ci_eq_right x a b : Text.ci_eq a b = true -> Text.ci_eq x a = Text.ci_eq x b.
Proof. intros E%ci_eq_true. unfold Text.ci_eq. rewrite E. reflexivity. Qed.

(** *** Two spellings of a text that differ in case only *)

Lemma ci_prefix_case p : forall s s',
  Text.ci_equal s s' = true -> Text.ci_prefix p s = Text.ci_prefix p s'.
Proof.
  induction p as [|x p IH]; intros [|a s] [|b s'] E; cbn in *;
    try reflexivity; try discriminate.
  apply andb_prop in E. destruct E as [Eab E].
  rewrite (ci_eq_right x a b Eab), (IH s s' E). reflexivity.
Qed.

Lemma ci_contains_case p : forall s s',
  Text.ci_equal s s' = true -> Text.ci_contains p s = Text.ci_contains p s'.
Proof.
  induction s as [|a s IH]; intros [|b s'] E; try (cbn in E; discriminate).
  - reflexivity.
  - cbn [Text.ci_contains]. rewrite (ci_prefix_case p _ _ E).
    cbn in E. apply andb_prop in E. destruct E as [_ E].
    rewrite (IH s' E). reflexivity.
Qed.

Lemma line_case : forall s s',
  Text.ci_equal s s' = true -> Text.ci_equal (Text.line s) (Text.line s') = true.
Proof.
  induction s as [|a s IH]; intros [|b s'] E; try (cbn in E; discriminate).
  - reflexivity.
  - cbn in E. apply andb_prop in E. destruct E as [Eab E].
    cbn [Text.line]. rewrite (ci_eq_terminator a b Eab).
    destruct (Text.line_terminator b); [reflexivity|].
    cbn [Text.ci_equal]. rewrite Eab. apply IH, E.
Qed.

Lemma drop_case n : forall s s',
  Text.ci_equal s s' = true -> Text.ci_equal (Text.drop n s) (Text.drop n s') = true.
Proof.
  induction n as [|n IH]; intros [|a s] [|b s'] E; cbn [Text.drop];
    try exact E; try (cbn in E; discriminate).
  cbn in E. apply andb_prop in E. apply IH. tauto.
Qed.

Lemma ci_gap_case a b : forall s s',
  Text.ci_equal s s' = true -> Text.ci_gap a b s = Text.ci_gap a b s'.
Proof.
  induction s as [|x s IH]; intros [|y s'] E; try (cbn in E; discriminate).
  - reflexivity.
  - cbn [Text.ci_gap]. rewrite (ci_prefix_case a _ _ E).
    rewrite (ci_contains_case b _ _ (line_case _ _ (drop_case (String.length a) _ _ E))).
    cbn in E. apply andb_prop in E. destruct E as [_ E].
    rewrite (IH s' E). reflexivity.
Qed.

Lemma test_case r s s' :
  Text.ci_equal s s' = true -> Text.test r s = Text.test r s'.
Proof.
  intros E. destruct r as [p|a b]; cbn [Text.test].
  - apply ci_contains_case, E.
  - apply ci_gap_case, E.
Qed.

(** *** A text inside a longer one *)

Lemma ci_prefix_app p : forall s t,
  Text.ci_prefix p s = true -> Text.ci_prefix p (s ++ t) = true.
Proof.
  induction p as [|x p IH]; intros [|a s] t Hp; cbn in Hp; try discriminate;
    try reflexivity.
  rewrite append_cons. cbn [Text.ci_prefix].
  apply andb_prop in Hp. destruct Hp as [-> Hp]. apply IH, Hp.
Qed.

Lemma ci_contains_app p : forall s t,
  Text.ci_contains p s = true -> Text.ci_contains p (s ++ t) = true.
Proof.
  induction s as [|a s IH]; intros t Hc.
  - cbn in Hc. rewrite orb_false_r in Hc.
    destruct p; [|discriminate]. destruct t; reflexivity.
  - rewrite append_cons. cbn [Text.ci_contains] in *.
    apply orb_prop in Hc. destruct Hc as [Hp|Hc].
    + rewrite <- append_cons, (ci_prefix_app p _ t Hp). reflexivity.
    + rewrite (IH t Hc). apply orb_true_r.
Qed.

Lemma ci_contains_after p pre : forall s,
  Text.ci_contains p s = true -> Text.ci_contains p (pre ++ s) = true.
Proof.
  induction pre as [|a pre IH]; intros s Hc; [exact Hc|].
  rewrite append_cons. cbn [Text.ci_contains]. rewrite (IH s Hc). apply orb_true_r.
Qed.

Lemma line_app : forall s t, exists rest, Text.line (s ++ t) = (Text.line s ++ rest)%string.
Proof.
  induction s as [|a s IH]; intros t.
  - exists (Text.line t). reflexivity.
  - rewrite append_cons. cbn [Text.line]. destruct (Text.line_terminator a).
    + exists EmptyString. reflexivity.
    + destruct (IH t) as [rest ->]. exists rest. reflexivity.
Qed.

Lemma drop_app p : forall s t,
  Text.ci_prefix p s = true ->
  Text.drop (String.length p) (s ++ t) = (Text.drop (String.length p) s ++ t)%string.
Proof.
  induction p as [|x p IH]; intros [|a s] t Hp; cbn in Hp; try discriminate.
  - destruct t; reflexivity.
  - reflexivity.
  - rewrite append_cons. cbn [String.length Text.drop].
    apply andb_prop in Hp. apply IH. tauto.
Qed.

Lemma ci_gap_head a b s t :
  Text.ci_prefix a s && Text.ci_contains b (Text.line (Text.drop (String.length a) s))
  = true ->
  Text.ci_prefix a (s ++ t)
  && Text.ci_contains b (Text.line (Text.drop (String.length a) (s ++ t))) = true.
Proof.
  intros [Hp Hc]%andb_prop. rewrite (ci_prefix_app a s t Hp), (drop_app a s t Hp).
  destruct (line_app (Text.drop (String.length a) s) t) as [rest ->].
  rewrite (ci_contains_app b _ rest Hc). reflexivity.
Qed.

Lemma ci_gap_unfold a b s :
  Text.ci_gap a b s
  = (Text.ci_prefix a s && Text.ci_contains b (Text.line (Text.drop (String.length a) s)))
    || match s with
       | EmptyString => false
       | String _ s' => Text.ci_gap a b s'
       end.
Proof. destruct s; reflexivity. Qed.

Lemma ci_gap_app a b : forall s t,
  Text.ci_gap a b s = true -> Text.ci_gap a b (s ++ t) = true.
Proof.
  induction s as [|x s IH]; intros t Hg; rewrite ci_gap_unfold in Hg;
    apply orb_prop in Hg; destruct Hg as [Hh|Hg]; try discriminate.
  - rewrite ci_gap_unfold, (ci_gap_head a b _ t Hh). reflexivity.
  - rewrite ci_gap_unfold, (ci_gap_head a b _ t Hh). reflexivity.
  - rewrite append_cons, ci_gap_unfold, (IH t Hg). apply orb_true_r.
Qed.

Lemma ci_gap_after a b pre : forall s,
  Text.ci_gap a b s = true -> Text.ci_gap a b (pre ++ s) = true.
Proof.
  induction pre as [|x pre IH]; intros s Hg; [exact Hg|].
  rewrite append_cons, ci_gap_unfold, (IH s Hg). apply orb_true_r.
Qed.

Lemma test_inside r pre s post :
  Text.test r s = true -> Text.test r (pre ++ s ++ post) = true.
Proof.
  destruct r as [p|a b]; cbn [Text.test]; intros Ht.
  - apply ci_contains_after, ci_contains_app, Ht.
  - apply ci_gap_after, ci_gap_app, Ht.
Qed.

(** *** The user agent test of the classifier *)

(** Line 109. *)
Definition isBotUA (userAgent : string) : bool :=
  existsb (fun pattern => Text.test pattern userAgent) botPatterns.

Lemma bot_ua_signal rd req st :
  In "bot-ua"%string (names (fst (classify rd req st)))
  <-> isBotUA (match user_agent req with Some ua => ua | None => EmptyString end) = true.
Proof.
  rewrite classify_unfold. cbn [fst]. unfold header_tally, isBotUA.
  destruct (existsb _ botPatterns);
    destruct (is_empty _ || _);
    destruct (snd (rate_limit _ _ _));
    cbn [bump_if bump names List.app]; split; intros Hin; try reflexivity;
    try discriminate; try (left; reflexivity).
  all: exfalso; repeat (destruct Hin as [Hin|Hin]; [discriminate|]); exact Hin.
Qed.

(** X4. The user-agent test does not look at case: two user agents that
    differ only in the case of their letters match the same patterns of the
    catalogue, and the classifier raises "bot-ua" for both or for
    neither. *)
Theorem bot_ua_ignores_case rd req st ua ua' :
  Text.ci_equal ua ua' = true ->
  (forall pattern, Text.test pattern ua = Text.test pattern ua')
  /\ (In "bot-ua"%string
         (names (fst (classify rd (with_user_agent (Some ua) req) st)))
      <-> In "bot-ua"%string
            (names (fst (classify rd (with_user_agent (Some ua') req) st)))).
Proof.
  intros E. split; [intros pattern; apply test_case, E|].
  rewrite !bot_ua_signal. cbn [user_agent with_user_agent]. unfold isBotUA.
  assert (Hsame : existsb (fun pattern => Text.test pattern ua) botPatterns
                  = existsb (fun pattern => Text.test pattern ua') botPatterns).
  { induction botPatterns as [|r l IH]; [reflexivity|].
    cbn [existsb]. rewrite (test_case r ua ua' E), IH. reflexivity. }
  rewrite Hsame. tauto.
Qed.

(** X5. A user agent that a pattern of the catalogue matches stays matched
    when text is put before and after it: a token of the catalogue anywhere
    in the header raises "bot-ua" and puts the total at 60 or more. *)
Theorem bot_ua_token_anywhere rd req st pattern ua pre post :
  In pattern botPatterns ->
  Text.test pattern ua = true ->
  let req' := with_user_agent (Some (pre ++ ua ++ post)%string) req in
  In "bot-ua"%string (names (fst (classify rd req' st)))
  /\ ge (total (fst (classify rd req' st))) 60%float = true.
Proof.
  intros Hin Ht req'.
  assert (Hbot : isBotUA (pre ++ ua ++ post) = true).
  { unfold isBotUA. apply existsb_exists. exists pattern.
    split; [exact Hin|apply test_inside, Ht]. }
  split; [apply bot_ua_signal; exact Hbot|].
  rewrite classify_unfold. cbn [fst]. unfold header_tally.
  cbn [user_agent with_user_agent req']. fold (isBotUA (pre ++ ua ++ post)).
  rewrite Hbot.
  destruct (is_empty _ || _); destruct (snd (rate_limit _ _ _));
    vm_compute; reflexivity.
Qed.

End Catalogue.

(* ===================================================================== *)
(** ** The rate table over time *)
(* ===================================================================== *)

Section RateTable.

Import Js Server.

Context `{Platform}.
Variable target : string.

Lemma in_window_later now now' times :
  now <= now' -> in_window now' (in_window now times) = in_window now' times.
Proof.
  intros Hle. unfold in_window. induction times as [|t times IH]; [reflexivity|].
  cbn [List.filter].
  destruct (Z.ltb_spec (now - t) rateLimitWindow) as [Hin|Hout]; cbn [List.filter].
  - rewrite IH. reflexivity.
  - destruct (Z.ltb_spec (now' - t) rateLimitWindow); [lia|exact IH].
Qed.

(** X6. The sweep of the rate table changes no later decision: with a
    clock that does not run backwards, an access after a sweep finds the
    same timestamps in its window, leaves the same sequence on record for
    its identity and raises the signal under the same condition as if the
    sweep had not run; the classifier's score and signals are the same. *)
Theorem rate_sweep_is_transparent now rd req st :
  now <= now_rate rd ->
  let swept := {| rateLimitStore := rate_sweep now (rateLimitStore st);
                  fingerprintStore := fingerprintStore st |} in
  fst (classify rd req swept) = fst (classify rd req st)
  /\ recorded (table_after rd req swept) (getClientIP req)
     = recorded (table_after rd req st) (getClientIP req).
Proof.
  intros Hle swept.
  assert (Hsame : in_window (now_rate rd)
                    (recorded (rateLimitStore swept) (getClientIP req))
                  = in_window (now_rate rd)
                      (recorded (rateLimitStore st) (getClientIP req))).
  { cbn [rateLimitStore swept]. rewrite recorded_sweep.
    apply in_window_later, Hle. }
  split.
  - rewrite !classify_unfold. cbn [fst].
    destruct (rate_limit_self (now_rate rd) (getClientIP req) (rateLimitStore swept))
      as [_ ->].
    destruct (rate_limit_self (now_rate rd) (getClientIP req) (rateLimitStore st))
      as [_ ->].
    rewrite Hsame. reflexivity.
  - rewrite !recorded_after_access, Hsame. reflexivity.
Qed.

(** What holds of every sequence on record by the time [T]. *)
Definition sequence_ok (T : Z) (times : list Z) : Prop :=
  times <> [] /\ StronglySorted Z.le times /\ Forall (fun t => t <= T) times.

Definition table_ok (T : Z) (table : gmap identity (list Z)) : Prop :=
  forall who times, table !! who = Some times -> sequence_ok T times.

Lemma sorted_filter (f : Z -> bool) l :
  StronglySorted Z.le l -> StronglySorted Z.le (List.filter f l).
Proof.
  induction 1 as [|x l Hs IH Hx]; cbn [List.filter]; [constructor|].
  destruct (f x); [|exact IH]. constructor; [exact IH|].
  apply List.Forall_forall. intros y Hy%List.filter_In.
  rewrite List.Forall_forall in Hx. apply Hx. tauto.
Qed.

Lemma sorted_snoc l n :
  StronglySorted Z.le l -> Forall (fun t => t <= n) l ->
  StronglySorted Z.le (l ++ [n]).
Proof.
  induction 1 as [|x l Hs IH Hx]; intros Hn; cbn [List.app].
  - constructor; constructor.
  - apply List.Forall_cons_iff in Hn. destruct Hn as [Hxn Hn].
    constructor; [apply IH, Hn|].
    apply List.Forall_app. split; [exact Hx|]. constructor; [exact Hxn|constructor].
Qed.

Lemma sequence_ok_filter T now times :
  sequence_ok T times -> in_window now times <> [] -> sequence_ok T (in_window now times).
Proof.
  intros (_ & Hs & Hb) Hne. split; [exact Hne|]. split.
  - apply sorted_filter, Hs.
  - unfold in_window. apply List.Forall_forall. intros t Ht%List.filter_In.
    rewrite List.Forall_forall in Hb. apply Hb. tauto.
Qed.

Lemma sequence_ok_later T T' times : T <= T' -> sequence_ok T times -> sequence_ok T' times.
Proof.
  intros Hle (Hne & Hs & Hb). split; [exact Hne|]. split; [exact Hs|].
  eapply List.Forall_impl; [|exact Hb]. cbn. intros; lia.
Qed.

Lemma sequence_ok_access T now T' times :
  T <= now <= T' ->
  (times = [] \/ sequence_ok T times) ->
  sequence_ok T' (in_window now times ++ [now]).
Proof.
  intros Hnow Hold.
  assert (Hs : StronglySorted Z.le (in_window now times)
               /\ Forall (fun t => t <= T) (in_window now times)).
  { destruct Hold as [->|(_ & Hs & Hb)]; [split; constructor|].
    split; [apply sorted_filter, Hs|].
    unfold in_window. apply List.Forall_forall. intros t Ht%List.filter_In.
    rewrite List.Forall_forall in Hb. apply Hb. tauto. }
  destruct Hs as [Hs Hb]. split; [|split].
  - intros E. apply (f_equal (@List.length Z)) in E.
    rewrite List.length_app in E. cbn in E. lia.
  - apply sorted_snoc; [exact Hs|].
    eapply List.Forall_impl; [|exact Hb]. cbn. intros; lia.
  - apply List.Forall_app. split.
    + eapply List.Forall_impl; [|exact Hb]. cbn. intros; lia.
    + constructor; [lia|constructor].
Qed.

Lemma recorded_ok T table who :
  table_ok T table -> recorded table who = [] \/ sequence_ok T (recorded table who).
Proof.
  intros Hok. unfold recorded. destruct (table !! who) as [times|] eqn:E.
  - right. exact (Hok who times E).
  - left. reflexivity.
Qed.

Lemma lookup_recorded (table : gmap identity (list Z)) who times :
  table !! who = Some times -> recorded table who = times.
Proof. unfold recorded. intros ->. reflexivity. Qed.

Lemma table_ok_classify T T' rd req st :
  T <= now_rate rd <= T' ->
  table_ok T (rateLimitStore st) ->
  table_ok T' (table_after rd req st).
Proof.
  intros Hnow Hok who times Hlook.
  destruct (decide (getClientIP req = who)) as [<-|Hne].
  - rewrite <- (lookup_recorded _ _ _ Hlook), recorded_after_access.
    apply (sequence_ok_access T); [exact Hnow|]. apply recorded_ok, Hok.
  - pose proof (recorded_after_other rd req st who Hne) as Hother.
    rewrite (lookup_recorded _ _ _ Hlook) in Hother.
    assert (Hin : times <> []).
    { unfold table_after in Hlook. rewrite classify_unfold in Hlook.
      cbn [snd rateLimitStore] in Hlook.
      destruct (lt (coin_rate rd) 0.01%float).
      - rewrite rate_sweep_lookup in Hlook.
        destruct (_ !! who) as [l|]; [|discriminate].
        destruct (in_window (now_rate rd) l); [discriminate|].
        injection Hlook as <-. discriminate.
      - rewrite (rate_limit_other _ _ _ _ Hne) in Hlook.
        destruct (Hok who times Hlook) as [Hne' _]. exact Hne'. }
    destruct (recorded_ok T (rateLimitStore st) who Hok) as [E|Hseq].
    + rewrite E in Hother. unfold in_window in Hother. cbn [List.filter] in Hother.
      destruct (lt (coin_rate rd) 0.01%float); congruence.
    + apply (sequence_ok_later T T'); [lia|].
      destruct (lt (coin_rate rd) 0.01%float); subst times; [|exact Hseq].
      apply sequence_ok_filter; assumption.
Qed.

Lemma table_ok_step T T' rd req st :
  chronological T rd T' ->
  table_ok T (rateLimitStore st) ->
  table_ok T' (rateLimitStore (snd (app target rd req st))).
Proof.
  intros Hc Hok. rewrite app_rate_table.
  assert (Hnow : T <= now_rate rd <= T') by (unfold chronological in Hc; lia).
  destruct (skipped req).
  - intros who times Hl. apply (sequence_ok_later T T'); [lia|exact (Hok who times Hl)].
  - apply (table_ok_classify T T'); assumption.
Qed.

(** X7. With a clock that does not run backwards, every sequence of
    timestamps in every reachable rate table is non-empty, in
    non-decreasing order and not ahead of the clock: an identity is on
    record only with at least one timestamp. *)
Theorem rate_table_sequences T st :
  reachable target T st ->
  forall who times,
    rateLimitStore st !! who = Some times ->
    times <> [] /\ StronglySorted Z.le times /\ Forall (fun t => t <= T) times.
Proof.
  induction 1 as [T|T T' rd req st Hreach IH Hc].
  - intros who times Hl. cbn in Hl. rewrite lookup_empty in Hl. discriminate.
  - exact (table_ok_step T T' rd req st Hc IH).
Qed.

End RateTable.

(* ===================================================================== *)
(** ** Routes *)
(* ===================================================================== *)

Section Routing.

Import Js Server.

Context `{Platform}.
Variable target : string.

(** *** Paths that end in a given suffix *)

Lemma substring_tail k : forall s m,
  (k + m = String.length s)%nat -> substring k m s = Text.drop k s.
Proof.
  induction k as [|k IH]; intros s m Hlen.
  - cbn [Text.drop]. cbn in Hlen. subst m. clear. induction s as [|c s IH]; [reflexivity|].
    cbn. rewrite IH. reflexivity.
  - destruct s as [|c s]; [cbn in Hlen; lia|]. cbn in Hlen. cbn. apply IH. lia.
Qed.

Lemma ci_equal_length a : forall b,
  Text.ci_equal a b = true -> String.length a = String.length b.
Proof.
  induction a as [|x a IH]; intros [|y b] E; cbn in E; try discriminate; [reflexivity|].
  apply andb_prop in E. cbn. f_equal. apply IH. tauto.
Qed.

(** Whether [a] ends in [suffix], case apart. *)
Definition ci_ends (a suffix : string) : bool :=
  (String.length suffix <=? String.length a)%nat
  && Text.ci_equal (Text.drop (String.length a - String.length suffix) a) suffix.

Lemma ci_equal_refl a : Text.ci_equal a a = true.
Proof.
  induction a as [|x a IH]; [reflexivity|]. cbn. rewrite IH.
  unfold Text.ci_eq. rewrite Ascii.eqb_refl. reflexivity.
Qed.

Lemma ci_equal_ends a p suffix :
  Text.ci_equal a p = true -> endsWith p suffix = true -> ci_ends a suffix = true.
Proof.
  intros E Hend. unfold endsWith in Hend. apply andb_prop in Hend.
  destruct Hend as [Hle Heq]. apply Nat.leb_le in Hle. apply String.eqb_eq in Heq.
  pose proof (ci_equal_length a p E) as Hlen.
  rewrite substring_tail in Heq by lia.
  unfold ci_ends. rewrite Hlen. apply andb_true_intro. split; [apply Nat.leb_le, Hle|].
  pose proof (drop_case (String.length p - String.length suffix) a p E) as Hd.
  rewrite Heq in Hd. exact Hd.
Qed.

Lemma route_ends pattern p suffix :
  ci_ends pattern suffix = false -> ci_ends (pattern ++ "/") suffix = false ->
  route pattern p = true -> endsWith p suffix = false.
Proof.
  intros N1 N2 Hr. apply not_true_is_false. intros Hend.
  unfold route in Hr. apply orb_prop in Hr. destruct Hr as [E|E].
  - rewrite (ci_equal_ends _ _ _ E Hend) in N1. discriminate.
  - rewrite (ci_equal_ends _ _ _ E Hend) in N2. discriminate.
Qed.




(** *** The two proof-of-work routes *)

Lemma routes_challenge rd req sc st :
  has_method "POST" req = true ->
  route "/api/challenge" (path req) = true ->
  routes target rd req sc st = (challenge rd, st).
Proof.
  unfold routes. intros Hm Hr. rewrite Hm. cbn [andb].
  rewrite (route_exclusive "/api/challenge" "/api/verify-human" (path req)
             eq_refl eq_refl eq_refl Hr).
  rewrite Hr. reflexivity.
Qed.

(** X9. [POST /api/challenge] answers every client, whatever the body, the
    user agent and the request rate, with status 200, a challenge of 32
    lower-case hexadecimal digits, difficulty 4 and the current time, and
    leaves the state as it was; the challenge is kept nowhere. *)
Theorem challenge_issued rd req st :
  startsWith (path req) "/api/" = true ->
  has_method "POST" req = true ->
  route "/api/challenge" (path req) = true ->
  exists c,
    app target rd req st
    = ({| status := 200; content := BChallenge c 4 (now_challenge rd) |}, st)
    /\ c = Hex.of_bytes (randomBytes (challenge_bytes rd) 16)
    /\ String.length c = 32%nat
    /\ every Hex.is_digit c = true.
Proof.
  intros Hapi Hpost Hroute. eexists. split; [|split; [reflexivity|split]].
  - rewrite (app_api target rd req st Hapi).
    rewrite (routes_challenge rd req unscored st Hpost Hroute). reflexivity.
  - rewrite of_bytes_length, randomBytes_length. reflexivity.
  - apply of_bytes_digits.
Qed.

(** *** Statuses *)

Lemma verify_human_status rd req sc st :
  let r := fst (verify_human target rd req sc st) in
  (status r = 200 /\ exists v, content r = BVerification v)
  \/ (status r = 400 /\ content r = BError "Missing required data")
  \/ (status r = 500 /\ content r = BException).
Proof.
  cbn zeta. unfold verify_human.
  destruct (prop (Some (body req)) "fingerprint") as [fp|];
    [|right; left; split; reflexivity].
  destruct (negb (truthy (Some fp)) || negb (truthy (prop (Some (body req)) "behaviors")));
    [right; left; split; reflexivity|].
  destruct (read_payload _ _); [|right; right; split; reflexivity].
  destruct (observe rd (md5_of_json fp) (getClientIP req) (fingerprintStore st)).
  left. split; [reflexivity|]. eexists. reflexivity.
Qed.

Lemma verify_pow_status rd req :
  let r := verify_pow rd req in
  (status r = 200 /\ exists valid reason, content r = BPow valid reason)
  \/ (status r = 400 /\ content r = BError "Missing required data")
  \/ (status r = 500 /\ content r = BException).
Proof.
  cbn zeta. unfold verify_pow.
  destruct (prop (Some (body req)) "challenge") as [c|];
    [|right; left; split; reflexivity].
  destruct (prop (Some (body req)) "nonce") as [n|];
    [|right; left; split; reflexivity].
  destruct (negb (truthy (Some c)) || negb (truthy (prop (Some (body req)) "timestamp")));
    [right; left; split; reflexivity|].
  destruct (ToNumber _ _ _) as [issued|]; [|right; right; split; reflexivity].
  destruct (gt _ _); [left; split; [reflexivity|eexists _, _; reflexivity]|].
  destruct (plus _ _ c n) as [[text|x]|];
    [left; split; [reflexivity|eexists _, _; reflexivity]
    |right; right; split; reflexivity
    |right; right; split; reflexivity].
Qed.





(** *** The verification route under another spelling *)

Lemma variant_classified req :
  route "/api/verify-human" (path req) = true ->
  startsWith (path req) "/api/" = false ->
  skipped req = false.
Proof.
  intros Hr Hapi. unfold skipped. rewrite Hapi.
  rewrite (route_ends "/api/verify-human" (path req) ".js" eq_refl eq_refl Hr).
  destruct (String.eqb_spec (path req) "/health") as [E|]; [|reflexivity].
  rewrite E in Hr. discriminate.
Qed.

(** X11. The classifier compares the path with [/api/] exactly, the router
    matches it without regard to case. A [POST] that reaches the
    verification route under another spelling (such as [/API/verify-human])
    is therefore classified first: the rate table records it, a total of 80
    or more answers it with the blank page without touching the ledger, and
    otherwise the handler runs on the classifier's score and signals, which
    go into the score and in front of the signals of the answer. *)
Theorem verification_route_is_classified_under_other_case rd req st :
  has_method "POST" req = true ->
  route "/api/verify-human" (path req) = true ->
  startsWith (path req) "/api/" = false ->
  let t := fst (classify rd req st) in
  let st' := snd (classify rd req st) in
  rateLimitStore (snd (app target rd req st)) = table_after rd req st
  /\ (ge (total t) 80%float = true ->
      app target rd req st = ({| status := 200; content := BInert |}, st'))
  /\ (ge (total t) 80%float = false ->
      app target rd req st
      = verify_human target rd req
          {| botScore := Some (total t); botSignals := Some (names t) |} st'
      /\ forall v,
           fst (app target rd req st)
           = {| status := 200; content := BVerification v |} ->
           exists fingerprint reported,
             prop (Some (body req)) "fingerprint" = Some fingerprint
             /\ payload_of req = Normal reported
             /\ score v
                = score_of (if number_truthy (total t) then total t else 0%float)
                    reported
                    (on_record_elsewhere st (md5_of_json fingerprint) (getClientIP req))
             /\ exists rest, signals v = names t ++ rest).
Proof.
  intros Hpost Hroute Hapi t st'.
  pose proof (variant_classified req Hroute Hapi) as Hskip.
  split; [rewrite app_rate_table, Hskip; reflexivity|].
  unfold app. rewrite (botDetection_classified rd req st Hskip). cbn zeta.
  fold t st'. split; intros Hb; rewrite Hb; [reflexivity|].
  rewrite (routes_verify_human target rd req _ st' Hpost Hroute).
  split; [reflexivity|]. intros v Hans.
  destruct (verify_human_answer target rd req _ st' v Hans)
    as (fp & r & Hfp & _ & _ & Hread & Hscore & _).
  exists fp, r. split; [exact Hfp|]. split; [exact Hread|]. split.
  - rewrite Hscore. unfold server_score, on_record_elsewhere. cbn [botScore].
    unfold st'. rewrite classify_ledger. reflexivity.
  - rewrite (verify_human_signals target rd req _ st' v fp r Hfp Hread Hans).
    cbn [botSignals]. eexists. reflexivity.
Qed.

End Routing.

(* ===================================================================== *)
(** ** The detector page *)
(* ===================================================================== *)

Section Page.

Import Js Server.

Context `{Platform}.
Variable target : string.



End Page.

(* ===================================================================== *)
(** ** Answers and the ledger *)
(* ===================================================================== *)

Section Answers.

Import Js Server.

Context `{Platform}.
Variable target : string.

(** X12. With a target configured, an answer of the verification handler
    carries a redirect target exactly when it is allowed: the page may test
    either field. *)
Theorem redirect_iff_allowed rd req sc st v :
  is_empty target = false ->
  fst (verify_human target rd req sc st)
  = {| status := 200; content := BVerification v |} ->
  (redirectUrl v = None <-> allowed v = false).
Proof.
  intros Hset Hans.
  destruct (verify_human_answer target rd req sc st v Hans)
    as (fp & r & _ & _ & _ & _ & _ & _ & Ha & Hr).
  rewrite Ha, Hr. unfold build_redirect. rewrite Hset.
  destruct (ge (score v) 80%float); cbn [negb andb]; [tauto|].
  split; [|discriminate].
  destruct (URL_new target) as [baseUrl|]; [|discriminate].
  destruct (assign URL_set_pathname _ _) as [u2|]; cbn [and_then]; [|discriminate].
  destruct (assign URL_set_search u2 _) as [u3|]; cbn [and_then]; discriminate.
Qed.

(** X13. The verification handler throws exactly when the fingerprint and
    the behaviors are there and a value of the payload cannot be converted
    to a primitive, as with a [clientScore] that is an object with a
    [toString] entry of its own. It throws before it looks at the ledger:
    the response is the 500 of Express and the state is as before. *)
Theorem unconvertible_payload rd req sc st :
  (fst (verify_human target rd req sc st) = thrown
   <-> truthy (prop (Some (body req)) "fingerprint") = true
       /\ truthy (prop (Some (body req)) "behaviors") = true
       /\ payload_of req = TypeError)
  /\ (fst (verify_human target rd req sc st) = thrown ->
      snd (verify_human target rd req sc st) = st)
  /\ (forall fs,
        prop (Some (body req)) "clientScore" = Some (JObj fs) ->
        field "toString" fs <> None ->
        payload_of req = TypeError).
Proof.
  split; [|split].
  - unfold verify_human, payload_of, thrown, missing.
    destruct (prop (Some (body req)) "fingerprint") as [fp|];
      [|cbn; split; [discriminate|intros (E & _); discriminate]].
    destruct (truthy (Some fp));
      [|cbn; split; [discriminate|intros (E & _); discriminate]].
    destruct (truthy (prop (Some (body req)) "behaviors"));
      [|cbn; split; [discriminate|intros (_ & E & _); discriminate]].
    cbn [negb orb].
    destruct (read_payload _ _) as [r|]; [|cbn; tauto].
    destruct (observe rd (md5_of_json fp) (getClientIP req) (fingerprintStore st)).
    cbn. split; [discriminate|intros (_ & _ & E); discriminate].
  - unfold verify_human, thrown, missing.
    destruct (prop (Some (body req)) "fingerprint") as [fp|]; [|reflexivity].
    destruct (negb (truthy (Some fp)) || negb (truthy (prop (Some (body req)) "behaviors")));
      [reflexivity|].
    destruct (read_payload _ _) as [r|]; [|reflexivity].
    destruct (observe rd (md5_of_json fp) (getClientIP req) (fingerprintStore st)).
    cbn. discriminate.
  - intros fs Hc Hown. unfold payload_of, read_payload, or_zero. rewrite Hc.
    cbn [truthy ToNumber]. unfold shadows_toString.
    destruct (field "toString" fs); [reflexivity|contradiction].
Qed.

(** *** Who writes the ledger *)

Lemma routes_verification rd req sc st v :
  fst (routes target rd req sc st)
  = {| status := 200; content := BVerification v |} ->
  has_method "POST" req = true
  /\ route "/api/verify-human" (path req) = true
  /\ routes target rd req sc st = verify_human target rd req sc st.
Proof.
  unfold routes.
  destruct (has_method "POST" req && route "/api/verify-human" (path req)) eqn:E.
  - apply andb_prop in E. tauto.
  - destruct (has_method "POST" req && route "/api/challenge" (path req));
      [cbn; discriminate|].
    destruct (has_method "POST" req && route "/api/verify-pow" (path req)).
    + cbn [fst]. intros Hv.
      destruct (verify_pow_status rd req) as [(_ & a & b & C)|[(_ & C)|(_ & C)]];
        cbn zeta in C; rewrite Hv in C; discriminate.
    + repeat match goal with
             | |- context [if ?c then _ else _] => destruct c
             end; cbn; discriminate.
Qed.

Lemma app_verification rd req st v :
  fst (app target rd req st) = {| status := 200; content := BVerification v |} ->
  exists sc st',
    has_method "POST" req = true
    /\ route "/api/verify-human" (path req) = true
    /\ app target rd req st = verify_human target rd req sc st'
    /\ fingerprintStore st' = fingerprintStore st.
Proof.
  unfold app. destruct (skipped req) eqn:Hskip.
  - rewrite (botDetection_skipped rd req st Hskip). intros Hv.
    destruct (routes_verification rd req _ _ v Hv) as (Hp & Hr & E).
    exists unscored, st. repeat split; assumption.
  - rewrite (botDetection_classified rd req st Hskip). cbn zeta.
    destruct (ge (total (fst (classify rd req st))) 80%float); [cbn; discriminate|].
    intros Hv. destruct (routes_verification rd req _ _ v Hv) as (Hp & Hr & E).
    eexists _, _. split; [exact Hp|]. split; [exact Hr|]. split; [exact E|].
    apply classify_ledger.
Qed.

Lemma app_ledger_change rd req st :
  fingerprintStore (snd (app target rd req st)) <> fingerprintStore st ->
  exists v, fst (app target rd req st) = {| status := 200; content := BVerification v |}.
Proof.
  intros Hchange.
  assert (Hvh : forall sc st0, fingerprintStore st0 = fingerprintStore st ->
            fingerprintStore (snd (verify_human target rd req sc st0))
            <> fingerprintStore st ->
            exists v, fst (verify_human target rd req sc st0)
                      = {| status := 200; content := BVerification v |}).
  { intros sc st0 E Hc.
    destruct (verify_human_status target rd req sc st0)
      as [(S & v & C)|[(S & C)|(S & C)]]; cbn zeta in *.
    - exists v. destruct (fst (verify_human target rd req sc st0)); cbn in *.
      subst. reflexivity.
    - exfalso. apply Hc. rewrite <- E. revert S C. unfold verify_human.
      destruct (prop (Some (body req)) "fingerprint") as [fp|]; [|reflexivity].
      destruct (negb (truthy (Some fp))
                || negb (truthy (prop (Some (body req)) "behaviors"))); [reflexivity|].
      destruct (read_payload _ _); [|reflexivity].
      destruct (observe rd (md5_of_json fp) (getClientIP req) (fingerprintStore st0)).
      cbn. discriminate.
    - exfalso. apply Hc. rewrite <- E. revert S C. unfold verify_human.
      destruct (prop (Some (body req)) "fingerprint") as [fp|]; [|reflexivity].
      destruct (negb (truthy (Some fp))
                || negb (truthy (prop (Some (body req)) "behaviors"))); [reflexivity|].
      destruct (read_payload _ _); [|reflexivity].
      destruct (observe rd (md5_of_json fp) (getClientIP req) (fingerprintStore st0)).
      cbn. discriminate. }
  assert (Hroutes : forall sc st0, fingerprintStore st0 = fingerprintStore st ->
            fingerprintStore (snd (routes target rd req sc st0)) <> fingerprintStore st ->
            exists v, fst (routes target rd req sc st0)
                      = {| status := 200; content := BVerification v |}).
  { intros sc st0 E. unfold routes.
    destruct (has_method "POST" req && route "/api/verify-human" (path req));
      [apply Hvh, E|].
    repeat match goal with
           | |- context [if ?c then _ else _] => destruct c
           end; cbn [snd]; intros Hc; contradiction. }
  revert Hchange. unfold app. destruct (skipped req) eqn:Hskip.
  - rewrite (botDetection_skipped rd req st Hskip). apply Hroutes. reflexivity.
  - rewrite (botDetection_classified rd req st Hskip). cbn zeta.
    destruct (ge (total (fst (classify rd req st))) 80%float).
    + cbn [snd]. rewrite classify_ledger. contradiction.
    + apply Hroutes, classify_ledger.
Qed.

(** X14. Only an answered verification writes the ledger: every other
    request, the refused and the throwing ones included, leaves it as it
    was. An answered verification writes one record, under the digest of
    its fingerprint; a record that was not there before is that one, filed
    under the identity of the request with count 1. When the sweep is drawn
    (one request in a hundred) no record last seen more than 24 hours
    before it is left. *)
Theorem ledger_writes rd req st :
  let before := fingerprintStore st in
  let after := fingerprintStore (snd (app target rd req st)) in
  (after <> before ->
   exists v, fst (app target rd req st)
             = {| status := 200; content := BVerification v |})
  /\ (forall v,
        fst (app target rd req st) = {| status := 200; content := BVerification v |} ->
        exists fp,
          prop (Some (body req)) "fingerprint" = Some fp
          /\ after = swept rd (<[md5_of_json fp :=
                                   observed rd (getClientIP req)
                                     (before !! md5_of_json fp)]> before)
          /\ (forall h r,
                after !! h = Some r -> before !! h = None ->
                h = md5_of_json fp
                /\ r = {| ip := getClientIP req; count := 1;
                          firstSeen := now_first rd; lastSeen := now_last rd |})
          /\ (lt (coin_ledger rd) 0.01%float = true ->
              forall h r, after !! h = Some r -> now_sweep rd - lastSeen r <= maxAge)).
Proof.
  cbn zeta. split; [apply app_ledger_change|].
  intros v Hv.
  destruct (app_verification rd req st v Hv) as (sc & st' & Hp & Hr & Happ & Hst).
  rewrite Happ in Hv |- *.
  destruct (verify_human_answer target rd req sc st' v Hv)
    as (fp & r & Hfp & Tf & Tb & Hread & _).
  exists fp. split; [exact Hfp|].
  rewrite (verify_human_state target rd req sc st' fp r Hfp Tf Tb Hread).
  cbn [snd fingerprintStore]. rewrite Hst.
  split; [reflexivity|]. split.
  - intros h r0 Hafter Hnew. apply swept_lookup in Hafter.
    destruct (decide (md5_of_json fp = h)) as [<-|Hne].
    + rewrite lookup_insert_eq in Hafter. rewrite Hnew in Hafter.
      injection Hafter as <-. split; reflexivity.
    + rewrite lookup_insert_ne in Hafter by assumption. congruence.
  - intros Hcoin h r0. unfold swept. rewrite Hcoin. unfold ledger_sweep.
    intros Hl. apply map_lookup_filter_Some in Hl. destruct Hl as [_ Hfresh].
    cbn in Hfresh. lia.
Qed.

End Answers.

(* ===================================================================== *)
(** ** The hash of the canvas fingerprint *)
(* ===================================================================== *)

Section Hashing.

Import Js Detector.

(** The polynomial [h * 31^n + c1 * 31^(n-1) + ... + cn] over the code
    units of a string, in unbounded integers. *)
Fixpoint polynomial (h : Z) (str : string) : Z :=
  match str with
  | EmptyString => h
  | String c rest => polynomial (31 * h + Z.of_nat (nat_of_ascii c)) rest
  end.

Lemma to_int32_range z : -2147483648 <= to_int32 z < 2147483648.
Proof.
  unfold to_int32.
  pose proof (Z.mod_pos_bound (z + 2147483648) 4294967296 ltac:(lia)). lia.
Qed.

Lemma to_int32_wraps z : exists k, to_int32 z = z + k * 4294967296.
Proof.
  unfold to_int32. exists (- ((z + 2147483648) / 4294967296)).
  pose proof (Z.div_mod (z + 2147483648) 4294967296 ltac:(lia)). lia.
Qed.

Lemma to_int32_shift z k : to_int32 (z + k * 4294967296) = to_int32 z.
Proof.
  unfold to_int32.
  replace (z + k * 4294967296 + 2147483648) with (z + 2147483648 + k * 4294967296)
    by lia.
  rewrite Z.mod_add by lia. reflexivity.
Qed.

Lemma to_int32_fixed z : -2147483648 <= z < 2147483648 -> to_int32 z = z.
Proof. intros Hz. unfold to_int32. rewrite Z.mod_small by lia. lia. Qed.

Lemma hash_step h c :
  to_int32 (to_int32 (to_int32 h * 32) - to_int32 h + c) = to_int32 (31 * h + c).
Proof.
  destruct (to_int32_wraps h) as [k1 ->].
  destruct (to_int32_wraps ((h + k1 * 4294967296) * 32)) as [k2 ->].
  replace ((h + k1 * 4294967296) * 32 + k2 * 4294967296 - (h + k1 * 4294967296) + c)
    with (31 * h + c + (31 * k1 + k2) * 4294967296) by lia.
  apply to_int32_shift.
Qed.

Lemma hash_loop_polynomial str : forall h,
  hash_loop (to_int32 h) str = to_int32 (polynomial h str).
Proof.
  induction str as [|c rest IH]; intros h; [reflexivity|].
  cbn [hash_loop polynomial]. rewrite hash_step. apply IH.
Qed.

Lemma hash_loop_range str h :
  -2147483648 <= h < 2147483648 ->
  -2147483648 <= hash_loop h str < 2147483648.
Proof.
  intros Hh. rewrite <- (to_int32_fixed h Hh), hash_loop_polynomial.
  apply to_int32_range.
Qed.

(** *** Printing in base 36 *)

Definition is_digit36 (c : ascii) : bool :=
  let n := nat_of_ascii c in
  (((48 <=? n) && (n <=? 57)) || ((97 <=? n) && (n <=? 122)))%nat.

Lemma digit36_code d :
  0 <= d < 36 ->
  Z.of_nat (nat_of_ascii (digit36 d)) = if d <? 10 then 48 + d else 87 + d.
Proof.
  intros Hd. unfold digit36. rewrite nat_ascii_embedding.
  - rewrite Z2Nat.id; [reflexivity|]. destruct (d <? 10); lia.
  - destruct (Z.ltb_spec d 10); lia.
Qed.

Lemma digit36_is_digit d : 0 <= d < 36 -> is_digit36 (digit36 d) = true.
Proof.
  intros Hd. pose proof (digit36_code d Hd) as Hc. unfold is_digit36.
  destruct (Z.ltb_spec d 10).
  - apply orb_true_intro. left. apply andb_true_intro.
    split; apply Nat.leb_le; lia.
  - apply orb_true_intro. right. apply andb_true_intro.
    split; apply Nat.leb_le; lia.
Qed.

Lemma digit36_injective d e :
  0 <= d < 36 -> 0 <= e < 36 -> digit36 d = digit36 e -> d = e.
Proof.
  intros Hd He E. pose proof (digit36_code d Hd) as Cd.
  pose proof (digit36_code e He) as Ce. rewrite E in Cd. rewrite Cd in Ce.
  destruct (Z.ltb_spec d 10), (Z.ltb_spec e 10); lia.
Qed.

Lemma base36_unfold fuel z acc :
  base36 (S fuel) z acc
  = if z <? 36 then String (digit36 (z mod 36)) acc
    else base36 fuel (z / 36) (String (digit36 (z mod 36)) acc).
Proof. reflexivity. Qed.

(** What [base36] puts in front of the accumulator. *)
Lemma base36_digits fuel : forall z acc,
  exists digits,
    base36 fuel z acc = (digits ++ acc)%string
    /\ every is_digit36 digits = true
    /\ (String.length digits <= fuel)%nat
    /\ (0 < fuel -> 0 < String.length digits)%nat.
Proof.
  induction fuel as [|fuel IH]; intros z acc.
  - exists EmptyString. cbn. repeat split; lia.
  - rewrite base36_unfold.
    assert (Hd : is_digit36 (digit36 (z mod 36)) = true)
      by (apply digit36_is_digit, Z.mod_pos_bound; lia).
    destruct (z <? 36).
    + exists (String (digit36 (z mod 36)) EmptyString). cbn [every String.length].
      rewrite Hd. repeat split; lia.
    + destruct (IH (z / 36) (String (digit36 (z mod 36)) acc))
        as (digits & -> & Hall & Hlen & _).
      exists (digits ++ String (digit36 (z mod 36)) EmptyString)%string.
      rewrite every_app, Hall. cbn [every]. rewrite Hd.
      rewrite length_app. cbn [String.length].
      split; [rewrite append_assoc; reflexivity|]. repeat split; lia.
Qed.

Lemma base36_length fuel z acc :
  (String.length (base36 fuel z acc) <= fuel + String.length acc)%nat
  /\ (0 < fuel -> String.length acc < String.length (base36 fuel z acc))%nat.
Proof.
  destruct (base36_digits fuel z acc) as (digits & -> & _ & Hlen & Hpos).
  rewrite length_app. split; [lia|]. intros Hf. specialize (Hpos Hf). lia.
Qed.

Lemma base36_injective fuel : forall z z' acc acc',
  0 <= z < 36 ^ Z.of_nat fuel -> 0 <= z' < 36 ^ Z.of_nat fuel ->
  String.length acc = String.length acc' ->
  base36 fuel z acc = base36 fuel z' acc' -> z = z' /\ acc = acc'.
Proof.
  induction fuel as [|fuel IH]; intros z z' acc acc' Hz Hz' Hlen E.
  - cbn in Hz, Hz'. split; [lia|exact E].
  - rewrite Nat2Z.inj_succ, Z.pow_succ_r in Hz, Hz' by lia.
    rewrite !base36_unfold in E.
    assert (Hm : 0 <= z mod 36 < 36) by (apply Z.mod_pos_bound; lia).
    assert (Hm' : 0 <= z' mod 36 < 36) by (apply Z.mod_pos_bound; lia).
    destruct (Z.ltb_spec z 36) as [Hs|Hl], (Z.ltb_spec z' 36) as [Hs'|Hl'].
    + injection E as Ed Ea. apply digit36_injective in Ed; [|assumption..].
      rewrite !Z.mod_small in Ed by lia. split; assumption.
    + exfalso. apply (f_equal String.length) in E. cbn [String.length] in E.
      destruct fuel as [|fuel]; [cbn in Hz'; lia|].
      pose proof (proj2 (base36_length (S fuel) (z' / 36)
                           (String (digit36 (z' mod 36)) acc')) ltac:(lia)) as Hgrow.
      cbn [String.length] in Hgrow. lia.
    + exfalso. apply (f_equal String.length) in E. cbn [String.length] in E.
      destruct fuel as [|fuel]; [cbn in Hz; lia|].
      pose proof (proj2 (base36_length (S fuel) (z / 36)
                           (String (digit36 (z mod 36)) acc)) ltac:(lia)) as Hgrow.
      cbn [String.length] in Hgrow. lia.
    + destruct (IH (z / 36) (z' / 36) (String (digit36 (z mod 36)) acc)
                   (String (digit36 (z' mod 36)) acc')) as [Hq Ha].
      * split; [apply Z.div_pos; lia|apply Z.div_lt_upper_bound; lia].
      * split; [apply Z.div_pos; lia|apply Z.div_lt_upper_bound; lia].
      * cbn [String.length]. lia.
      * exact E.
      * injection Ha as Ed Ea. apply digit36_injective in Ed; [|assumption..].
        split; [|exact Ea].
        rewrite (Z.div_mod z 36), (Z.div_mod z' 36) by lia. lia.
Qed.

Lemma base36_head fuel z acc :
  exists c rest, base36 (S fuel) z acc = String c rest /\ is_digit36 c = true.
Proof.
  destruct (base36_digits (S fuel) z acc) as (digits & -> & Hall & _ & Hpos).
  destruct digits as [|c digits]; [specialize (Hpos ltac:(lia)); cbn in Hpos; lia|].
  exists c, (digits ++ acc)%string. split; [reflexivity|].
  cbn [every] in Hall. apply andb_prop in Hall. tauto.
Qed.

Lemma append_empty_r (s : string) : (s ++ EmptyString)%string = s.
Proof.
  induction s as [|c s IH]; [reflexivity|].
  change (String c (s ++ EmptyString)%string = String c s). f_equal. exact IH.
Qed.

(** The number [simpleHash] prints. *)
Definition hash_of (str : string) : Z := hash_loop 0 str.

(** X15. [simpleHash] computes the polynomial hash with multiplier 31 over
    the code units of its argument, reduced to a signed 32-bit integer (the
    shift, the subtraction and [hash & hash] of each round amount to
    [31 * hash + char] modulo 2^32). It prints the result in base 36: an
    optional minus sign followed by one to seven digits out of [0-9a-z],
    never the empty text. *)
Theorem simpleHash_polynomial str :
  hash_of str = to_int32 (polynomial 0 str)
  /\ -2147483648 <= hash_of str < 2147483648
  /\ exists digits,
       simpleHash str = ((if (hash_of str <? 0)%Z then "-" else "") ++ digits)%string
       /\ every is_digit36 digits = true
       /\ (1 <= String.length digits <= 7)%nat.
Proof.
  assert (Hpoly : hash_of str = to_int32 (polynomial 0 str)).
  { unfold hash_of. rewrite <- (hash_loop_polynomial str 0). reflexivity. }
  split; [exact Hpoly|]. split; [rewrite Hpoly; apply to_int32_range|].
  unfold simpleHash. fold (hash_of str).
  destruct (hash_of str <? 0).
  - destruct (base36_digits 7 (- hash_of str) EmptyString)
      as (digits & E & Hall & Hlen & Hpos).
    exists digits. rewrite E, append_empty_r.
    split; [reflexivity|]. split; [exact Hall|].
    specialize (Hpos ltac:(lia)). lia.
  - destruct (base36_digits 7 (hash_of str) EmptyString)
      as (digits & E & Hall & Hlen & Hpos).
    exists digits. rewrite E, append_empty_r.
    split; [reflexivity|]. split; [exact Hall|].
    specialize (Hpos ltac:(lia)). lia.
Qed.

(** X16. The text [simpleHash] returns determines the 32-bit hash: two
    strings get the same text exactly when their hashes are equal, so seven
    digits are enough and nothing is lost in printing. *)
Theorem simpleHash_text_is_faithful str str' :
  simpleHash str = simpleHash str' <-> hash_of str = hash_of str'.
Proof.
  split; [|unfold simpleHash, hash_of; intros ->; reflexivity].
  pose proof (hash_loop_range str 0 ltac:(lia)) as Hr.
  pose proof (hash_loop_range str' 0 ltac:(lia)) as Hr'.
  unfold simpleHash, hash_of.
  assert (Hpow : 36 ^ Z.of_nat 7 = 78364164096) by reflexivity.
  destruct (Z.ltb_spec (hash_loop 0 str) 0) as [Hn|Hp],
           (Z.ltb_spec (hash_loop 0 str') 0) as [Hn'|Hp']; intros E.
  - remember (base36 7 (- hash_loop 0 str) EmptyString) as a eqn:Ea.
    remember (base36 7 (- hash_loop 0 str') EmptyString) as b eqn:Eb.
    injection E as E. subst a b.
    apply base36_injective in E; [lia|lia|lia|reflexivity].
  - exfalso. destruct (base36_head 6 (hash_loop 0 str') EmptyString)
      as (c & rest & Eh & Hc). rewrite Eh in E. injection E as <- _. discriminate.
  - exfalso. destruct (base36_head 6 (hash_loop 0 str) EmptyString)
      as (c & rest & Eh & Hc). rewrite Eh in E. injection E as -> _. discriminate.
  - apply base36_injective in E; [lia|lia|lia|reflexivity].
Qed.

End Hashing.

(* ===================================================================== *)
(** ** The font probe *)
(* ===================================================================== *)

Section Fonts.

Import Js Detector.

Variable ctx : Context2D.

(** Whether [font] measures differently from the fallback [baseFont]
    alone (line 402). *)
Definition measures_apart (font baseFont : string) : bool :=
  negb (PrimFloat.eqb (measured_width ctx ("72px " ++ font ++ ", " ++ baseFont))
                      (measured_width ctx ("72px " ++ baseFont))).

(** Lines 398-407 for one font. *)
Definition probe (bases : list string) (detectedFonts : list string) (font : string)
    : list string :=
  fold_left
    (fun (acc : list string) (baseFont : string) =>
       if measures_apart font baseFont
       then if existsb (String.eqb font) acc then acc else acc ++ [font]
       else acc)
    bases detectedFonts.

Lemma existsb_snoc font acc : existsb (String.eqb font) (acc ++ [font]) = true.
Proof.
  rewrite existsb_app. cbn. rewrite String.eqb_refl. apply orb_true_r.
Qed.

Lemma probe_result bases : forall acc font,
  probe bases acc font
  = if existsb (measures_apart font) bases && negb (existsb (String.eqb font) acc)
    then acc ++ [font] else acc.
Proof.
  unfold probe. induction bases as [|b bases IH]; intros acc font; [reflexivity|].
  cbn [fold_left existsb]. rewrite IH.
  destruct (measures_apart font b); cbn [orb].
  - destruct (existsb (String.eqb font) acc) eqn:Hmem.
    + rewrite Hmem, andb_false_r. reflexivity.
    + rewrite existsb_snoc, andb_false_r. reflexivity.
  - reflexivity.
Qed.

Lemma existsb_eqb_In font acc : existsb (String.eqb font) acc = true <-> In font acc.
Proof.
  rewrite existsb_exists. split.
  - intros (x & Hin & E%String.eqb_eq). subst. exact Hin.
  - intros Hin. exists font. split; [exact Hin|apply String.eqb_refl].
Qed.

Lemma probes_result bases fonts : forall acc,
  List.NoDup fonts -> (forall font, In font fonts -> ~ In font acc) ->
  fold_left (probe bases) fonts acc
  = acc ++ List.filter (fun font => existsb (measures_apart font) bases) fonts.
Proof.
  induction fonts as [|font fonts IH]; intros acc Hnd Hfresh.
  - cbn. symmetry. apply List.app_nil_r.
  - apply List.NoDup_cons_iff in Hnd. destruct Hnd as [Hnot Hnd].
    cbn [fold_left List.filter]. rewrite probe_result.
    assert (Hmem : existsb (String.eqb font) acc = false).
    { apply not_true_is_false. intros Hin%existsb_eqb_In.
      exact (Hfresh font (or_introl eq_refl) Hin). }
    rewrite Hmem, andb_true_r.
    destruct (existsb (measures_apart font) bases).
    + rewrite IH; [rewrite <- List.app_assoc; reflexivity|exact Hnd|].
      intros f Hf [Hin|Hin]%List.in_app_or.
      * exact (Hfresh f (or_intror Hf) Hin).
      * destruct Hin as [<-|[]]. exact (Hnot Hf).
    + apply IH; [exact Hnd|]. intros f Hf. apply Hfresh. right. exact Hf.
Qed.

Lemma testFonts_distinct : List.NoDup testFonts.
Proof.
  unfold testFonts.
  repeat (apply List.NoDup_cons;
          [cbn; intros Hin;
           repeat (destruct Hin as [Hin|Hin]; [discriminate|]); exact Hin|]).
  apply List.NoDup_nil.
Qed.

End Fonts.

Section FontProbe.

Import Js Detector.

(** X17. With a 2D context, [getFontFingerprint] returns the fonts of its
    test list that measure differently from at least one of the three
    fallback fonts, in the order of the test list and each once; without a
    context (none returned, or [getContext] throwing) it throws, as nothing
    guards the probe. *)
Theorem font_fingerprint env :
  (forall ctx,
     context2d env = Returns (Some ctx) ->
     exists fonts,
       getFontFingerprint env = Ok fonts
       /\ fonts = List.filter
                    (fun font => existsb (measures_apart ctx font) baseFonts)
                    testFonts
       /\ List.NoDup fonts
       /\ (forall font,
             In font fonts
             <-> In font testFonts
                 /\ exists baseFont, In baseFont baseFonts
                                     /\ measures_apart ctx font baseFont = true))
  /\ (context2d env = Returns None \/ context2d env = Raises ->
      getFontFingerprint env = Throw).
Proof.
  split.
  - intros ctx Hctx. eexists. split; [|split; [reflexivity|split]].
    + unfold getFontFingerprint. rewrite Hctx. cbn [lift deref bind].
      change (fold_left _ testFonts [])
        with (fold_left (probe ctx baseFonts) testFonts []).
      rewrite (probes_result ctx baseFonts testFonts [] testFonts_distinct);
        [reflexivity|]. intros font _ [].
    + apply List.NoDup_filter, testFonts_distinct.
    + intros font. rewrite List.filter_In, existsb_exists. reflexivity.
  - unfold getFontFingerprint. intros [-> | ->]; reflexivity.
Qed.

End FontProbe.

(* ===================================================================== *)
(** ** The score of the detector *)
(* ===================================================================== *)

Section DetectorScore.

Import Js Detector.

Variable config : Config.
Variable env : Browser.

Lemma push_if_length c name l :
  (List.length l <= List.length (push_if c name l) <= S (List.length l))%nat.
Proof. destruct c; cbn; [rewrite List.length_app; cbn|]; lia. Qed.

Ltac bound_pushes :=
  repeat match goal with
         | |- context [push_if ?c ?n ?l] =>
             let Hp := fresh in
             pose proof (push_if_length c n l) as Hp;
             generalize dependent (push_if c n l); intros
         | H : context [push_if ?c ?n ?l] |- _ =>
             let Hp := fresh in
             pose proof (push_if_length c n l) as Hp;
             generalize dependent (push_if c n l); intros
         end;
  cbn [List.length] in *; lia.

(** What each check adds to the score. *)
Definition cdp_points : Z := if stack_serialized env then cdpWeight config else 0.

Definition webdriver_flag : bool :=
  match webdriver (navigator env) with Some true => true | _ => false end.

Definition permission_points : Z :=
  match permissions (navigator env) with QuerySettled true => 20 | _ => 0 end.

Definition headless_points (signals : list string) : Z :=
  Z.min (Z.of_nat (List.length signals) * 15) 45.

Definition navigator_points (issues : list string) : Z :=
  if (0 <? List.length issues)%nat
  then Z.min (Z.of_nat (List.length issues) * 10) (navigatorWeight config)
  else 0.

Definition fingerprint_points (fp : Fingerprint) : Z :=
  match fp_canvas fp, fp_webgl fp with
  | Some _, Some _ => 0
  | _, _ => 15
  end.

Lemma detectCDP_effect s :
  score (detectCDP config env s) = score s + cdp_points
  /\ checks (detectCDP config env s)
     = {| cdp := Some (stack_serialized env);
          check_webdriver := check_webdriver (checks s);
          headlessSignals := headlessSignals (checks s);
          permissionInconsistency := permissionInconsistency (checks s);
          navigatorIssues := navigatorIssues (checks s);
          automationArtifacts := automationArtifacts (checks s);
          behaviorScore := behaviorScore (checks s) |}.
Proof.
  unfold detectCDP, cdp_points. destruct (stack_serialized env); cbn; split;
    try reflexivity; lia.
Qed.

Lemma detectWebDriver_effect s :
  score (detectWebDriver env s) = score s + (if webdriver_flag then 45 else 0)
  /\ checks (detectWebDriver env s)
     = {| cdp := cdp (checks s);
          check_webdriver := Some webdriver_flag;
          headlessSignals := headlessSignals (checks s);
          permissionInconsistency := permissionInconsistency (checks s);
          navigatorIssues := navigatorIssues (checks s);
          automationArtifacts := automationArtifacts (checks s);
          behaviorScore := behaviorScore (checks s) |}.
Proof.
  unfold detectWebDriver, webdriver_flag.
  destruct (webdriver (navigator env)) as [[|]|]; cbn; split; try reflexivity; lia.
Qed.

Lemma detectHeadless_effect s s' :
  detectHeadless env s = Ok s' ->
  exists signals,
    (List.length signals <= 6)%nat
    /\ score s' = score s + permission_points + headless_points signals
    /\ checks s'
       = {| cdp := cdp (checks s);
            check_webdriver := check_webdriver (checks s);
            headlessSignals := Some signals;
            permissionInconsistency :=
              match permissions (navigator env) with
              | QuerySettled true => Some true
              | _ => permissionInconsistency (checks s)
              end;
            navigatorIssues := navigatorIssues (checks s);
            automationArtifacts := automationArtifacts (checks s);
            behaviorScore := behaviorScore (checks s) |}.
Proof.
  unfold detectHeadless, permission_points, headless_points.
  destruct (plugins (navigator env)) as [np|]; [|discriminate].
  destruct (mimeTypes (navigator env)) as [nm|]; [|discriminate].
  cbn [deref bind].
  match goal with
  | |- context [push_if ?c "phantomjs"%string ?l] =>
      set (signals := push_if c "phantomjs"%string l)
  end.
  intros [= <-]. exists signals.
  assert (Hlen : (List.length signals <= 6)%nat).
  { unfold signals.
    bound_pushes. }
  split; [exact Hlen|].
  assert (Hzero : (0 <? List.length signals)%nat = false -> List.length signals = 0%nat).
  { intros Hz%Nat.ltb_ge. lia. }
  unfold checkPermissionsAsync.
  destruct (permissions (navigator env)) as [| | |[|]];
    destruct (0 <? List.length signals)%nat eqn:Hpos; cbn [add score checks];
    cbn [cdp check_webdriver headlessSignals permissionInconsistency navigatorIssues
         automationArtifacts behaviorScore];
    (split; [|reflexivity]); try rewrite (Hzero eq_refl); cbn; lia.
Qed.

Lemma checkNavigatorInconsistencies_effect s :
  exists issues,
    (List.length issues <= 5)%nat
    /\ score (checkNavigatorInconsistencies config env s)
       = score s + navigator_points issues
    /\ checks (checkNavigatorInconsistencies config env s)
       = {| cdp := cdp (checks s);
            check_webdriver := check_webdriver (checks s);
            headlessSignals := headlessSignals (checks s);
            permissionInconsistency := permissionInconsistency (checks s);
            navigatorIssues := Some issues;
            automationArtifacts := automationArtifacts (checks s);
            behaviorScore := behaviorScore (checks s) |}.
Proof.
  unfold checkNavigatorInconsistencies, navigator_points.
  match goal with
  | |- context [push_if ?c "vendor-mismatch"%string ?l] =>
      set (issues := push_if c "vendor-mismatch"%string l)
  end.
  exists issues.
  assert (Hlen : (List.length issues <= 5)%nat).
  { unfold issues.
    bound_pushes. }
  split; [exact Hlen|].
  destruct (0 <? List.length issues)%nat; cbn; split; try reflexivity; lia.
Qed.

Lemma checkAutomationArtifacts_effect s s' :
  checkAutomationArtifacts env s = Ok s' ->
  exists artifacts,
    (List.length artifacts <= 5)%nat
    /\ score s' = score s + (if (0 <? List.length artifacts)%nat then 50 else 0)
    /\ checks s'
       = {| cdp := cdp (checks s);
            check_webdriver := check_webdriver (checks s);
            headlessSignals := headlessSignals (checks s);
            permissionInconsistency := permissionInconsistency (checks s);
            navigatorIssues := navigatorIssues (checks s);
            automationArtifacts := Some artifacts;
            behaviorScore := behaviorScore (checks s) |}.
Proof.
  unfold checkAutomationArtifacts.
  match goal with
  | |- context [bind ?r _] => destruct r as [selenium|] eqn:Hsel
  end; [|discriminate].
  cbn [bind].
  match goal with
  | |- context [push_if ?c "nightmare"%string ?l] =>
      set (artifacts := push_if c "nightmare"%string l)
  end.
  intros [= <-]. exists artifacts.
  assert (Hlen : (List.length artifacts <= 5)%nat).
  { unfold artifacts.
    bound_pushes. }
  split; [exact Hlen|].
  destruct (0 <? List.length artifacts)%nat; cbn; split; try reflexivity; lia.
Qed.

Lemma generateFingerprint_effect s s' fp :
  generateFingerprint env s = Ok (s', fp) ->
  score s' = score s + fingerprint_points fp /\ checks s' = checks s.
Proof.
  unfold generateFingerprint, fingerprint_points.
  destruct (getFontFingerprint env) as [fonts|]; [|discriminate]. cbn [bind].
  intros [= <- <-]. cbn [fp_canvas fp_webgl].
  destruct (getCanvasFingerprint env), (getWebGLFingerprint env); cbn; split;
    try reflexivity; lia.
Qed.

(** X18. Whenever [detect()] produces a result, its score is the sum of
    what the checks added: the CDP weight, 45 for the WebDriver flag, 20 for
    a settled permission inconsistency, 15 per headless signal up to 45, 10
    per navigator issue up to the navigator weight, 50 for any automation
    artifact and 15 for a missing canvas or WebGL fingerprint. The result
    has every field of [checks] that the server reads ([cdp], [webdriver],
    [headlessSignals], [automationArtifacts]), lists of at most 6, 5 and 5
    names, [behaviorScore] 0 and behaviors that are all false. With weights
    that are not negative the score lies between 0 and the two weights plus
    175. *)
Theorem detect_score d :
  detect config env = Ok d ->
  exists signals issues artifacts,
    cdp (final_checks d) = Some (stack_serialized env)
    /\ check_webdriver (final_checks d) = Some webdriver_flag
    /\ headlessSignals (final_checks d) = Some signals
    /\ navigatorIssues (final_checks d) = Some issues
    /\ automationArtifacts (final_checks d) = Some artifacts
    /\ behaviorScore (final_checks d) = Some 0
    /\ behaviors d = idle
    /\ (List.length signals <= 6 /\ List.length issues <= 5
        /\ List.length artifacts <= 5)%nat
    /\ final_score d
       = cdp_points + (if webdriver_flag then 45 else 0) + permission_points
         + headless_points signals + navigator_points issues
         + (if (0 <? List.length artifacts)%nat then 50 else 0)
         + fingerprint_points (fingerprint d)
    /\ isBot d = (threshold config <=? final_score d)
    /\ (0 <= cdpWeight config -> 0 <= navigatorWeight config ->
        0 <= final_score d <= cdpWeight config + navigatorWeight config + 175).
Proof.
  unfold detect.
  destruct (detectCDP_effect fresh) as [S1 C1].
  destruct (detectWebDriver_effect (detectCDP config env fresh)) as [S2 C2].
  destruct (detectHeadless env (detectWebDriver env (detectCDP config env fresh)))
    as [s3|] eqn:E3; [|discriminate]. cbn [bind].
  destruct (detectHeadless_effect _ _ E3) as (signals & L3 & S3 & C3).
  destruct (checkNavigatorInconsistencies_effect s3) as (issues & L4 & S4 & C4).
  destruct (checkAutomationArtifacts env (checkNavigatorInconsistencies config env s3))
    as [s5|] eqn:E5; [|discriminate]. cbn [bind].
  destruct (checkAutomationArtifacts_effect _ _ E5) as (artifacts & L5 & S5 & C5).
  destruct (generateFingerprint env s5) as [[s6 fp]|] eqn:E6; [|discriminate].
  cbn [bind fst snd].
  destruct (generateFingerprint_effect _ _ _ E6) as [S6 C6].
  intros [= <-]. exists signals, issues, artifacts.
  cbn [final_checks final_score behaviors isBot fingerprint calculateScore score checks
       cdp check_webdriver headlessSignals navigatorIssues automationArtifacts
       behaviorScore].
  rewrite C6, C5, C4, C3, C2, C1.
  cbn [cdp check_webdriver headlessSignals navigatorIssues automationArtifacts
       behaviorScore].
  assert (Hscore : score s6
                   = cdp_points + (if webdriver_flag then 45 else 0) + permission_points
                     + headless_points signals + navigator_points issues
                     + (if (0 <? List.length artifacts)%nat then 50 else 0)
                     + fingerprint_points fp).
  { rewrite S6, S5, S4, S3, S2, S1. cbn [score fresh]. lia. }
  repeat (split; [first [reflexivity | lia | exact Hscore]|]).
  intros Hc Hn. rewrite Hscore.
  unfold cdp_points, permission_points, headless_points, navigator_points,
    fingerprint_points.
  destruct (stack_serialized env), webdriver_flag,
    (permissions (navigator env)) as [| | |[|]],
    (0 <? List.length issues)%nat, (0 <? List.length artifacts)%nat,
    (fp_canvas fp), (fp_webgl fp); lia.
Qed.

(** X19. [detect()] ends without a result exactly when one of its
    unguarded steps throws: [navigator.plugins] or [navigator.mimeTypes] is
    missing, the document has no root element (and the Selenium recorder
    global is not there to cut the test short), or no 2D context can be had
    for the font probe. Nothing else in the browser makes it fail. *)
Theorem detect_rejects_iff :
  detect config env = Throw
  <-> plugins (navigator env) = None
      \/ mimeTypes (navigator env) = None
      \/ (_Selenium_IDE_Recorder (window env) = false /\ documentElement env = None)
      \/ context2d env = Returns None
      \/ context2d env = Raises.
Proof.
  unfold detect, detectHeadless, checkAutomationArtifacts, generateFingerprint,
    getFontFingerprint.
  destruct (plugins (navigator env)) as [np|]; cbn [deref bind]; [|tauto].
  destruct (mimeTypes (navigator env)) as [nm|]; cbn [deref bind]; [|tauto].
  destruct (_Selenium_IDE_Recorder (window env)); cbn [bind].
  - destruct (context2d env) as [[ctx|]|]; cbn [lift deref bind].
    + split; [discriminate|].
      intros [E|[E|[[E _]|[E|E]]]]; discriminate.
    + tauto.
    + tauto.
  - destruct (documentElement env) as [root|]; cbn [deref bind]; [|tauto].
    destruct (context2d env) as [[ctx|]|]; cbn [lift deref bind].
    + split; [discriminate|].
      intros [E|[E|[[_ E]|[E|E]]]]; discriminate.
    + tauto.
    + tauto.
Qed.

End DetectorScore.

(* ===================================================================== *)
(** ** The confidence of a result *)
(* ===================================================================== *)

Section Confidence.

Import Js Detector.

Variable config : Config.

(** The confidence of a score, as [getResult] computes it in binary64. *)
Definition confidence_of (score : Z) : Z :=
  confidence (getResult config {| score := score; checks := no_checks |}).

(** [Math.round(2 * score / 3)] in exact arithmetic, capped at 100. *)
Definition exact_confidence (score : Z) : Z := Z.min ((4 * score + 3) / 6) 100.

Definition agree_up_to (n : nat) : bool :=
  forallb (fun k => confidence_of (Z.of_nat k) =? exact_confidence (Z.of_nat k))
          (seq 0 (S n)).

Lemma agree_up_to_500 : agree_up_to 500 = true.
Proof. vm_compute. reflexivity. Qed.

Lemma confidence_exact score :
  0 <= score <= 500 -> confidence_of score = exact_confidence score.
Proof.
  intros Hs. pose proof agree_up_to_500 as Hall. unfold agree_up_to in Hall.
  rewrite forallb_forall in Hall.
  specialize (Hall (Z.to_nat score)). rewrite Z2Nat.id in Hall by lia.
  apply Z.eqb_eq, Hall, in_seq. lia.
Qed.

(** X20. For a score between 0 and 500, the confidence [getResult]
    reports is the nearest integer to two thirds of the score, capped at
    100: the division by 150 and the multiplication by 100 in binary64
    never land on the wrong side of a half. It grows with the score and is
    100 exactly from 150 on. With the default threshold of 70, [isBot] holds
    exactly when the verdict is "Likely Bot" or "Definite Bot". *)
Theorem getResult_confidence s :
  0 <= score s <= 500 ->
  let r := getResult config s in
  confidence r = Z.min ((4 * score s + 3) / 6) 100
  /\ 0 <= confidence r <= 100
  /\ (confidence r = 100 <-> 150 <= score s)
  /\ (forall s', score s <= score s' <= 500 ->
                 confidence r <= confidence (getResult config s'))
  /\ (threshold config = 70 ->
      (result_isBot r = true
       <-> result_verdict r = "Likely Bot"%string
           \/ result_verdict r = "Definite Bot"%string)).
Proof.
  intros Hs r.
  assert (Hconf : forall s0, 0 <= score s0 <= 500 ->
            confidence (getResult config s0) = Z.min ((4 * score s0 + 3) / 6) 100).
  { intros s0 H0. exact (confidence_exact (score s0) H0). }
  unfold r. rewrite (Hconf s Hs).
  assert (Hq : 0 <= (4 * score s + 3) / 6) by (apply Z.div_pos; lia).
  split; [reflexivity|]. split; [lia|]. split; [|split].
  - split.
    + intros E. assert (Hq' : 100 <= (4 * score s + 3) / 6) by lia.
      apply Z.nlt_ge. intros Hlt.
      assert ((4 * score s + 3) / 6 < 100)
        by (apply Z.div_lt_upper_bound; lia).
      lia.
    + intros H150. assert (100 <= (4 * score s + 3) / 6); [|lia].
      apply Z.div_le_lower_bound; lia.
  - intros s' Hs'. rewrite (Hconf s') by lia.
    assert ((4 * score s + 3) / 6 <= (4 * score s' + 3) / 6)
      by (apply Z.div_le_mono; lia).
    lia.
  - intros Ht. cbn [getResult result_isBot result_verdict]. rewrite Ht.
    destruct (Z.leb_spec 100 (score s)), (Z.leb_spec 70 (score s)),
      (Z.leb_spec 40 (score s)); try lia;
      split; intros E; try reflexivity; try discriminate; try tauto;
      destruct E as [E|E]; discriminate.
Qed.

End Confidence.

(* ===================================================================== *)
(** ** Random labels and challenges *)
(* ===================================================================== *)

Section Labels.

Import Js Server.

(** X21. The hexadecimal text of the random bytes loses nothing: two
    draws give the same subdomain label exactly when their six bytes are
    equal, and the same challenge exactly when their sixteen bytes are, so
    there are 2^48 labels and 2^128 challenges. *)
Theorem random_text_is_faithful rd rd' :
  (generateRandomSubdomain rd = generateRandomSubdomain rd'
   <-> forall i, (i < 6)%nat -> subdomain_bytes rd i = subdomain_bytes rd' i)
  /\ (Hex.of_bytes (randomBytes (challenge_bytes rd) 16)
      = Hex.of_bytes (randomBytes (challenge_bytes rd') 16)
      <-> forall i, (i < 16)%nat -> challenge_bytes rd i = challenge_bytes rd' i).
Proof.
  unfold generateRandomSubdomain. split; rewrite <- randomBytes_equal;
    (split; [apply of_bytes_injective; apply randomBytes_range|intros ->; reflexivity]).
Qed.

End Labels.

(* ===================================================================== *)
(** ** What the handlers read *)
(* ===================================================================== *)

Section Unread.

Import Js Server.

Context `{Platform}.
Variable target : string.

(** X23. The verification handler requires [behaviors] and never reads
    it: two requests from the same identity whose bodies agree on the
    fingerprint, the client score, the checks and the URL parameters, and
    both carry some truthy [behaviors], get the same response and leave the
    same state. *)
Theorem behaviors_are_not_scored rd req req' sc st :
  getClientIP req = getClientIP req' ->
  prop (Some (body req)) "fingerprint" = prop (Some (body req')) "fingerprint" ->
  prop (Some (body req)) "clientScore" = prop (Some (body req')) "clientScore" ->
  prop (Some (body req)) "checks" = prop (Some (body req')) "checks" ->
  prop (Some (body req)) "urlParams" = prop (Some (body req')) "urlParams" ->
  truthy (prop (Some (body req)) "behaviors") = true ->
  truthy (prop (Some (body req')) "behaviors") = true ->
  verify_human target rd req sc st = verify_human target rd req' sc st.
Proof.
  intros Hwho Hf Hc Hk Hu Hb Hb'. unfold verify_human.
  rewrite Hwho, Hf, Hc, Hk, Hu, Hb, Hb'. reflexivity.
Qed.

(** X24. A challenge issued by [/api/challenge] and sent back with a text
    nonce and a numeric timestamp is never refused as malformed and never
    makes the handler throw: the answer is "Challenge expired" when
    [now - timestamp > 30000], and otherwise says whether the SHA-256 digest
    of the challenge followed by the nonce starts with four zeros. A numeric
    nonce is hashed as its decimal text: it gets the answer of the text
    nonce that spells it. *)
Theorem issued_challenge_is_verifiable rd rd' req nonce issued :
  let c := Hex.of_bytes (randomBytes (challenge_bytes rd) 16) in
  prop (Some (body req)) "challenge" = Some (JStr c) ->
  prop (Some (body req)) "nonce" = Some (JStr nonce) ->
  prop (Some (body req)) "timestamp" = Some (JNum issued) ->
  number_truthy issued = true ->
  verify_pow rd' req
  = (if gt (age rd' issued) 30000%float
     then {| status := 200; content := BPow false (Some "Challenge expired"%string) |}
     else {| status := 200;
             content := BPow (4 <=? Hex.leading_zeros (Sha256.hex (c ++ nonce)))%nat
                             None |})
  /\ (forall req2 x,
        prop (Some (body req2)) "challenge" = Some (JStr c) ->
        prop (Some (body req2)) "nonce" = Some (JNum x) ->
        prop (Some (body req2)) "timestamp" = Some (JNum issued) ->
        NumberToString x = nonce ->
        verify_pow rd' req2 = verify_pow rd' req).
Proof.
  intros c Hc Hn Ht Htruthy.
  assert (Hne : is_empty c = false).
  { apply (nonempty_of_length c 31). unfold c.
    rewrite of_bytes_length, randomBytes_length. reflexivity. }
  assert (Hfirst : verify_pow rd' req
    = (if gt (age rd' issued) 30000%float
       then {| status := 200; content := BPow false (Some "Challenge expired"%string) |}
       else {| status := 200;
               content := BPow (4 <=? Hex.leading_zeros (Sha256.hex (c ++ nonce)))%nat
                               None |})).
  { unfold verify_pow. rewrite Hc, Hn, Ht. cbn [truthy ToNumber]. rewrite Hne, Htruthy.
    cbn [negb orb]. unfold age.
    destruct (gt (PrimFloat.sub (of_Z (now_pow rd')) issued) 30000%float);
      [reflexivity|].
    cbn [plus stringish orb ToString and_then]. rewrite startsWith_zeros. reflexivity. }
  split; [exact Hfirst|].
  intros req2 x Hc2 Hn2 Ht2 Hx. rewrite Hfirst.
  unfold verify_pow. rewrite Hc2, Hn2, Ht2. cbn [truthy ToNumber]. rewrite Hne, Htruthy.
  cbn [negb orb]. unfold age.
  destruct (gt (PrimFloat.sub (of_Z (now_pow rd')) issued) 30000%float);
    [reflexivity|].
  cbn [plus stringish orb ToString and_then]. rewrite Hx, startsWith_zeros. reflexivity.
Qed.

End Unread.

(* ===================================================================== *)
(** ** Sample requests *)
(* ===================================================================== *)

Module Samples.

Import Js Server.
#[local] Open Scope string_scope.

Definition target : string := "https://example.com".

(** The handlers on the reference platform, with this target. *)
Definition app := @app Reference.platform target.
Definition serve := @serve Reference.platform target.
Definition verify_human := @verify_human Reference.platform target.
Definition verify_pow := @verify_pow Reference.platform.

(** Noon, no sweep drawn, every random byte [0xab]. *)
Definition quiet : Readings := Reference.at_time 1700000000000 0.5%float Byte.xab.

Definition fingerprint : json :=
  JObj [("canvas", JStr "1a2b3c"); ("fonts", JArr [JStr "Arial"])].

(** What the detector page posts for a browser driven by WebDriver. *)
Definition driven : json :=
  JObj [ ("fingerprint", fingerprint);
         ("behaviors", JObj [("click", JBool false)]);
         ("clientScore", JNum 45%float);
         ("checks", JObj [ ("cdp", JBool false);
                           ("webdriver", JBool true);
                           ("headlessSignals", JArr []);
                           ("automationArtifacts", JArr []) ]);
         ("urlParams", JObj [("path", JStr "/foo"); ("query", JNull)]) ].

(** The same payload with an object where the client score goes. *)
Definition driven_without_number : json :=
  JObj [ ("fingerprint", fingerprint);
         ("behaviors", JObj [("click", JBool false)]);
         ("clientScore", JObj []);
         ("checks", JObj [ ("cdp", JBool false);
                           ("webdriver", JBool true);
                           ("headlessSignals", JArr []);
                           ("automationArtifacts", JArr []) ]);
         ("urlParams", JObj [("path", JStr "/foo"); ("query", JNull)]) ].

(** The same browser reporting a client score of 0. *)
Definition driven_zero : json :=
  JObj [ ("fingerprint", fingerprint);
         ("behaviors", JObj [("click", JBool false)]);
         ("clientScore", JNum 0%float);
         ("checks", JObj [ ("cdp", JBool false);
                           ("webdriver", JBool true);
                           ("headlessSignals", JArr []);
                           ("automationArtifacts", JArr []) ]);
         ("urlParams", JObj [("path", JStr "/foo"); ("query", JNull)]) ].

(** What the page posts for an ordinary visitor who opened [/foo]. *)
Definition visitor : json :=
  JObj [ ("fingerprint", fingerprint);
         ("behaviors", JObj [("click", JBool false)]);
         ("clientScore", JNum 15%float);
         ("checks", JObj [ ("cdp", JBool false);
                           ("webdriver", JBool false);
                           ("headlessSignals", JArr [JStr "no-plugins"]);
                           ("automationArtifacts", JArr []) ]);
         ("urlParams", JObj [("path", JStr "/foo")]) ].

(** A solved challenge, submitted ten seconds after it was issued; the same
    with an object where the timestamp goes; and one without a nonce. *)
Definition solved : json :=
  JObj [ ("challenge", JStr "00112233445566778899aabbccddeeff");
         ("nonce", JNum 60803%float);
         ("timestamp", JNum 1699999990000%float) ].

Definition solved_without_clock : json :=
  JObj [ ("challenge", JStr "00112233445566778899aabbccddeeff");
         ("nonce", JStr "60803");
         ("timestamp", JObj []) ].

Definition unsolved : json :=
  JObj [ ("challenge", JStr "00112233445566778899aabbccddeeff");
         ("timestamp", JNum 1699999990000%float) ].

Definition post (p : string) (b : json) : Request :=
  Reference.request "POST" p (Some "Mozilla/5.0 (X11; Linux x86_64)") "198.51.100.7" b.

Definition driven_answer : Verification :=
  {| allowed := false;
     verdict := "likely-bot";
     score := 92.5%float;
     signals := ["webdriver-detected"];
     redirectUrl := None |}.

Definition zero_answer : Verification :=
  {| allowed := true;
     verdict := "suspicious";
     score := 70%float;
     signals := ["webdriver-detected"];
     redirectUrl := Some "https://abababababab.example.com/foo" |}.

Definition visitor_answer : Verification :=
  {| allowed := true;
     verdict := "human";
     score := 7.5%float;
     signals := [];
     redirectUrl := Some "https://abababababab.example.com/foo" |}.

(** The answer to the same fingerprint posted from another address once
    the visitor above is on record. *)
Definition second_answer : Verification :=
  {| allowed := true;
     verdict := "human";
     score := 27.5%float;
     signals := ["fingerprint-reuse"];
     redirectUrl := Some "https://abababababab.example.com/foo" |}.

Definition elsewhere : Request :=
  Reference.request "POST" "/api/verify-human"
    (Some "Mozilla/5.0 (X11; Linux x86_64)") "203.0.113.9" visitor.




Definition page : Request :=
  Reference.request "GET" "/" (Some "Mozilla/5.0 (X11; Linux x86_64)")
    "198.51.100.7" (JObj []).

(** Ten page requests of the browser in the same millisecond. *)
Definition burst : list (Readings * Request) := repeat (quiet, page) 10.

(** A desktop Chrome, and the same without [navigator.plugins]. *)
Definition chrome_navigator (plugins : option nat) : Detector.Navigator :=
  {| Detector.webdriver := Some false;
     Detector.userAgent :=
       "Mozilla/5.0 (X11; Linux x86_64) AppleWebKit/537.36 Chrome/120.0 Safari/537.36";
     Detector.plugins := plugins;
     Detector.mimeTypes := Some 2%nat;
     Detector.languages := Some ["en-US"; "en"];
     Detector.language := Some "en-US";
     Detector.platform := Some "Linux x86_64";
     Detector.hardwareConcurrency := Some 8%float;
     Detector.deviceMemory := Some 8%float;
     Detector.vendor := Some "Google Inc.";
     Detector.permissions := Detector.QueryPending;
     Detector.cookieEnabled := true;
     Detector.doNotTrack := None;
     Detector.maxTouchPoints := 0;
     Detector.vendorSub := "";
     Detector.productSub := "20030107" |}.

Definition chrome_window : Detector.Window :=
  {| Detector.chrome := true;
     Detector.callPhantom := false;
     Detector._phantom := false;
     Detector._Selenium_IDE_Recorder := false;
     Detector.cdc_adoQpoasnfa76pfcZLmcfl_Array := false;
     Detector.cdc_adoQpoasnfa76pfcZLmcfl_Promise := false;
     Detector.cdc_adoQpoasnfa76pfcZLmcfl_Symbol := false;
     Detector.__playwright__ := false;
     Detector.__pw_manual := false;
     Detector.__PW_inspect := false;
     Detector.__nightmare := false;
     Detector.devicePixelRatio := 1%float |}.

Definition drawing : Detector.Context2D :=
  {| Detector.toDataURL := Detector.Returns "data:image/png;base64,iVBORw0KGgo";
     Detector.measured_width :=
       fun font => if Text.contains "Arial" font then 613%float else 600%float |}.

Definition chrome_browser (plugins : option nat) : Detector.Browser :=
  {| Detector.navigator := chrome_navigator plugins;
     Detector.window := chrome_window;
     Detector.stack_serialized := false;
     Detector.documentElement :=
       Some {| Detector.attr_selenium := None; Detector.attr_driver := None |};
     Detector.context2d := Detector.Returns (Some drawing);
     Detector.webgl :=
       Detector.Returns
         (Some {| Detector.debug_renderer_info :=
                    Some {| Detector.gl_vendor := "Google Inc. (Intel)";
                            Detector.gl_renderer := "ANGLE (Intel, Mesa)";
                            Detector.gl_version := "WebGL 1.0";
                            Detector.gl_shadingLanguageVersion := "WebGL GLSL ES 1.0" |};
                  Detector.supportedExtensions := Some 30%nat |});
     Detector.AudioContext :=
       Some (Detector.Returns
               {| Detector.sampleRate := 48000%float;
                  Detector.state := "suspended";
                  Detector.baseLatency := Some 0.01%float;
                  Detector.outputLatency := Some 0%float |});
     Detector.screen :=
       {| Detector.width := 1920; Detector.height := 1080;
          Detector.availWidth := 1920; Detector.availHeight := 1053;
          Detector.colorDepth := 24; Detector.pixelDepth := 24;
          Detector.orientation := Some "landscape-primary" |};
     Detector.timeZone := "Europe/Paris";
     Detector.timezoneOffset := -60 |}.

(** The configuration the page passes to the constructor. *)
Definition page_config : Detector.Config :=
  {| Detector.cdpWeight := 50; Detector.behaviorWeight := 40;
     Detector.fingerprintWeight := 30; Detector.timingWeight := 25;
     Detector.navigatorWeight := 20; Detector.threshold := 80;
     Detector.behaviorTimeout := 3000 |}.

Definition nan_answer : Verification :=
  {| allowed := true;
     verdict := "human";
     score := nan;
     signals := ["webdriver-detected"];
     redirectUrl := Some "https://abababababab.example.com/foo" |}.

End Samples.

(* ===================================================================== *)
(** ** The verdict ladder on concrete answers *)
(* ===================================================================== *)

(** C1, as stated, fails: a payload whose [clientScore] is an object gets
    the score NaN, the verdict "human" and [allowed = true], although the
    score is neither below 50 nor below 80. *)
Lemma verdict_ladder_fails_on_nan :
  fst (Samples.app Samples.quiet
         (Samples.post "/api/verify-human" Samples.driven_without_number)
         Server.initial)
  = {| Server.status := 200; Server.content := Server.BVerification Samples.nan_answer |}
  /\ Server.verdict Samples.nan_answer = "human"%string
  /\ Server.allowed Samples.nan_answer = true
  /\ Js.lt (Server.score Samples.nan_answer) 50%float = false
  /\ Js.lt (Server.score Samples.nan_answer) 80%float = false.
Proof. vm_compute. repeat split; reflexivity. Qed.

Lemma verdict_ladder_witness :
  fst (Samples.verify_human Samples.quiet
         (Samples.post "/api/verify-human" Samples.driven)
         Server.unscored Server.initial)
  = {| Server.status := 200; Server.content := Server.BVerification Samples.driven_answer |}
  /\ (Server.verdict Samples.driven_answer = "likely-bot"%string
      <-> Js.ge (Server.score Samples.driven_answer) 80%float = true
          /\ Js.lt (Server.score Samples.driven_answer) 100%float = true).
Proof.
  assert (Hans : fst (Samples.verify_human Samples.quiet
                        (Samples.post "/api/verify-human" Samples.driven)
                        Server.unscored Server.initial)
                 = {| Server.status := 200;
                      Server.content := Server.BVerification Samples.driven_answer |})
    by (vm_compute; reflexivity).
  split; [exact Hans|].
  exact (proj1 (proj2 (verdict_ladder Samples.target Samples.quiet _ _ _ _ Hans))).
Defined.

(* ===================================================================== *)
(** ** The score, the chain and the redirect on concrete requests *)
(* ===================================================================== *)

Lemma final_score_witness :
  fst (Samples.verify_human Samples.quiet
         (Samples.post "/api/verify-human" Samples.driven)
         Server.unscored Server.initial)
  = {| Server.status := 200; Server.content := Server.BVerification Samples.driven_answer |}
  /\ Server.score Samples.driven_answer
     = @expected_score 0%float 45%float false true false false false
  /\ Server.score Samples.driven_answer = 92.5%float.
Proof.
  assert (Hans : fst (Samples.verify_human Samples.quiet
                        (Samples.post "/api/verify-human" Samples.driven)
                        Server.unscored Server.initial)
                 = {| Server.status := 200;
                      Server.content := Server.BVerification Samples.driven_answer |})
    by (vm_compute; reflexivity).
  split; [exact Hans|].
  destruct (final_score Samples.target Samples.quiet _ _ _ _ Hans)
    as (fp & c & a & h & Hfp & _ & Hnumber & _ & _ & _ & Hscore & Hchecks & _).
  specialize (Hnumber 45%float eq_refl). cbn in Hnumber.
  destruct (Hchecks false true [] [] eq_refl eq_refl eq_refl eq_refl)
    as (Hcdp & Hwd & Ha & Hh).
  injection Hfp as <-.
  rewrite Hnumber, Hcdp, Hwd, Ha, Hh in Hscore.
  split; [exact Hscore|reflexivity].
Defined.

Lemma api_requests_carry_no_server_score_witness :
  Js.startsWith (Server.path (Samples.post "/api/verify-human" Samples.driven)) "/api/"
  = true
  /\ Server.botDetection Samples.quiet
       (Samples.post "/api/verify-human" Samples.driven) Server.initial
     = (Server.Next Server.unscored, Server.initial).
Proof.
  split; [reflexivity|].
  exact (proj1 (@api_requests_carry_no_server_score Reference.platform Samples.target
                  Samples.quiet (Samples.post "/api/verify-human" Samples.driven)
                  Server.initial eq_refl)).
Defined.


Lemma malformed_requests_change_nothing_witness :
  Js.prop (Some (Server.body (Samples.post "/api/verify-pow" Samples.unsolved)))
    "nonce" = None
  /\ Samples.app Samples.quiet (Samples.post "/api/verify-pow" Samples.unsolved)
       Server.initial
     = ({| Server.status := 400;
           Server.content := Server.BError "Missing required data" |},
        Server.initial).
Proof.
  split; [reflexivity|].
  exact (proj2 (@malformed_requests_change_nothing Reference.platform Samples.target
                  Samples.quiet (Samples.post "/api/verify-pow" Samples.unsolved)
                  Server.initial eq_refl eq_refl)
               eq_refl (or_intror (or_introl eq_refl))).
Defined.



(* ===================================================================== *)
(** ** Proof of work on concrete submissions *)
(* ===================================================================== *)

(** C5, as stated, fails: a solved challenge submitted with an object as
    its timestamp is accepted, although [now - timestamp] is NaN and so not
    at most 30000. *)
Lemma pow_accepts_without_a_clock :
  Samples.verify_pow Samples.quiet
    (Samples.post "/api/verify-pow" Samples.solved_without_clock)
  = {| Server.status := 200; Server.content := Server.BPow true None |}
  /\ Js.ToNumber Reference.read_number Reference.print_number
       (Js.prop (Some Samples.solved_without_clock) "timestamp")
     = Js.Normal nan
  /\ Js.le (age Samples.quiet nan) 30000%float = false.
Proof. vm_compute. repeat split; reflexivity. Qed.

Lemma pow_verification_witness :
  Js.gt (age Samples.quiet 1699999990000%float) 30000%float = false
  /\ Samples.verify_pow Samples.quiet (Samples.post "/api/verify-pow" Samples.solved)
     = {| Server.status := 200;
          Server.content :=
            Server.BPow (4 <=? Hex.leading_zeros
                                 (Sha256.hex "00112233445566778899aabbccddeeff60803"))%nat
                        None |}.
Proof.
  assert (Hfresh : Js.gt (age Samples.quiet 1699999990000%float) 30000%float = false)
    by (vm_compute; reflexivity).
  split; [exact Hfresh|].
  exact (proj1 (proj2 (@pow_verification Reference.platform Samples.quiet
                         (Samples.post "/api/verify-pow" Samples.solved)
                         (Js.JStr "00112233445566778899aabbccddeeff")
                         (Js.JNum 60803%float) 1699999990000%float
                         eq_refl eq_refl eq_refl eq_refl eq_refl))
               Hfresh).
Defined.

(* ===================================================================== *)
(** ** The rate limiter and the ledger on concrete traces *)
(* ===================================================================== *)

Lemma rate_limiter_window_witness :
  within 1700000000000 Samples.burst
  /\ (10 <= accesses (Server.getClientIP Samples.page) Samples.burst)%nat
  /\ In "rate-limit-exceeded"%string
        (Server.names (fst (Server.classify Samples.quiet Samples.page
                              (Samples.serve Samples.burst Server.initial)))).
Proof.
  assert (Hwin : within 1700000000000 Samples.burst).
  { intros rd req Hin _. apply repeat_spec in Hin. injection Hin as -> ->.
    cbn. unfold Server.rateLimitWindow. lia. }
  assert (Hnow : 1700000000000 <= now_rate Samples.quiet < 1700000000000 + 60000)
    by (cbn; lia).
  assert (Hten : (10 <= accesses (Server.getClientIP Samples.page) Samples.burst)%nat)
    by (vm_compute; lia).
  split; [exact Hwin|]. split; [exact Hten|].
  exact (proj1 (proj2 (proj1 (proj2 (@rate_limiter_window Reference.platform
                                       Samples.target))
                         1700000000000 Samples.burst Server.initial
                         Samples.quiet Samples.page Hwin Hnow Hten))).
Defined.

(** C7, as stated, fails: the server reads [Date.now()] afresh at every
    observation, so when the clock is set back by a second between two
    requests of the same visitor, the record is last seen before it was
    first seen. *)
Lemma fingerprint_ledger_fails_when_clock_steps_back :
  let earlier := Reference.at_time 1699999999000 0.5%float Byte.xab in
  let visit := Samples.post "/api/verify-human" Samples.visitor in
  let st := snd (Samples.app earlier visit
                   (snd (Samples.app Samples.quiet visit Server.initial))) in
  @served Reference.platform Samples.target st
  /\ exists h r,
       Server.fingerprintStore st !! h = Some r
       /\ Server.count r = 2
       /\ Server.firstSeen r = 1700000000000
       /\ Server.lastSeen r = 1699999999000
       /\ ~ Server.firstSeen r <= Server.lastSeen r.
Proof.
  cbn zeta. split.
  - apply served_step, served_step, served_initial.
  - exists (Reference.render Samples.fingerprint).
    eexists. split; [vm_compute; reflexivity|].
    cbn. repeat split; lia.
Qed.

Lemma fingerprint_ledger_witness :
  fst (Samples.app Samples.quiet Samples.elsewhere
         (snd (Samples.app Samples.quiet
                 (Samples.post "/api/verify-human" Samples.visitor) Server.initial)))
  = {| Server.status := 200; Server.content := Server.BVerification Samples.second_answer |}
  /\ (In "fingerprint-reuse"%string (Server.signals Samples.second_answer)
      <-> Server.getClientIP (Samples.post "/api/verify-human" Samples.visitor)
          <> Server.getClientIP Samples.elsewhere).
Proof.
  assert (H1 : fst (Samples.app Samples.quiet
                      (Samples.post "/api/verify-human" Samples.visitor)
                      Server.initial)
               = {| Server.status := 200;
                    Server.content := Server.BVerification Samples.visitor_answer |})
    by (vm_compute; reflexivity).
  assert (H2 : fst (Samples.app Samples.quiet Samples.elsewhere
                      (snd (Samples.app Samples.quiet
                              (Samples.post "/api/verify-human" Samples.visitor)
                              Server.initial)))
               = {| Server.status := 200;
                    Server.content := Server.BVerification Samples.second_answer |})
    by (vm_compute; reflexivity).
  split; [exact H2|].
  exact (proj1 (proj2 (proj2 (proj2 (proj2 (proj2 (@fingerprint_ledger
                                                     Reference.platform
                                                     Samples.target))))
                         Samples.quiet
                         (Samples.post "/api/verify-human" Samples.visitor)
                         Samples.quiet Samples.elsewhere Server.initial
                         Samples.fingerprint Samples.fingerprint
                         Samples.visitor_answer Samples.second_answer
                         (conj eq_refl (conj eq_refl (conj eq_refl eq_refl)))
                         (conj eq_refl (conj eq_refl (conj eq_refl eq_refl)))
                         eq_refl eq_refl (or_introl eq_refl) H1 H2))).
Defined.

(* ===================================================================== *)
(** ** The detector on concrete browsers *)
(* ===================================================================== *)

(** C8, as stated, fails: in a browser without [navigator.plugins] the
    headless check throws and [detect()] ends without a result. *)
Lemma detect_gives_up_without_plugins :
  Detector.detectHeadless (Samples.chrome_browser None)
    (Detector.detectWebDriver (Samples.chrome_browser None)
       (Detector.detectCDP Samples.page_config (Samples.chrome_browser None)
          Detector.fresh))
  = Detector.Throw
  /\ Detector.detect Samples.page_config (Samples.chrome_browser None)
     = Detector.Throw.
Proof. split; reflexivity. Qed.

Lemma guarded_probes_are_isolated_witness :
  let env := with_probes (Samples.chrome_browser (Some 3%nat)) Samples.drawing
               Detector.Raises Detector.Raises (Some Detector.Raises) in
  unguarded_steps_succeed env
  /\ exists d,
       Detector.detect Samples.page_config env = Detector.Ok d
       /\ Detector.fp_canvas (Detector.fingerprint d) = None
       /\ Detector.fp_webgl (Detector.fingerprint d) = None
       /\ Detector.fp_audio (Detector.fingerprint d) = None.
Proof.
  cbn zeta.
  assert (Hok : unguarded_steps_succeed
                  (with_probes (Samples.chrome_browser (Some 3%nat)) Samples.drawing
                     Detector.Raises Detector.Raises (Some Detector.Raises))).
  { split; [discriminate|]. split; [discriminate|]. right. discriminate. }
  split; [exact Hok|].
  destruct (guarded_probes_are_isolated Samples.page_config
              (with_probes (Samples.chrome_browser (Some 3%nat)) Samples.drawing
                 Detector.Raises Detector.Raises (Some Detector.Raises)))
    as (Hcaught & Hruns & _).
  destruct (Hruns Hok) as [s Hs].
  destruct (Hcaught s _ Hs eq_refl) as (d & Hd & _ & Hc & Hg & _ & Ha).
  exists d. split; [exact Hd|].
  split; [exact (Hc eq_refl)|]. split; [exact (Hg eq_refl)|exact (Ha eq_refl)].
Defined.

(* ===================================================================== *)
(** ** Identities, routes and the catalogue on concrete requests *)
(* ===================================================================== *)

Module Visits.

Import Js Server.
#[local] Open Scope string_scope.

(** A page request that came through two proxies. *)
Definition forwarded : Request :=
  {| method := "GET"; path := "/";
     user_agent := Some "Mozilla/5.0 (X11; Linux x86_64)";
     x_forwarded_for := Some " 203.0.113.9 , 10.0.0.1";
     x_real_ip := Some "10.0.0.1";
     req_ip := Some "10.0.0.2";
     remoteAddress := Some "10.0.0.2";
     body := JObj [] |}.

(** A crawler asking for the server's own source. *)
Definition source_request : Request :=
  Reference.request "GET" "/server.js" (Some "bot") "198.51.100.7" (JObj []).


Definition challenge_request : Request :=
  Reference.request "POST" "/api/challenge" (Some "bot") "198.51.100.7" (JObj []).

(** The payload of a driven browser, posted by a command-line client to the
    verification route in capitals. *)
Definition shouted : Request :=
  Reference.request "POST" "/API/verify-human" (Some "curl/8.0") "198.51.100.7"
    Samples.driven.

(** A payload whose client score is an object with a [toString] entry. *)
Definition hostile : json :=
  JObj [ ("fingerprint", Samples.fingerprint);
         ("behaviors", JObj [("click", JBool false)]);
         ("clientScore", JObj [("toString", JNum 1%float)]) ].

End Visits.

Lemma getClientIP_forwarded_witness :
  Server.getClientIP Visits.forwarded = Some "203.0.113.9"%string.
Proof.
  exact (proj1 (proj1 (getClientIP_forwarded Visits.forwarded)
                  " 203.0.113.9 , 10.0.0.1"%string eq_refl eq_refl)).
Defined.

Lemma bot_ua_ignores_case_witness :
  Text.ci_equal "CURL/8.0" "curl/8.0" = true
  /\ (In "bot-ua"%string
         (Server.names (fst (Server.classify Samples.quiet
                               (with_user_agent (Some "CURL/8.0"%string) Samples.page)
                               Server.initial)))
      <-> In "bot-ua"%string
            (Server.names (fst (Server.classify Samples.quiet
                                  (with_user_agent (Some "curl/8.0"%string) Samples.page)
                                  Server.initial)))).
Proof.
  split; [reflexivity|].
  exact (proj2 (bot_ua_ignores_case Samples.quiet Samples.page Server.initial
                  "CURL/8.0" "curl/8.0" eq_refl)).
Defined.

Lemma bot_ua_token_anywhere_witness :
  In (Text.Lit "ProofPoint") Server.botPatterns
  /\ Text.test (Text.Lit "ProofPoint") "proofpoint" = true
  /\ In "bot-ua"%string
        (Server.names
           (fst (Server.classify Samples.quiet
                   (with_user_agent (Some "Mozilla/5.0 proofpoint scanner"%string)
                      Samples.page)
                   Server.initial))).
Proof.
  assert (Hin : In (Text.Lit "ProofPoint") Server.botPatterns) by (left; reflexivity).
  split; [exact Hin|]. split; [reflexivity|].
  exact (proj1 (bot_ua_token_anywhere Samples.quiet Samples.page Server.initial
                  (Text.Lit "ProofPoint") "proofpoint" "Mozilla/5.0 " " scanner"
                  Hin eq_refl)).
Defined.

Lemma rate_sweep_is_transparent_witness :
  1699999990000 <= now_rate Samples.quiet
  /\ fst (Server.classify Samples.quiet Samples.page
            {| Server.rateLimitStore :=
                 Server.rate_sweep 1699999990000
                   (Server.rateLimitStore
                      (Samples.serve Samples.burst Server.initial));
               Server.fingerprintStore :=
                 Server.fingerprintStore
                   (Samples.serve Samples.burst Server.initial) |})
     = fst (Server.classify Samples.quiet Samples.page
              (Samples.serve Samples.burst Server.initial)).
Proof.
  assert (Hle : 1699999990000 <= now_rate Samples.quiet) by (cbn; lia).
  split; [exact Hle|].
  exact (proj1 (rate_sweep_is_transparent 1699999990000 Samples.quiet Samples.page
                  (Samples.serve Samples.burst Server.initial) Hle)).
Defined.

Lemma rate_table_sequences_witness :
  @reachable Reference.platform Samples.target 1700000000000
    (snd (Samples.app Samples.quiet Samples.page Server.initial))
  /\ Server.rateLimitStore (snd (Samples.app Samples.quiet Samples.page Server.initial))
       !! Some "198.51.100.7"%string
     = Some [1700000000000]
  /\ [1700000000000] <> []
  /\ StronglySorted Z.le [1700000000000]
  /\ Forall (fun t => t <= 1700000000000) [1700000000000].
Proof.
  assert (Hreach : @reachable Reference.platform Samples.target 1700000000000
                     (snd (Samples.app Samples.quiet Samples.page Server.initial))).
  { apply (@reachable_step Reference.platform Samples.target 0 1700000000000).
    - apply reachable_initial.
    - unfold chronological. cbn. lia. }
  assert (Hlook : Server.rateLimitStore
                    (snd (Samples.app Samples.quiet Samples.page Server.initial))
                    !! Some "198.51.100.7"%string
                  = Some [1700000000000]) by (vm_compute; reflexivity).
  split; [exact Hreach|]. split; [exact Hlook|].
  exact (@rate_table_sequences Reference.platform Samples.target 1700000000000 _ Hreach _ _ Hlook).
Defined.


Lemma challenge_issued_witness :
  Js.startsWith (Server.path Visits.challenge_request) "/api/" = true
  /\ Server.has_method "POST" Visits.challenge_request = true
  /\ Server.route "/api/challenge" (Server.path Visits.challenge_request) = true
  /\ exists c,
       Samples.app Samples.quiet Visits.challenge_request Server.initial
       = ({| Server.status := 200;
             Server.content := Server.BChallenge c 4 (now_challenge Samples.quiet) |},
          Server.initial)
       /\ c = Hex.of_bytes (randomBytes (challenge_bytes Samples.quiet) 16)
       /\ String.length c = 32%nat
       /\ Js.every Hex.is_digit c = true.
Proof.
  split; [reflexivity|]. split; [reflexivity|]. split; [reflexivity|].
  exact (@challenge_issued Reference.platform Samples.target Samples.quiet Visits.challenge_request
           Server.initial eq_refl eq_refl eq_refl).
Defined.

Lemma verification_route_is_classified_under_other_case_witness :
  Server.has_method "POST" Visits.shouted = true
  /\ Server.route "/api/verify-human" (Server.path Visits.shouted) = true
  /\ Js.startsWith (Server.path Visits.shouted) "/api/" = false
  /\ Server.rateLimitStore (snd (Samples.app Samples.quiet Visits.shouted Server.initial))
     = table_after Samples.quiet Visits.shouted Server.initial.
Proof.
  split; [reflexivity|]. split; [reflexivity|]. split; [reflexivity|].
  exact (proj1 (@verification_route_is_classified_under_other_case Reference.platform Samples.target
                  Samples.quiet Visits.shouted Server.initial
                  eq_refl eq_refl eq_refl)).
Defined.

Lemma redirect_iff_allowed_witness :
  Js.is_empty Samples.target = false
  /\ fst (Samples.verify_human Samples.quiet
            (Samples.post "/api/verify-human" Samples.visitor)
            Server.unscored Server.initial)
     = {| Server.status := 200;
          Server.content := Server.BVerification Samples.visitor_answer |}
  /\ (Server.redirectUrl Samples.visitor_answer = None
      <-> Server.allowed Samples.visitor_answer = false).
Proof.
  assert (Hans : fst (Samples.verify_human Samples.quiet
                        (Samples.post "/api/verify-human" Samples.visitor)
                        Server.unscored Server.initial)
                 = {| Server.status := 200;
                      Server.content := Server.BVerification Samples.visitor_answer |})
    by (vm_compute; reflexivity).
  split; [reflexivity|]. split; [exact Hans|].
  exact (@redirect_iff_allowed Reference.platform Samples.target Samples.quiet _ _ _ _ eq_refl Hans).
Defined.

Lemma unconvertible_payload_witness :
  Samples.verify_human Samples.quiet
    (Samples.post "/api/verify-human" Visits.hostile) Server.unscored Server.initial
  = ({| Server.status := 500; Server.content := Server.BException |}, Server.initial).
Proof.
  pose proof (@unconvertible_payload Reference.platform Samples.target Samples.quiet
                (Samples.post "/api/verify-human" Visits.hostile)
                Server.unscored Server.initial) as (Hiff & Hstate & _).
  assert (Hthrown : fst (Server.verify_human Samples.target Samples.quiet
                           (Samples.post "/api/verify-human" Visits.hostile)
                           Server.unscored Server.initial)
                    = Server.thrown)
    by (apply Hiff; repeat split; reflexivity).
  apply injective_projections; [exact Hthrown|exact (Hstate Hthrown)].
Defined.

(* ===================================================================== *)
(** ** The detector's score on a concrete browser *)
(* ===================================================================== *)

Lemma detect_score_witness :
  exists d,
    Detector.detect Samples.page_config (Samples.chrome_browser (Some 3%nat))
    = Detector.Ok d
    /\ 0 <= Detector.final_score d <= 245.
Proof.
  destruct (Detector.detect Samples.page_config (Samples.chrome_browser (Some 3%nat)))
    as [d|] eqn:E; [|vm_compute in E; discriminate].
  exists d. split; [reflexivity|].
  destruct (detect_score Samples.page_config (Samples.chrome_browser (Some 3%nat)) d E)
    as (signals & issues & artifacts & _ & _ & _ & _ & _ & _ & _ & _ & _ & _ & Hbound).
  apply Hbound; cbn; lia.
Defined.

Lemma getResult_confidence_witness :
  0 <= 45 <= 500
  /\ Detector.confidence
       (Detector.getResult Detector.defaults
          {| Detector.score := 45; Detector.checks := Detector.no_checks |})
     = 30.
Proof.
  split; [lia|].
  exact (proj1 (getResult_confidence Detector.defaults
                  {| Detector.score := 45; Detector.checks := Detector.no_checks |}
                  ltac:(cbn; lia))).
Defined.



(* ===================================================================== *)
(** ** What the handlers read, on concrete requests *)
(* ===================================================================== *)

Module Replies.

Import Js Server.
#[local] Open Scope string_scope.

(** The visitor's payload from a page on which the visitor clicked and
    typed. *)
Definition busy_visitor : json :=
  JObj [ ("fingerprint", Samples.fingerprint);
         ("behaviors", JObj [("click", JBool true); ("keyboard", JBool true)]);
         ("clientScore", JNum 15%float);
         ("checks", JObj [ ("cdp", JBool false);
                           ("webdriver", JBool false);
                           ("headlessSignals", JArr [JStr "no-plugins"]);
                           ("automationArtifacts", JArr []) ]);
         ("urlParams", JObj [("path", JStr "/foo")]) ].

(** The challenge issued under the readings [Samples.quiet], sent back ten
    seconds later with the nonce [7]. *)
Definition returned : json :=
  JObj [ ("challenge", JStr "abababababababababababababababab");
         ("nonce", JStr "7");
         ("timestamp", JNum 1699999990000%float) ].

End Replies.

Lemma behaviors_are_not_scored_witness :
  Js.truthy (Js.prop (Some Samples.visitor) "behaviors") = true
  /\ Js.truthy (Js.prop (Some Replies.busy_visitor) "behaviors") = true
  /\ Samples.verify_human Samples.quiet
       (Samples.post "/api/verify-human" Samples.visitor) Server.unscored Server.initial
     = Samples.verify_human Samples.quiet
         (Samples.post "/api/verify-human" Replies.busy_visitor)
         Server.unscored Server.initial.
Proof.
  split; [reflexivity|]. split; [reflexivity|].
  exact (@behaviors_are_not_scored Reference.platform Samples.target Samples.quiet
           (Samples.post "/api/verify-human" Samples.visitor)
           (Samples.post "/api/verify-human" Replies.busy_visitor)
           Server.unscored Server.initial
           eq_refl eq_refl eq_refl eq_refl eq_refl eq_refl eq_refl).
Defined.

Lemma issued_challenge_is_verifiable_witness :
  Js.number_truthy 1699999990000%float = true
  /\ Samples.verify_pow Samples.quiet (Samples.post "/api/verify-pow" Replies.returned)
     = {| Server.status := 200;
          Server.content :=
            Server.BPow (4 <=? Hex.leading_zeros
                                 (Sha256.hex "abababababababababababababababab7"))%nat
                        None |}.
Proof.
  assert (Htruthy : Js.number_truthy 1699999990000%float = true)
    by (vm_compute; reflexivity).
  split; [exact Htruthy|].
  exact (proj1 (@issued_challenge_is_verifiable Reference.platform Samples.quiet
                  Samples.quiet (Samples.post "/api/verify-pow" Replies.returned)
                  "7" 1699999990000%float eq_refl eq_refl eq_refl Htruthy)).
Defined.
